(** * LLM-HR: the access-controlled tool layer and the chat-route
      reconciliation, embedded from the TypeScript sources.

    - [Rbac]      : lib/auth/rbac (permission matrix, ownership predicate)
    - [Js]        : the JavaScript operators the bodies use on values
    - [Prisma]    : the relational rows the tools read and write
    - [HrTools]   : lib/hr/tools.ts and lib/audit/logger (context carrier,
                    audit recorder, the tool bodies)
    - [ChatRoute] : app/api/chat/route.ts (finalize, POST resolution, turns
                    sharing the process)
    - [ChatResume]: app/api/chat/route.ts (the resumption endpoint)
    - [Accounts]  : app/api/auth/create-admin/route.ts and
                    app/api/admin/users/route.ts
    - [ClientAuth]: lib/auth/client and lib/api/client.ts (the stored
                    token and the Authorization header)
    - [Storage]   : lib/storage/files.ts
    - [PayrollSpec]: the payroll formula in the words of its specification,
                    to compare with the body of [calculatePayroll]

    JavaScript numbers are IEEE binary64 and are modelled by the
    primitive floats; rows and tool inputs are JavaScript objects and are
    modelled by finite maps from field names to values.  The store is
    taken to be reachable and the constraints of its schema (which is not
    among the sources) are not modelled: a [create] always inserts and an
    [update] throws exactly when no row has the id.  Whether the insert of
    an audit entry is accepted is the platform's to say, since the logger
    swallows a rejected one. *)

From Stdlib Require Import Floats ZArith.
From stdpp Require Import gmap strings list sorting.

(** ** Strings: [String.prototype.includes] *)

Fixpoint startsWith (s p : string) {struct p} : bool :=
  match p, s with
  | EmptyString, _ => true
  | String c p', String d s' => if Ascii.eqb c d then startsWith s' p' else false
  | String _ _, EmptyString => false
  end.

Fixpoint includes (s p : string) : bool :=
  startsWith s p ||
  match s with
  | EmptyString => false
  | String _ s' => includes s' p
  end.

(** ** lib/auth/rbac *)

Module Rbac.

Inductive Action := create | read | update | delete | approve.
Inductive Entity :=
  employee | contract | letter | attendance | payroll | benefit | user.

#[global] Instance Action_eq_dec : EqDecision Action.
Proof. solve_decision. Defined.
#[global] Instance Entity_eq_dec : EqDecision Entity.
Proof. solve_decision. Defined.

(** The string a template literal renders for a value of the union type. *)
Definition Action_str (a : Action) : string :=
  match a with
  | create => "create" | read => "read" | update => "update"
  | delete => "delete" | approve => "approve"
  end.

Definition Entity_str (e : Entity) : string :=
  match e with
  | employee => "employee" | contract => "contract" | letter => "letter"
  | attendance => "attendance" | payroll => "payroll"
  | benefit => "benefit" | user => "user"
  end.

(** Permission matrix: role -> entity -> actions.  [None] is the
    [undefined] that indexing the object with any other string yields. *)
Definition permissions (role : string) : option (Entity -> list Action) :=
  if decide (role = "HR_Admin") then Some (fun e =>
    match e with
    | employee => [create; read; update; delete]
    | contract => [create; read; update; delete]
    | letter => [create; read; update; delete]
    | attendance => [create; read; update; delete; approve]
    | payroll => [create; read; update; delete; approve]
    | benefit => [create; read; update; delete]
    | user => [create; read; update; delete]
    end)
  else if decide (role = "HR_Manager") then Some (fun e =>
    match e with
    | employee => [read; update]
    | contract => [read; update]
    | letter => [read; update]
    | attendance => [read; update; approve]
    | payroll => [read; update; approve]
    | benefit => [read; update]
    | user => [read]
    end)
  else if decide (role = "Employee") then Some (fun e =>
    match e with
    | employee => [read]
    | contract => [read]
    | letter => [read]
    | attendance => [create; read; update]
    | payroll => [read]
    | benefit => [read]
    | user => []
    end)
  else if decide (role = "Finance") then Some (fun e =>
    match e with
    | employee => [read]
    | contract => [read]
    | letter => [read]
    | attendance => [read]
    | payroll => [read; update; approve]
    | benefit => [read]
    | user => []
    end)
  else None.

Definition checkPermission (role : string) (action : Action) (entity : Entity)
  : bool :=
  match permissions role with
  | None => false
  | Some rolePermissions =>
      let entityPermissions := rolePermissions entity in
      bool_decide (action ∈ entityPermissions)
  end.

(** [requestingUserId] is optional: [None] is [undefined], which is
    [===] to no string. *)
Definition canAccessEmployee (role : string) (employeeId : string)
    (requestingUserId : option string) : bool :=
  if bool_decide (role = "HR_Admin") || bool_decide (role = "HR_Manager")
     || bool_decide (role = "Finance")
  then true
  else if bool_decide (role = "Employee")
  then bool_decide (Some employeeId = requestingUserId)
  else false.

End Rbac.

(** ** JavaScript values held in rows and tool inputs *)

Inductive Val :=
| VNull
| VBool (b : bool)
| VNum (x : float)
| VStr (s : string)
| VDate (t : Z).

(** A plain object: field name -> value; an absent key reads [undefined]. *)
Abbreviation Obj := (gmap string Val).

Module Js.

(** Falsy numbers are [0], [-0] and [NaN]. *)
Definition falsy_num (x : float) : bool :=
  PrimFloat.is_nan x || PrimFloat.is_zero x.

(** [v ? .. : ..] on a possibly undefined field. *)
Definition truthy (v : option Val) : bool :=
  match v with
  | None | Some VNull => false
  | Some (VBool b) => b
  | Some (VNum x) => negb (falsy_num x)
  | Some (VStr s) => negb (bool_decide (s = ""))
  | Some (VDate _) => true
  end.

(** [v || d] *)
Definition or_else (v : option Val) (d : Val) : Val :=
  match v with
  | Some x => if truthy v then x else d
  | None => d
  end.

(** A string-typed field read where the schema guarantees a string. *)
Definition str (v : option Val) : string :=
  match v with
  | Some (VStr s) => s
  | _ => ""
  end.

(** [userId || null] on the optional caller id. *)
Definition or_null (u : option string) : option string :=
  match u with
  | Some s => if bool_decide (s = "") then None else Some s
  | None => None
  end.

(** An object literal; a property whose value is [undefined] is left
    out, which is also how the store client reads it. *)
Definition obj (props : list (string * option Val)) : Obj :=
  list_to_map (omap (fun p => match p.2 with
                              | Some v => Some (p.1, v)
                              | None => None
                              end) props).

(** The integer a number denotes, when it denotes one. *)
Definition toInt (x : float) : option Z :=
  match FloatOps.Prim2SF x with
  | SpecFloat.S754_zero _ => Some 0%Z
  | SpecFloat.S754_finite s m e =>
      let mag :=
        if (0 <=? e)%Z then Some (Z.pos m * 2 ^ e)%Z
        else if (Z.pos m mod 2 ^ (- e) =? 0)%Z
             then Some (Z.pos m / 2 ^ (- e))%Z else None in
      (fun z => if s then (- z)%Z else z) <$> mag
  | _ => None
  end.

End Js.

(** The result of [JSON.parse]; an object lists its own properties in
    enumeration order. *)
#[warnings="-register-all"]
Inductive JsValue :=
| JNull
| JBool (b : bool)
| JNumber (x : float)
| JString (s : string)
| JArray (items : list JsValue)
| JObject (props : list (string * JsValue)).

(** What the platform and the store engine supply to the tool bodies. *)
Record Platform := {
  (** [JSON.parse]; [None] when it throws a SyntaxError *)
  JSON_parse : string -> option JsValue;
  (** [Number(s)] on a string *)
  StringToNumber : string -> float;
  (** [String(v)] on an array or object, the first step of [Number(v)] *)
  ObjectToString : JsValue -> string;
  (** [new Date(iso).getTime()] *)
  Date_parse : string -> Z;
  (** [new Date()] at the time of the call *)
  Date_now : Z;
  (** the n-th identifier the store generates for a created row *)
  cuid : nat -> string;
  (** the store's [contains] filter with [mode: 'insensitive'] *)
  contains_insensitive : string -> string -> bool;
  (** [prisma.auditLog.create]: whether the store accepts the insert of
      an audit entry with this entity type, entity id, action, user and
      details; [false] is a call that rejects *)
  auditLog_create : string -> string -> string -> option string -> option Obj -> bool;
}.

(** ** The relational store behind [prisma] *)

Module Prisma.

(** A table keeps its rows in insertion order, keyed by [id]. *)
Abbreviation Table := (list (string * Obj)).

Record AuditLog := {
  entityType : string;
  entityId : string;
  action : string;
  performedBy : option string;
  details : option Obj;
  timestamp : Z;
}.

Record Db := {
  employee : Table;
  contract : Table;
  administrativeLetter : Table;
  attendanceRecord : Table;
  payroll : Table;
  benefit : Table;
  auditLog : list AuditLog;
  (** [user.id -> user.role] *)
  user : gmap string string;
  (** how many identifiers have been generated so far *)
  generated : nat;
}.

Definition findUnique (t : Table) (id : string) : option (string * Obj) :=
  List.find (fun r => bool_decide (r.1 = id)) t.

Definition findMany (t : Table) (where_ : Obj -> bool) : Table :=
  List.filter (fun r => where_ r.2) t.

(** [where: { employeeId }] *)
Definition employeeId_is (employeeId : string) (r : Obj) : bool :=
  match r !! "employeeId" with
  | Some (VStr s) => bool_decide (s = employeeId)
  | _ => false
  end.

Definition date_of (r : Obj) (field : string) : Z :=
  match r !! field with
  | Some (VDate t) => t
  | _ => 0%Z
  end.

(** [orderBy: { field: 'desc' }] on a date column. *)
Definition desc_by (field : string) (a b : string * Obj) : Prop :=
  (date_of b.2 field <= date_of a.2 field)%Z.

#[global] Instance desc_by_dec field a b : Decision (desc_by field a b).
Proof. unfold desc_by. apply _. Defined.

Definition orderBy_desc (field : string) (t : Table) : Table :=
  merge_sort (desc_by field) t.

(** [take: n]; a negative [n] takes from the end of the ordering. *)
Definition take_ (n : Z) (t : Table) : Table :=
  if (0 <=? n)%Z then take (Z.to_nat n) t
  else rev (take (Z.to_nat (- n)) (rev t)).

(** [update({ where: { id }, data })]: the fields of [data] overwrite
    those of the row; [None] when no row has this id (the call throws). *)
Definition update (t : Table) (id : string) (data : Obj)
  : option ((string * Obj) * Table) :=
  match findUnique t id with
  | None => None
  | Some (_, row) =>
      let row' := data ∪ row in
      Some ((id, row'),
            List.map (fun r => if bool_decide (r.1 = id) then (id, row') else r) t)
  end.

Inductive Model :=
  Employee | Contract | AdministrativeLetter | AttendanceRecord | Payroll | Benefit.

Definition table (m : Model) (db : Db) : Table :=
  match m with
  | Employee => employee db
  | Contract => contract db
  | AdministrativeLetter => administrativeLetter db
  | AttendanceRecord => attendanceRecord db
  | Payroll => payroll db
  | Benefit => benefit db
  end.

Definition set_table (m : Model) (t : Table) (db : Db) : Db :=
  {| employee := if m is Employee then t else employee db;
     contract := if m is Contract then t else contract db;
     administrativeLetter :=
       if m is AdministrativeLetter then t else administrativeLetter db;
     attendanceRecord := if m is AttendanceRecord then t else attendanceRecord db;
     payroll := if m is Payroll then t else payroll db;
     benefit := if m is Benefit then t else benefit db;
     auditLog := auditLog db;
     user := user db;
     generated := generated db |}.

(** [create({ data })]: the store generates the id and appends the row. *)
Definition create (P : Platform) (m : Model) (data : Obj) (db : Db)
  : (string * Obj) * Db :=
  let row := (cuid P (generated db), data) in
  let db' := set_table m (table m db ++ [row]) db in
  (row,
   {| employee := employee db'; contract := contract db';
      administrativeLetter := administrativeLetter db';
      attendanceRecord := attendanceRecord db'; payroll := payroll db';
      benefit := benefit db'; auditLog := auditLog db'; user := user db';
      generated := S (generated db) |}).

Definition newest_first (a b : AuditLog) : Prop :=
  (timestamp b <= timestamp a)%Z.

#[global] Instance newest_first_dec a b : Decision (newest_first a b).
Proof. unfold newest_first. apply _. Defined.

Definition add_audit (entry : AuditLog) (db : Db) : Db :=
  {| employee := employee db; contract := contract db;
     administrativeLetter := administrativeLetter db;
     attendanceRecord := attendanceRecord db; payroll := payroll db;
     benefit := benefit db; auditLog := auditLog db ++ [entry];
     user := user db; generated := generated db |}.

End Prisma.

(** ** lib/hr/tools.ts *)

Module HrTools.

(** Context for tool execution *)
Record ToolContext := {
  userId : option string;
  role : string;
}.

(** The module-level state a tool body can reach: the global context
    store and the relational store. *)
Record World := {
  currentContext : option ToolContext;
  prisma : Prisma.Db;
}.

Inductive Outcome (A : Type) :=
| Returned (a : A)
| Thrown (message : string).
Arguments Returned {A} a.
Arguments Thrown {A} message.

(** An [async] body: it runs on the world and either returns or throws;
    what it wrote before throwing stays written (there is no transaction). *)
Definition Async (A : Type) : Type := World -> Outcome A * World.

#[global] Instance Async_ret : MRet Async := fun A a w => (Returned a, w).
#[global] Instance Async_bind : MBind Async := fun A B f m w =>
  match m w with
  | (Returned a, w') => f a w'
  | (Thrown e, w') => (Thrown e, w')
  end.

Definition throw {A} (message : string) : Async A := fun w => (Thrown message, w).

(** Helper to check permissions and throw if unauthorized *)
Definition requirePermission (role : string) (action : Rbac.Action)
    (entity : Rbac.Entity) (userId : option string) : Async unit :=
  if negb (Rbac.checkPermission role action entity)
  then throw ("Unauthorized: " +:+ role +:+ " cannot " +:+ Rbac.Action_str action
              +:+ " " +:+ Rbac.Entity_str entity)
  else mret tt.

(** Global context store (set before tool execution) *)
Definition setToolContext (context : ToolContext) : Async unit :=
  fun w => (Returned tt, {| currentContext := Some context; prisma := prisma w |}).

Definition getToolContext : Async ToolContext :=
  fun w => match currentContext w with
           | None => (Thrown "Tool context not set", w)
           | Some c => (Returned c, w)
           end.

(** What a tool hands to [JSON.stringify]; the model keeps the value. *)
Inductive Json :=
| JRow (r : string * Obj)
| JRowWith (r : string * Obj) (included : list (string * Prisma.Table))
| JRows (rs : Prisma.Table)
| JLogs (logs : list Prisma.AuditLog).

Inductive ToolResult :=
| Stringified (j : Json)
| Text (s : string).

Section Tools.
Context (P : Platform).

(** Store calls lifted to the world. *)
Definition db_read {A} (f : Prisma.Db -> A) : Async A :=
  fun w => (Returned (f (prisma w)), w).

Definition db_create (m : Prisma.Model) (data : Obj) : Async (string * Obj) :=
  fun w => let '(row, db') := Prisma.create P m data (prisma w) in
           (Returned row, {| currentContext := currentContext w; prisma := db' |}).

Definition db_update (m : Prisma.Model) (id : string) (data : Obj)
  : Async (string * Obj) :=
  fun w => match Prisma.update (Prisma.table m (prisma w)) id data with
           | None => (Thrown "Record to update not found.", w)
           | Some (row, t') =>
               (Returned row,
                {| currentContext := currentContext w;
                   prisma := Prisma.set_table m t' (prisma w) |})
           end.

(** lib/audit/logger: [logAction].  The insert sits in a [try] whose
    [catch] only logs: a rejected insert leaves the trail as it is and
    the caller goes on (audit logging should not break main operations). *)
Definition logAction (entityType entityId action : string)
    (userId : option string) (details : option Obj) : Async unit :=
  fun w =>
    let entry := {| Prisma.entityType := entityType;
                    Prisma.entityId := entityId;
                    Prisma.action := action;
                    Prisma.performedBy := Js.or_null userId;
                    Prisma.details := details;
                    Prisma.timestamp := Date_now P |} in
    if auditLog_create P entityType entityId action (Js.or_null userId) details
    then (Returned tt, {| currentContext := currentContext w;
                          prisma := Prisma.add_audit entry (prisma w) |})
    else (Returned tt, w).

Definition newDate (v : option Val) : Val := VDate (Date_parse P (Js.str v)).

(** [v ? new Date(v) : null] *)
Definition newDate_or_null (v : option Val) : Val :=
  if Js.truthy v then newDate v else VNull.

(** *** Employee Tools *)

Definition createEmployee (input : Obj) : Async ToolResult :=
  ctx ← getToolContext;
  requirePermission (role ctx) Rbac.create Rbac.employee (userId ctx);;
  employee ← db_create Prisma.Employee (Js.obj [
    ("firstName", input !! "firstName");
    ("lastName", input !! "lastName");
    ("nationalId", input !! "nationalId");
    ("dateOfBirth", Some (newDate (input !! "dateOfBirth")));
    ("gender", input !! "gender");
    ("phoneNumber", input !! "phoneNumber");
    ("email", input !! "email");
    ("address", input !! "address");
    ("jobTitle", input !! "jobTitle");
    ("department", input !! "department");
    ("salary", input !! "salary");
    ("benefits", input !! "benefits");
    ("leaveBalance", Some (Js.or_else (input !! "leaveBalance") (VNum 0)));
    ("hireDate", Some (VDate (Date_now P)));
    ("employmentStatus", Some (VStr "Onboarding"));
    (* the column default that [getEmployee] orders by *)
    ("createdAt", Some (VDate (Date_now P)))]);
  logAction "Employee" employee.1 "Create" (Js.or_null (userId ctx)) (Some input);;
  mret (Stringified (JRow employee)).

Definition updateEmployee (input : Obj) : Async ToolResult :=
  ctx ← getToolContext;
  requirePermission (role ctx) Rbac.update Rbac.employee (userId ctx);;
  if negb (Rbac.canAccessEmployee (role ctx) (Js.str (input !! "employeeId"))
             (userId ctx))
  then throw "Unauthorized: Cannot access this employee record"
  else
    let updateData := Js.obj [
      ("firstName", input !! "firstName");
      ("lastName", input !! "lastName");
      ("phoneNumber", input !! "phoneNumber");
      ("email", input !! "email");
      ("address", input !! "address");
      ("jobTitle", input !! "jobTitle");
      ("department", input !! "department");
      ("salary", input !! "salary");
      ("benefits", input !! "benefits");
      ("leaveBalance", input !! "leaveBalance");
      ("employmentStatus", input !! "employmentStatus")] in
    employee ← db_update Prisma.Employee (Js.str (input !! "employeeId")) updateData;
    logAction "Employee" employee.1 "Update" (Js.or_null (userId ctx)) (Some input);;
    mret (Stringified (JRow employee)).

(** [input.limit || 10], as the integer [take] wants. *)
Definition limit_or (input : Obj) (d : Z) : option Z :=
  match input !! "limit" with
  | Some (VNum x) => if Js.falsy_num x then Some d else Js.toInt x
  | _ => Some d
  end.

Definition getEmployee (input : Obj) : Async ToolResult :=
  ctx ← getToolContext;
  requirePermission (role ctx) Rbac.read Rbac.employee (userId ctx);;
  if Js.truthy (input !! "employeeId") then
    found ← db_read (fun db =>
      Prisma.findUnique (Prisma.employee db) (Js.str (input !! "employeeId")));
    match found with
    | None => mret (Text "Employee not found")
    | Some employee =>
        if negb (Rbac.canAccessEmployee (role ctx) employee.1 (userId ctx))
        then throw "Unauthorized: Cannot access this employee record"
        else
          included ← db_read (fun db =>
            [("contracts",
              Prisma.findMany (Prisma.contract db) (Prisma.employeeId_is employee.1));
             ("letters",
              Prisma.findMany (Prisma.administrativeLetter db)
                (Prisma.employeeId_is employee.1));
             ("employeeBenefits",
              Prisma.findMany (Prisma.benefit db) (Prisma.employeeId_is employee.1))]);
          logAction "Employee" employee.1 "Read" (Js.or_null (userId ctx)) None;;
          mret (Stringified (JRowWith employee included))
    end
  else
    (* Search mode *)
    let where_ (r : Obj) : bool :=
      (if Js.truthy (input !! "name")
       then contains_insensitive P (Js.str (r !! "firstName")) (Js.str (input !! "name"))
            || contains_insensitive P (Js.str (r !! "lastName")) (Js.str (input !! "name"))
       else true)
      && (if Js.truthy (input !! "department")
          then contains_insensitive P (Js.str (r !! "department"))
                 (Js.str (input !! "department"))
          else true) in
    match limit_or input 10 with
    | None => throw "Invalid value provided for take. Expected Int."
    | Some n =>
        employees ← db_read (fun db =>
          Prisma.take_ n (Prisma.orderBy_desc "createdAt"
                            (Prisma.findMany (Prisma.employee db) where_)));
        (* Filter by access permissions *)
        let accessibleEmployees :=
          List.filter (fun emp => Rbac.canAccessEmployee (role ctx) emp.1 (userId ctx))
            employees in
        mret (Stringified (JRows accessibleEmployees))
    end.

Definition archiveEmployee (input : Obj) : Async ToolResult :=
  ctx ← getToolContext;
  requirePermission (role ctx) Rbac.update Rbac.employee (userId ctx);;
  employee ← db_update Prisma.Employee (Js.str (input !! "employeeId"))
               (Js.obj [("employmentStatus", Some (VStr "Archived"))]);
  logAction "Employee" employee.1 "Update" (Js.or_null (userId ctx))
    (Some (Js.obj [("action", Some (VStr "archived"))]));;
  mret (Stringified (JRow employee)).

Definition reactivateEmployee (input : Obj) : Async ToolResult :=
  ctx ← getToolContext;
  requirePermission (role ctx) Rbac.update Rbac.employee (userId ctx);;
  employee ← db_update Prisma.Employee (Js.str (input !! "employeeId"))
               (Js.obj [("employmentStatus", Some (VStr "Active"))]);
  logAction "Employee" employee.1 "Update" (Js.or_null (userId ctx))
    (Some (Js.obj [("action", Some (VStr "reactivated"))]));;
  mret (Stringified (JRow employee)).

(** *** Contract Tools *)

(** [include: { employee: true }] *)
Definition include_employee (db : Prisma.Db) (r : string * Obj)
  : list (string * Prisma.Table) :=
  [("employee",
    option_list (Prisma.findUnique (Prisma.employee db) (Js.str (r.2 !! "employeeId"))))].

Definition createContract (input : Obj) : Async ToolResult :=
  ctx ← getToolContext;
  requirePermission (role ctx) Rbac.create Rbac.contract (userId ctx);;
  contract ← db_create Prisma.Contract (Js.obj [
    ("employeeId", input !! "employeeId");
    ("contractType", input !! "contractType");
    ("startDate", Some (newDate (input !! "startDate")));
    ("endDate", Some (newDate_or_null (input !! "endDate")));
    ("documentUrl", input !! "documentUrl")]);
  logAction "Contract" contract.1 "Create" (Js.or_null (userId ctx)) (Some input);;
  mret (Stringified (JRow contract)).

Definition updateContract (input : Obj) : Async ToolResult :=
  ctx ← getToolContext;
  requirePermission (role ctx) Rbac.update Rbac.contract (userId ctx);;
  let updateData := Js.obj [
    ("contractType", input !! "contractType");
    ("startDate", (fun _ => newDate (input !! "startDate")) <$> input !! "startDate");
    ("endDate", (fun _ => newDate_or_null (input !! "endDate")) <$> input !! "endDate");
    ("signedByEmployee", input !! "signedByEmployee");
    ("signedByHr", input !! "signedByHr");
    ("documentUrl", input !! "documentUrl")] in
  contract ← db_update Prisma.Contract (Js.str (input !! "contractId")) updateData;
  logAction "Contract" contract.1 "Update" (Js.or_null (userId ctx)) (Some input);;
  mret (Stringified (JRow contract)).

Definition getContract (input : Obj) : Async ToolResult :=
  ctx ← getToolContext;
  requirePermission (role ctx) Rbac.read Rbac.contract (userId ctx);;
  if Js.truthy (input !! "contractId") then
    found ← db_read (fun db =>
      (fun c => JRowWith c (include_employee db c))
        <$> Prisma.findUnique (Prisma.contract db) (Js.str (input !! "contractId")));
    mret (match found with
          | Some contract => Stringified contract
          | None => Text "Contract not found"
          end)
  else if Js.truthy (input !! "employeeId") then
    contracts ← db_read (fun db =>
      Prisma.orderBy_desc "startDate"
        (Prisma.findMany (Prisma.contract db)
           (Prisma.employeeId_is (Js.str (input !! "employeeId")))));
    mret (Stringified (JRows contracts))
  else mret (Text "Please provide either employeeId or contractId").

Definition terminateContract (input : Obj) : Async ToolResult :=
  ctx ← getToolContext;
  requirePermission (role ctx) Rbac.update Rbac.contract (userId ctx);;
  contract ← db_update Prisma.Contract (Js.str (input !! "contractId"))
               (Js.obj [("endDate", Some (newDate (input !! "terminationDate")))]);
  logAction "Contract" contract.1 "Update" (Js.or_null (userId ctx))
    (Some (Js.obj [("action", Some (VStr "terminated"));
                   ("terminationDate", input !! "terminationDate")]));;
  mret (Stringified (JRow contract)).

(** *** Letter Tools *)

Definition generateLetter (input : Obj) : Async ToolResult :=
  ctx ← getToolContext;
  requirePermission (role ctx) Rbac.create Rbac.letter (userId ctx);;
  letter ← db_create Prisma.AdministrativeLetter (Js.obj [
    ("employeeId", input !! "employeeId");
    ("letterType", input !! "letterType");
    ("content", input !! "content");
    ("documentUrl", input !! "documentUrl");
    ("issuedDate", Some (VDate (Date_now P)))]);
  included ← db_read (fun db => include_employee db letter);
  logAction "AdministrativeLetter" letter.1 "Create" (Js.or_null (userId ctx))
    (Some input);;
  mret (Stringified (JRowWith letter included)).

Definition getLetters (input : Obj) : Async ToolResult :=
  ctx ← getToolContext;
  requirePermission (role ctx) Rbac.read Rbac.letter (userId ctx);;
  letters ← db_read (fun db =>
    Prisma.orderBy_desc "issuedDate"
      (Prisma.findMany (Prisma.administrativeLetter db)
         (Prisma.employeeId_is (Js.str (input !! "employeeId")))));
  mret (Stringified (JRows letters)).

(** *** Attendance Tools *)

Definition recordAttendance (input : Obj) : Async ToolResult :=
  ctx ← getToolContext;
  requirePermission (role ctx) Rbac.create Rbac.attendance (userId ctx);;
  attendance ← db_create Prisma.AttendanceRecord (Js.obj [
    ("employeeId", input !! "employeeId");
    ("date", Some (newDate (input !! "date")));
    ("checkInTime", Some (newDate_or_null (input !! "checkInTime")));
    ("checkOutTime", Some (newDate_or_null (input !! "checkOutTime")));
    ("hoursWorked", Some (Js.or_else (input !! "hoursWorked") VNull));
    ("overtimeHours", Some (Js.or_else (input !! "overtimeHours") (VNum 0)));
    ("leaveType", Some (Js.or_else (input !! "leaveType") (VStr "None")))]);
  logAction "AttendanceRecord" attendance.1 "Create" (Js.or_null (userId ctx))
    (Some input);;
  mret (Stringified (JRow attendance)).

Definition updateAttendance (input : Obj) : Async ToolResult :=
  ctx ← getToolContext;
  requirePermission (role ctx) Rbac.update Rbac.attendance (userId ctx);;
  let updateData := Js.obj [
    ("checkInTime", (fun _ => newDate (input !! "checkInTime")) <$> input !! "checkInTime");
    ("checkOutTime",
     (fun _ => newDate (input !! "checkOutTime")) <$> input !! "checkOutTime");
    ("hoursWorked", input !! "hoursWorked");
    ("overtimeHours", input !! "overtimeHours");
    ("leaveType", input !! "leaveType")] in
  attendance ← db_update Prisma.AttendanceRecord (Js.str (input !! "attendanceId"))
                 updateData;
  logAction "AttendanceRecord" attendance.1 "Update" (Js.or_null (userId ctx))
    (Some input);;
  mret (Stringified (JRow attendance)).

(** [where: { employeeId, date: { gte, lte } }] *)
Definition in_period (employeeId : string) (from to : Z) (r : Obj) : bool :=
  Prisma.employeeId_is employeeId r
  && (from <=? Prisma.date_of r "date")%Z && (Prisma.date_of r "date" <=? to)%Z.

Definition getAttendance (input : Obj) : Async ToolResult :=
  ctx ← getToolContext;
  requirePermission (role ctx) Rbac.read Rbac.attendance (userId ctx);;
  records ← db_read (fun db =>
    Prisma.orderBy_desc "date"
      (Prisma.findMany (Prisma.attendanceRecord db)
         (in_period (Js.str (input !! "employeeId"))
            (Date_parse P (Js.str (input !! "startDate")))
            (Date_parse P (Js.str (input !! "endDate"))))));
  mret (Stringified (JRows records)).

Definition approveLeave (input : Obj) : Async ToolResult :=
  ctx ← getToolContext;
  requirePermission (role ctx) Rbac.approve Rbac.attendance (userId ctx);;
  attendance ← db_update Prisma.AttendanceRecord (Js.str (input !! "attendanceId"))
                 (Js.obj [("leaveStatus", input !! "status")]);
  logAction "AttendanceRecord" attendance.1 "Update" (Js.or_null (userId ctx))
    (Some (Js.obj [("action", Some (VStr "leave_approved"));
                   ("status", input !! "status")]));;
  mret (Stringified (JRow attendance)).

Definition requestLeave (input : Obj) : Async ToolResult :=
  ctx ← getToolContext;
  requirePermission (role ctx) Rbac.create Rbac.attendance (userId ctx);;
  attendance ← db_create Prisma.AttendanceRecord (Js.obj [
    ("employeeId", input !! "employeeId");
    ("date", Some (newDate (input !! "date")));
    ("leaveType", input !! "leaveType");
    ("leaveStatus", Some (VStr "Requested"))]);
  logAction "AttendanceRecord" attendance.1 "Create" (Js.or_null (userId ctx))
    (Some input);;
  mret (Stringified (JRow attendance)).

(** *** Payroll Tools *)

(** A Float column read as a number. *)
Definition num (v : option Val) : float :=
  match v with
  | Some (VNum x) => x
  | Some VNull => 0%float
  | _ => PrimFloat.nan
  end.

(** [x || 0] on a number. *)
Definition or_zero (x : float) : float :=
  if Js.falsy_num x then 0%float else x.

(** [Object.values]; [None] when it throws (on [null]). *)
Definition Object_values (v : JsValue) : option (list JsValue) :=
  match v with
  | JNull => None
  | JBool _ | JNumber _ => Some []
  | JString s => Some ((fun c => JString (String c "")) <$> String.list_ascii_of_string s)
  | JArray items => Some items
  | JObject props => Some (props.*2)
  end.

(** [Number(val)] *)
Definition Number_ (v : JsValue) : float :=
  match v with
  | JNull => 0%float
  | JBool b => if b then 1%float else 0%float
  | JNumber x => x
  | JString s => StringToNumber P s
  | JArray _ | JObject _ => StringToNumber P (ObjectToString P v)
  end.

Definition totalOvertimeHours (attendanceRecords : Prisma.Table) : float :=
  fold_left (fun sum record => (sum + or_zero (num (record.2 !! "overtimeHours")))%float)
    attendanceRecords 0%float.

(** Assuming 160 hours/month, 1.5x rate *)
Definition overtimePay (totalOvertimeHours salary : float) : float :=
  (totalOvertimeHours * (salary / 160) * 1.5)%float.

(** Parse deductions: invalid JSON leaves the empty object. *)
Definition deductionsObj (input : Obj) : JsValue :=
  if Js.truthy (input !! "deductions") then
    match JSON_parse P (Js.str (input !! "deductions")) with
    | Some parsed => parsed
    | None => JObject []
    end
  else JObject [].

Definition totalDeductions (values : list JsValue) : float :=
  fold_left (fun sum val => (sum + or_zero (Number_ val))%float) values 0%float.

Definition netSalary (salary overtimePay totalDeductions : float) : float :=
  (salary + overtimePay - totalDeductions)%float.

Definition calculatePayroll (input : Obj) : Async ToolResult :=
  ctx ← getToolContext;
  requirePermission (role ctx) Rbac.create Rbac.payroll (userId ctx);;
  (* Get employee *)
  found ← db_read (fun db =>
    Prisma.findUnique (Prisma.employee db) (Js.str (input !! "employeeId")));
  match found with
  | None => throw "Employee not found"
  | Some employee =>
      (* Calculate overtime from attendance records *)
      attendanceRecords ← db_read (fun db =>
        Prisma.findMany (Prisma.attendanceRecord db)
          (in_period (Js.str (input !! "employeeId"))
             (Date_parse P (Js.str (input !! "periodStart")))
             (Date_parse P (Js.str (input !! "periodEnd")))));
      let salary := num (employee.2 !! "salary") in
      let overtime := overtimePay (totalOvertimeHours attendanceRecords) salary in
      match Object_values (deductionsObj input) with
      | None => throw "TypeError: Cannot convert undefined or null to object"
      | Some values =>
          let net := netSalary salary overtime (totalDeductions values) in
          payroll ← db_create Prisma.Payroll (Js.obj [
            ("employeeId", input !! "employeeId");
            ("periodStart", Some (newDate (input !! "periodStart")));
            ("periodEnd", Some (newDate (input !! "periodEnd")));
            ("baseSalary", Some (VNum salary));
            ("overtimePay", Some (VNum overtime));
            ("deductions", Some (Js.or_else (input !! "deductions") VNull));
            ("netSalary", Some (VNum net));
            ("status", Some (VStr "Calculated"))]);
          logAction "Payroll" payroll.1 "Create" (Js.or_null (userId ctx)) (Some input);;
          mret (Stringified (JRow payroll))
      end
  end.

Definition getPayroll (input : Obj) : Async ToolResult :=
  ctx ← getToolContext;
  requirePermission (role ctx) Rbac.read Rbac.payroll (userId ctx);;
  if Js.truthy (input !! "payrollId") then
    found ← db_read (fun db =>
      (fun p => JRowWith p (include_employee db p))
        <$> Prisma.findUnique (Prisma.payroll db) (Js.str (input !! "payrollId")));
    mret (match found with
          | Some payroll => Stringified payroll
          | None => Text "Payroll not found"
          end)
  else if Js.truthy (input !! "employeeId") then
    match limit_or input 10 with
    | None => throw "Invalid value provided for take. Expected Int."
    | Some n =>
        payrolls ← db_read (fun db =>
          Prisma.take_ n
            (Prisma.orderBy_desc "periodStart"
               (Prisma.findMany (Prisma.payroll db)
                  (Prisma.employeeId_is (Js.str (input !! "employeeId"))))));
        mret (Stringified (JRows payrolls))
    end
  else mret (Text "Please provide either employeeId or payrollId").

Definition approvePayroll (input : Obj) : Async ToolResult :=
  ctx ← getToolContext;
  requirePermission (role ctx) Rbac.approve Rbac.payroll (userId ctx);;
  payroll ← db_update Prisma.Payroll (Js.str (input !! "payrollId"))
              (Js.obj [("status",
                        Some (VStr (if bool_decide (Js.str (input !! "status") = "Approved")
                                    then "Approved" else "Verified")))]);
  logAction "Payroll" payroll.1 "Update" (Js.or_null (userId ctx))
    (Some (Js.obj [("action", Some (VStr "approved")); ("status", input !! "status")]));;
  mret (Stringified (JRow payroll)).

Definition paySalary (input : Obj) : Async ToolResult :=
  ctx ← getToolContext;
  requirePermission (role ctx) Rbac.update Rbac.payroll (userId ctx);;
  payroll ← db_update Prisma.Payroll (Js.str (input !! "payrollId"))
              (Js.obj [("status", Some (VStr "Paid"));
                       ("paymentDate", Some (newDate (input !! "paymentDate")))]);
  logAction "Payroll" payroll.1 "Update" (Js.or_null (userId ctx))
    (Some (Js.obj [("action", Some (VStr "paid"));
                   ("paymentDate", input !! "paymentDate")]));;
  mret (Stringified (JRow payroll)).

(** *** Benefit Tools *)

Definition addBenefit (input : Obj) : Async ToolResult :=
  ctx ← getToolContext;
  requirePermission (role ctx) Rbac.create Rbac.benefit (userId ctx);;
  benefit ← db_create Prisma.Benefit (Js.obj [
    ("employeeId", input !! "employeeId");
    ("benefitType", input !! "benefitType");
    ("amount", input !! "amount");
    ("startDate", Some (newDate (input !! "startDate")));
    ("endDate", Some (newDate_or_null (input !! "endDate")))]);
  logAction "Benefit" benefit.1 "Create" (Js.or_null (userId ctx)) (Some input);;
  mret (Stringified (JRow benefit)).

Definition updateBenefit (input : Obj) : Async ToolResult :=
  ctx ← getToolContext;
  requirePermission (role ctx) Rbac.update Rbac.benefit (userId ctx);;
  let updateData := Js.obj [
    ("benefitType", input !! "benefitType");
    ("amount", input !! "amount");
    ("startDate", (fun _ => newDate (input !! "startDate")) <$> input !! "startDate");
    ("endDate", (fun _ => newDate_or_null (input !! "endDate")) <$> input !! "endDate")] in
  benefit ← db_update Prisma.Benefit (Js.str (input !! "benefitId")) updateData;
  logAction "Benefit" benefit.1 "Update" (Js.or_null (userId ctx)) (Some input);;
  mret (Stringified (JRow benefit)).

Definition getBenefits (input : Obj) : Async ToolResult :=
  ctx ← getToolContext;
  requirePermission (role ctx) Rbac.read Rbac.benefit (userId ctx);;
  benefits ← db_read (fun db =>
    Prisma.orderBy_desc "startDate"
      (Prisma.findMany (Prisma.benefit db)
         (Prisma.employeeId_is (Js.str (input !! "employeeId")))));
  mret (Stringified (JRows benefits)).

(** *** Audit Tools *)

(** lib/audit/logger: [getAuditLogs] (the included user is left out) *)
Definition logger_getAuditLogs (input : Obj) (limit : Z) (db : Prisma.Db)
  : list Prisma.AuditLog :=
  let where_ (l : Prisma.AuditLog) : bool :=
    (if Js.truthy (input !! "entityType")
     then bool_decide (Prisma.entityType l = Js.str (input !! "entityType")) else true)
    && (if Js.truthy (input !! "entityId")
        then bool_decide (Prisma.entityId l = Js.str (input !! "entityId")) else true)
    && (if Js.truthy (input !! "userId")
        then bool_decide (Prisma.performedBy l = Some (Js.str (input !! "userId")))
        else true)
    && (if Js.truthy (input !! "startDate")
        then (Date_parse P (Js.str (input !! "startDate")) <=? Prisma.timestamp l)%Z
        else true)
    && (if Js.truthy (input !! "endDate")
        then (Prisma.timestamp l <=? Date_parse P (Js.str (input !! "endDate")))%Z
        else true) in
  let ordered := merge_sort Prisma.newest_first (List.filter where_ (Prisma.auditLog db)) in
  if (0 <=? limit)%Z then take (Z.to_nat limit) ordered
  else rev (take (Z.to_nat (- limit)) (rev ordered)).

(** The body hands [input.limit] on to the logger, whose [take] is
    [filters.limit || 100]; the schema's default of 50 for an absent
    limit is in [hrTools.inputSchema]. *)
Definition getAuditLogs (input : Obj) : Async ToolResult :=
  ctx ← getToolContext;
  (* Only HR_Admin can view audit logs *)
  if negb (bool_decide (role ctx = "HR_Admin"))
  then throw "Unauthorized: Only HR Admin can view audit logs"
  else
    match limit_or input 100 with
    | None => throw "Invalid value provided for take. Expected Int."
    | Some n =>
        logs ← db_read (logger_getAuditLogs input n);
        mret (Stringified (JLogs logs))
    end.

End Tools.

(** *** Combine all tools *)

Module hrTools.

Inductive name :=
| createEmployee | updateEmployee | getEmployee | archiveEmployee
| reactivateEmployee
| createContract | updateContract | getContract | terminateContract
| generateLetter | getLetters
| recordAttendance | updateAttendance | getAttendance | approveLeave
| requestLeave
| calculatePayroll | getPayroll | approvePayroll | paySalary
| addBenefit | updateBenefit | getBenefits
| getAuditLogs.

(** [.optional().default(v)] of an input schema: an absent field holds
    the default. *)
Definition with_default (field : string) (v : Val) (input : Obj) : Obj :=
  match input !! field with
  | Some _ => input
  | None => <[field := v]> input
  end.

Arguments with_default : simpl never.

(** The defaults the tools' input schemas declare.  The SDK parses the
    input of a call with the tool's [inputSchema] and hands [execute]
    the parsed value. *)
Definition inputSchema (tool : name) (input : Obj) : Obj :=
  match tool with
  | createEmployee => with_default "leaveBalance" (VNum 0) input
  | getEmployee => with_default "limit" (VNum 10) input
  | recordAttendance =>
      with_default "leaveType" (VStr "None")
        (with_default "overtimeHours" (VNum 0) input)
  | getPayroll => with_default "limit" (VNum 10) input
  | getAuditLogs => with_default "limit" (VNum 50) input
  | _ => input
  end.

(** A tool call: the tool's [execute] on the parsed input. *)
Definition execute (P : Platform) (tool : name) (input : Obj) : Async ToolResult :=
  match tool with
  | createEmployee => HrTools.createEmployee P (inputSchema createEmployee input)
  | updateEmployee => HrTools.updateEmployee P (inputSchema updateEmployee input)
  | getEmployee => HrTools.getEmployee P (inputSchema getEmployee input)
  | archiveEmployee => HrTools.archiveEmployee P (inputSchema archiveEmployee input)
  | reactivateEmployee => HrTools.reactivateEmployee P (inputSchema reactivateEmployee input)
  | createContract => HrTools.createContract P (inputSchema createContract input)
  | updateContract => HrTools.updateContract P (inputSchema updateContract input)
  | getContract => HrTools.getContract (inputSchema getContract input)
  | terminateContract => HrTools.terminateContract P (inputSchema terminateContract input)
  | generateLetter => HrTools.generateLetter P (inputSchema generateLetter input)
  | getLetters => HrTools.getLetters (inputSchema getLetters input)
  | recordAttendance => HrTools.recordAttendance P (inputSchema recordAttendance input)
  | updateAttendance => HrTools.updateAttendance P (inputSchema updateAttendance input)
  | getAttendance => HrTools.getAttendance P (inputSchema getAttendance input)
  | approveLeave => HrTools.approveLeave P (inputSchema approveLeave input)
  | requestLeave => HrTools.requestLeave P (inputSchema requestLeave input)
  | calculatePayroll => HrTools.calculatePayroll P (inputSchema calculatePayroll input)
  | getPayroll => HrTools.getPayroll (inputSchema getPayroll input)
  | approvePayroll => HrTools.approvePayroll P (inputSchema approvePayroll input)
  | paySalary => HrTools.paySalary P (inputSchema paySalary input)
  | addBenefit => HrTools.addBenefit P (inputSchema addBenefit input)
  | updateBenefit => HrTools.updateBenefit P (inputSchema updateBenefit input)
  | getBenefits => HrTools.getBenefits (inputSchema getBenefits input)
  | getAuditLogs => HrTools.getAuditLogs P (inputSchema getAuditLogs input)
  end.

(** The (action, entity) each body passes to [requirePermission];
    [getAuditLogs] compares the role itself instead. *)
Definition requires (tool : name) : option (Rbac.Action * Rbac.Entity) :=
  match tool with
  | createEmployee => Some (Rbac.create, Rbac.employee)
  | updateEmployee | archiveEmployee | reactivateEmployee =>
      Some (Rbac.update, Rbac.employee)
  | getEmployee => Some (Rbac.read, Rbac.employee)
  | createContract => Some (Rbac.create, Rbac.contract)
  | updateContract | terminateContract => Some (Rbac.update, Rbac.contract)
  | getContract => Some (Rbac.read, Rbac.contract)
  | generateLetter => Some (Rbac.create, Rbac.letter)
  | getLetters => Some (Rbac.read, Rbac.letter)
  | recordAttendance | requestLeave => Some (Rbac.create, Rbac.attendance)
  | updateAttendance => Some (Rbac.update, Rbac.attendance)
  | getAttendance => Some (Rbac.read, Rbac.attendance)
  | approveLeave => Some (Rbac.approve, Rbac.attendance)
  | calculatePayroll => Some (Rbac.create, Rbac.payroll)
  | getPayroll => Some (Rbac.read, Rbac.payroll)
  | approvePayroll => Some (Rbac.approve, Rbac.payroll)
  | paySalary => Some (Rbac.update, Rbac.payroll)
  | addBenefit => Some (Rbac.create, Rbac.benefit)
  | updateBenefit => Some (Rbac.update, Rbac.benefit)
  | getBenefits => Some (Rbac.read, Rbac.benefit)
  | getAuditLogs => None
  end.

End hrTools.

End HrTools.

(** ** app/api/chat/route.ts *)

Module ChatRoute.

(** A UI message; [Id] is [option string] while the id may be missing
    and [string] once [onFinish] has normalized it. *)
Record Message (Id : Type) := {
  id : Id;
  role : string;
  parts : list string;
}.
Arguments id {Id} m.
Arguments role {Id} m.
Arguments parts {Id} m.

Abbreviation UIMessage := (Message (option string)).
Abbreviation Normalized := (Message string).

(** [{ ...m, id }] *)
Definition with_id {Id Id'} (m : Message Id) (i : Id') : Message Id' :=
  {| id := i; role := role m; parts := parts m |}.

(** *** [onFinish] *)

(** [messages.map(m => ({...m, id: m?.id && String(m.id).length > 0 ? m.id
    : crypto.randomUUID()}))].  [randomUUID k] is the k-th value the
    generator yields; [drawn] counts the values taken so far. *)
Fixpoint normalize (randomUUID : nat -> string) (drawn : nat)
    (messages : list UIMessage) : list Normalized * nat :=
  match messages with
  | [] => ([], drawn)
  | m :: rest =>
      match id m with
      | Some i =>
          if bool_decide (i = "")
          then let '(out, d) := normalize randomUUID (S drawn) rest in
               (with_id m (randomUUID drawn) :: out, d)
          else let '(out, d) := normalize randomUUID drawn rest in
               (with_id m i :: out, d)
      | None =>
          let '(out, d) := normalize randomUUID (S drawn) rest in
          (with_id m (randomUUID drawn) :: out, d)
      end
  end.

(** One turn of the loop body: [seen] and [deduped] before and after. *)
Definition dedupe_step (st : gset string * list Normalized) (msg : Normalized)
  : gset string * list Normalized :=
  if decide (id msg ∈ st.1) then st
  else ({[ id msg ]} ∪ st.1, msg :: st.2).

(** de-duplicate by id while preserving order (keeps last occurrence):
    the loop runs from the last index down to 0. *)
Definition dedupe (normalized : list Normalized) : list Normalized :=
  (fold_left dedupe_step (rev normalized) (∅, [])).2.

(** What [onFinish] hands to [saveChat], and the generator position. *)
Definition onFinish (randomUUID : nat -> string) (drawn : nat)
    (messages : list UIMessage) : list Normalized * nat :=
  let '(normalized, d) := normalize randomUUID drawn messages in
  (dedupe normalized, d).

(** The reading of the data model's words "a re-sent message overwrites
    the earlier entry in position order, not appended again": arrival
    order, the entry with the same id replaced where it stands. *)
Definition overwrite_in_place (stored : list Normalized) (msg : Normalized)
  : list Normalized :=
  if decide (id msg ∈ id <$> stored)
  then (fun m => if decide (id m = id msg) then msg else m) <$> stored
  else stored ++ [msg].

Definition reconcile_in_place (messages : list Normalized) : list Normalized :=
  fold_left overwrite_in_place messages [].

(** *** [POST] *)

Record Request := {
  (** what [getAuthUser(req)] resolves the bearer credential to *)
  authUser : option string;
  (** [body?.messages ?? []] *)
  messages : list UIMessage;
  (** [body?.id ?? body?.chatId] *)
  chatId : option string;
}.

Inductive Validation :=
| Valid (validated : list UIMessage)
| TypeValidationError
| OtherError (message : string).

Inductive Response :=
| Plain (status : nat) (body : string)
(** a JSON body [{ error }] *)
| JsonError (status : nat) (error : string)
| Streamed (X_Chat_Id : option string) (currentChatId : string)
    (validatedMessages : list UIMessage).

Section Handler.
(** lib/db is not part of the sources at hand: the conversation store
    and its calls [loadChat] and [createChat] are taken as given, and so
    is the SDK's [validateUIMessages].  [None] is a call that throws. *)
Context {ChatStore : Type}.
Context (loadChat : string -> ChatStore -> option (list UIMessage)).
Context (createChat : ChatStore -> option (string * ChatStore)).
Context (validateUIMessages : list UIMessage -> Validation).

(** Determine the chatId to use: [Some (currentChatId, isNewChat, store)],
    or [None] when the handler answers 500. *)
Definition resolveChat (chatId : option string) (st : ChatStore)
  : option (string * bool * ChatStore) :=
  let fresh :=
    match createChat st with
    | Some (currentChatId, st') => Some (currentChatId, true, st')
    | None => None
    end in
  match chatId with
  | None => fresh
  | Some c =>
      if bool_decide (c = "") then fresh
      else match loadChat c st with
           | Some _ => Some (c, false, st)
           | None => fresh
           end
  end.

Definition POST (req : Request) (w : HrTools.World) (st : ChatStore)
  : HrTools.Outcome Response * HrTools.World * ChatStore :=
  match authUser req with
  | None =>
      (HrTools.Returned
         (JsonError 401 "Unauthorized: Missing or invalid JWT token"),
       w, st)
  | Some authId =>
      (* Get user from database to verify role *)
      match Prisma.user (HrTools.prisma w) !! authId with
      | None => (HrTools.Returned (Plain 401 "Unauthorized: User not found"), w, st)
      | Some userRole =>
          (* Set tool context for HR tools *)
          let toolContext :=
            {| HrTools.userId := Some authId; HrTools.role := userRole |} in
          let w' := (HrTools.setToolContext toolContext w).2 in
          match resolveChat (chatId req) st with
          | None => (HrTools.Returned (Plain 500 "Failed to create chat"), w', st)
          | Some (currentChatId, isNewChat, st') =>
              (* Load previous messages from database *)
              let previousMessages :=
                if isNewChat then []
                else default [] (loadChat currentChatId st') in
              let allMessages := previousMessages ++ messages req in
              match validateUIMessages allMessages with
              | OtherError e => (HrTools.Thrown e, w', st')
              | v =>
                  let validatedMessages :=
                    match v with
                    | Valid ms => ms
                    | _ => messages req
                    end in
                  (HrTools.Returned
                     (Streamed (if isNewChat then Some currentChatId else None)
                        currentChatId validatedMessages),
                   w', st')
              end
          end
      end
  end.

End Handler.

(** *** Turns sharing the process *)

(** What the event loop runs between two suspension points: the head of
    a [POST] up to [setToolContext], or one tool call of a turn's
    generation. *)
Inductive Segment :=
| Binds (turn : nat) (context : HrTools.ToolContext)
| Calls (turn : nat) (tool : HrTools.hrTools.name) (input : Obj).

Record Observation := {
  turn_of : nat;
  (** the context [getToolContext] handed to the tool body *)
  context_seen : option HrTools.ToolContext;
  outcome : HrTools.Outcome HrTools.ToolResult;
}.

(** A schedule of segments run in order on the shared world. *)
Fixpoint run (P : Platform) (schedule : list Segment) (w : HrTools.World)
  : list Observation * HrTools.World :=
  match schedule with
  | [] => ([], w)
  | Binds _ context :: rest => run P rest (HrTools.setToolContext context w).2
  | Calls turn tool input :: rest =>
      let '(out, w') := HrTools.hrTools.execute P tool input w in
      let '(obs, w'') := run P rest w' in
      ({| turn_of := turn; context_seen := HrTools.currentContext w;
          outcome := out |} :: obs, w'')
  end.

(** The context the turn itself last bound in the schedule. *)
Fixpoint bound_by (turn : nat) (schedule : list Segment)
  : option HrTools.ToolContext :=
  match schedule with
  | [] => None
  | Binds t context :: rest =>
      match bound_by turn rest with
      | Some c => Some c
      | None => if decide (t = turn) then Some context else None
      end
  | Calls _ _ _ :: rest => bound_by turn rest
  end.

End ChatRoute.


(** ** Concrete data the closed statements below are evaluated on *)

Module Scenario.

Definition quote : string := String (Ascii.ascii_of_nat 34) "".

(** The deductions payload {"tax":100}. *)
Definition tax_payload : string := "{" +:+ quote +:+ "tax" +:+ quote +:+ ":100}".

(** A platform that parses the one payload above and the four dates used,
    numbers created rows ck0, ck1, ..., compares case-exactly, and whose
    store accepts every audit entry. *)
Definition platform : Platform := {|
  JSON_parse := fun s =>
    if bool_decide (s = tax_payload) then Some (JObject [("tax", JNumber 100)])
    else None;
  StringToNumber := fun _ => PrimFloat.nan;
  ObjectToString := fun _ => "[object Object]";
  Date_parse := fun s =>
    if bool_decide (s = "2025-01-01") then 1%Z
    else if bool_decide (s = "2025-01-10") then 10%Z
    else if bool_decide (s = "2025-01-20") then 20%Z
    else if bool_decide (s = "2025-01-31") then 31%Z
    else 0%Z;
  Date_now := 40%Z;
  cuid := fun n => "ck" +:+ String (Ascii.ascii_of_nat (48 + n)) "";
  contains_insensitive := includes;
  auditLog_create := fun _ _ _ _ _ => true;
|}.

Definition db : Prisma.Db := {|
  Prisma.employee :=
    [("E1", Js.obj [("firstName", Some (VStr "Ava")); ("salary", Some (VNum 1600))]);
     ("E2", Js.obj [("firstName", Some (VStr "Ben")); ("salary", Some (VNum 2000))])];
  Prisma.contract :=
    [("C2", Js.obj [("employeeId", Some (VStr "E2"));
                    ("contractType", Some (VStr "Permanent"))])];
  Prisma.administrativeLetter :=
    [("L2", Js.obj [("employeeId", Some (VStr "E2")); ("letterType", Some (VStr "Warning"))])];
  Prisma.attendanceRecord :=
    [("A1", Js.obj [("employeeId", Some (VStr "E1")); ("date", Some (VDate 10));
                    ("overtimeHours", Some (VNum 4))]);
     ("A2", Js.obj [("employeeId", Some (VStr "E2")); ("date", Some (VDate 10));
                    ("hoursWorked", Some (VNum 8))]);
     ("A3", Js.obj [("employeeId", Some (VStr "E1")); ("date", Some (VDate 20));
                    ("overtimeHours", Some (VNum 6))])];
  Prisma.payroll :=
    [("P2", Js.obj [("employeeId", Some (VStr "E2")); ("netSalary", Some (VNum 2000))])];
  Prisma.benefit :=
    [("B2", Js.obj [("employeeId", Some (VStr "E2")); ("benefitType", Some (VStr "Housing"))])];
  Prisma.auditLog := [];
  Prisma.user := {[ "E1" := "Employee"; "U9" := "HR_Admin" ]};
  Prisma.generated := 0;
|}.

Definition employee_E1 : HrTools.ToolContext :=
  {| HrTools.userId := Some "E1"; HrTools.role := "Employee" |}.

Definition admin_U9 : HrTools.ToolContext :=
  {| HrTools.userId := Some "U9"; HrTools.role := "HR_Admin" |}.

Definition world (context : HrTools.ToolContext) : HrTools.World :=
  {| HrTools.currentContext := Some context; HrTools.prisma := db |}.

(** Tool inputs *)
Definition about_E2 : Obj := Js.obj [("employeeId", Some (VStr "E2"))].

Definition E2_in_january : Obj :=
  Js.obj [("employeeId", Some (VStr "E2")); ("startDate", Some (VStr "2025-01-01"));
          ("endDate", Some (VStr "2025-01-31"))].

Definition rename_E2 : Obj :=
  Js.obj [("employeeId", Some (VStr "E2")); ("firstName", Some (VStr "Eve"))].

Definition overwrite_A2 : Obj :=
  Js.obj [("attendanceId", Some (VStr "A2")); ("hoursWorked", Some (VNum 99))].

Definition attend_for_E2 : Obj :=
  Js.obj [("employeeId", Some (VStr "E2")); ("date", Some (VStr "2025-01-20"));
          ("leaveType", Some (VStr "Sick"))].


(** Messages *)
Definition draft : ChatRoute.Normalized :=
  {| ChatRoute.id := "a"; ChatRoute.role := "assistant"; ChatRoute.parts := ["draft"] |}.

Definition other : ChatRoute.Normalized :=
  {| ChatRoute.id := "b"; ChatRoute.role := "user"; ChatRoute.parts := ["thanks"] |}.

Definition resent : ChatRoute.Normalized :=
  {| ChatRoute.id := "a"; ChatRoute.role := "assistant"; ChatRoute.parts := ["final"] |}.

Definition unnamed : ChatRoute.UIMessage :=
  {| ChatRoute.id := None; ChatRoute.role := "assistant"; ChatRoute.parts := ["hello"] |}.

Definition named : ChatRoute.UIMessage :=
  {| ChatRoute.id := Some "m1"; ChatRoute.role := "user"; ChatRoute.parts := ["hi"] |}.

(** What the generator yields in two runs of the same finalize. *)
Definition uuids_first_run (k : nat) : string := "1b4e28ba-2fa1-41d2-883f-0016d3cca427".
Definition uuids_second_run (k : nat) : string := "6fa459ea-ee8a-4ca4-894e-db77e160355e".

(** Modelled from the spec: the Conversation Store of lib/db, here kept
    as a map from conversation id to messages.  Load fails with NotFound
    on an absent id. *)
Definition map_loadChat (chatId : string) (st : gmap string (list ChatRoute.UIMessage))
  : option (list ChatRoute.UIMessage) := st !! chatId.

(** Modelled from the spec: Create inserts an empty conversation under the
    id its generator yields next, chat-1, and returns that id; it fails
    when the store holds that id already. *)
Definition map_createChat (st : gmap string (list ChatRoute.UIMessage))
  : option (string * gmap string (list ChatRoute.UIMessage)) :=
  match st !! "chat-1" with
  | Some _ => None
  | None => Some ("chat-1", <["chat-1" := []]> st)
  end.


Definition accept (ms : list ChatRoute.UIMessage) : ChatRoute.Validation :=
  ChatRoute.Valid ms.

Definition turn (chatId : option string) : ChatRoute.Request :=
  {| ChatRoute.authUser := Some "E1"; ChatRoute.messages := [named];
     ChatRoute.chatId := chatId |}.

(** Two turns interleaved: the Employee's turn binds its context, the
    administrator's turn binds its own, then the Employee's tool call runs. *)
Definition interleaved : list ChatRoute.Segment :=
  [ChatRoute.Binds 1 employee_E1;
   ChatRoute.Binds 2 admin_U9;
   ChatRoute.Calls 1 HrTools.hrTools.updateEmployee rename_E2].

End Scenario.

(** ** Notions the statements are phrased with *)

Module Notions.

(** An authorization error is one whose message opens with this word. *)
Definition denial (message : string) : bool := startsWith message "Unauthorized".

(** The message [requirePermission] throws. *)
Definition unauthorized (role : string) (action : Rbac.Action) (entity : Rbac.Entity)
  : string :=
  "Unauthorized: " +:+ role +:+ " cannot " +:+ Rbac.Action_str action
  +:+ " " +:+ Rbac.Entity_str entity.

Definition reads_only {A} (c : HrTools.Async A) : Prop := forall w, (c w).2 = w.

Definition denies_cleanly {A} (c : HrTools.Async A) : Prop :=
  forall w message w',
    c w = (HrTools.Thrown message, w') -> denial message = true -> w' = w.

Definition never_denies {A} (c : HrTools.Async A) : Prop :=
  forall w message w', c w = (HrTools.Thrown message, w') -> denial message = false.

(** The employee a row of a dependent table belongs to. *)
Definition owner (r : string * Obj) : string := Js.str (r.2 !! "employeeId").

(** The rows a tool result carries. *)
Definition rows_of (out : HrTools.Outcome HrTools.ToolResult) : Prisma.Table :=
  match out with
  | HrTools.Returned (HrTools.Stringified (HrTools.JRows rs)) => rs
  | _ => []
  end.

(** The last occurrence of every id, in arrival order. *)
Fixpoint keep_last (ms : list ChatRoute.Normalized) : list ChatRoute.Normalized :=
  match ms with
  | [] => []
  | m :: rest =>
      if decide (ChatRoute.id m ∈ ChatRoute.id <$> rest) then keep_last rest
      else m :: keep_last rest
  end.

(** No message still to come carries the id of [m]. *)
Definition fresh_in (later : list ChatRoute.Normalized) (m : ChatRoute.Normalized)
  : Prop :=
  ChatRoute.id m ∉ ChatRoute.id <$> later.

#[global] Instance fresh_in_dec later m : Decision (fresh_in later m).
Proof. unfold fresh_in. apply _. Defined.

(** How [normalize] relates a message to its normalized form: the body is
    kept, a non-empty id is kept, otherwise the id is a value the
    generator yielded from position [drawn] on. *)
Definition assigned (randomUUID : nat -> string) (drawn : nat)
    (m0 : ChatRoute.UIMessage) (m : ChatRoute.Normalized) : Prop :=
  ChatRoute.role m = ChatRoute.role m0 /\ ChatRoute.parts m = ChatRoute.parts m0 /\
  match ChatRoute.id m0 with
  | Some i =>
      if bool_decide (i = "") then exists k, drawn <= k /\ ChatRoute.id m = randomUUID k
      else ChatRoute.id m = i
  | None => exists k, drawn <= k /\ ChatRoute.id m = randomUUID k
  end.

End Notions.

(** ** What a computation does to the world, and names for the tool layer *)

Module Effects.

Definition never_throws {A} (c : HrTools.Async A) : Prop :=
  forall w, exists a w', c w = (HrTools.Returned a, w').

Definition fails_cleanly {A} (c : HrTools.Async A) : Prop :=
  forall w message w', c w = (HrTools.Thrown message, w') -> w' = w.

Definition keeps_context {A} (c : HrTools.Async A) : Prop :=
  forall w, HrTools.currentContext (c w).2 = HrTools.currentContext w.

Definition tables (db : Prisma.Db) :=
  (Prisma.employee db, Prisma.contract db, Prisma.administrativeLetter db,
   Prisma.attendanceRecord db, Prisma.payroll db, Prisma.benefit db,
   Prisma.user db, Prisma.generated db).

Definition keeps_tables {A} (c : HrTools.Async A) : Prop :=
  forall w, tables (HrTools.prisma (c w).2) = tables (HrTools.prisma w).

Definition privileged (role : string) : Prop :=
  role = "HR_Admin" \/ role = "HR_Manager" \/ role = "Finance".

Definition known (role : string) : Prop :=
  role = "HR_Admin" \/ role = "HR_Manager" \/ role = "Employee" \/ role = "Finance".

(** The row a tool result carries, if it carries one. *)
Definition row_of (r : HrTools.ToolResult) : option (string * Obj) :=
  match r with
  | HrTools.Stringified (HrTools.JRow row)
  | HrTools.Stringified (HrTools.JRowWith row _) => Some row
  | _ => None
  end.

(** The tools that write a row, with the entity type and action of the
    audit entry their body passes to [logAction]. *)
Definition audited (tool : HrTools.hrTools.name) : option (string * string) :=
  match tool with
  | HrTools.hrTools.createEmployee => Some ("Employee", "Create")
  | HrTools.hrTools.updateEmployee | HrTools.hrTools.archiveEmployee
  | HrTools.hrTools.reactivateEmployee => Some ("Employee", "Update")
  | HrTools.hrTools.createContract => Some ("Contract", "Create")
  | HrTools.hrTools.updateContract | HrTools.hrTools.terminateContract =>
      Some ("Contract", "Update")
  | HrTools.hrTools.generateLetter => Some ("AdministrativeLetter", "Create")
  | HrTools.hrTools.recordAttendance | HrTools.hrTools.requestLeave =>
      Some ("AttendanceRecord", "Create")
  | HrTools.hrTools.updateAttendance | HrTools.hrTools.approveLeave =>
      Some ("AttendanceRecord", "Update")
  | HrTools.hrTools.calculatePayroll => Some ("Payroll", "Create")
  | HrTools.hrTools.approvePayroll | HrTools.hrTools.paySalary =>
      Some ("Payroll", "Update")
  | HrTools.hrTools.addBenefit => Some ("Benefit", "Create")
  | HrTools.hrTools.updateBenefit => Some ("Benefit", "Update")
  | _ => None
  end.

(** The fields [updateEmployee] copies from its input. *)
Definition employee_fields : list string :=
  ["firstName"; "lastName"; "phoneNumber"; "email"; "address"; "jobTitle";
   "department"; "salary"; "benefits"; "leaveBalance"; "employmentStatus"].

End Effects.

(** ** app/api/chat/route.ts: the resumption endpoint and schedules *)

Module ChatResume.

Inductive Resumed :=
| Refused (status : nat) (body : string)
(** [Response.json({ messages })] *)
| Messages (messages : list ChatRoute.UIMessage).

Section Handler.
Context {ChatStore : Type}.
Context (loadChat : string -> ChatStore -> option (list ChatRoute.UIMessage)).

(** GET handler for resuming streams; [chatId] is what
    [searchParams.get('chatId')] returns. *)
Definition GET (chatId : option string) (st : ChatStore) : Resumed :=
  match chatId with
  | None => Refused 400 "chatId is required"
  | Some c =>
      if bool_decide (c = "") then Refused 400 "chatId is required"
      else match loadChat c st with
           | Some messages => Messages messages
           | None => Refused 404 "Chat not found"
           end
  end.

End Handler.

(** The caller [POST] resolves: the authenticated id together with the
    role stored for it. *)
Definition caller_of (req : ChatRoute.Request) (w : HrTools.World)
  : option HrTools.ToolContext :=
  match ChatRoute.authUser req with
  | Some a =>
      (fun r => {| HrTools.userId := Some a; HrTools.role := r |})
      <$> Prisma.user (HrTools.prisma w) !! a
  | None => None
  end.

(** The binding in the context slot once a schedule prefix has run. *)
Definition bound_after (schedule : list ChatRoute.Segment)
    (before : option HrTools.ToolContext) : option HrTools.ToolContext :=
  fold_left (fun bound s => match s with
                            | ChatRoute.Binds _ context => Some context
                            | ChatRoute.Calls _ _ _ => bound
                            end) schedule before.

(** How many tool calls a schedule holds. *)
Definition calls_in (schedule : list ChatRoute.Segment) : nat :=
  length (List.filter (fun s => match s with
                                | ChatRoute.Calls _ _ _ => true
                                | ChatRoute.Binds _ _ => false
                                end) schedule).

(** A message whose id is missing or empty: [!(m?.id && String(m.id).length > 0)]. *)
Definition lacks_id (m : ChatRoute.UIMessage) : bool :=
  match ChatRoute.id m with
  | Some i => bool_decide (i = "")
  | None => true
  end.

(** How many messages [normalize] has to name. *)
Definition unnamed_in (messages : list ChatRoute.UIMessage) : nat :=
  length (List.filter lacks_id messages).

End ChatResume.

(** ** app/api/auth/create-admin/route.ts and app/api/admin/users/route.ts *)

Module Accounts.

(** The two routes share the user table.  As for the tools, the store is
    taken to be reachable, so the only throws inside a handler's [try]
    are those of the calls named below; and a handler runs on its own,
    no other request writing the table between its steps. *)

Record User := {
  id : string;
  email : string;
  passwordHash : string;
  role : string;
  createdAt : Z;
}.

(** The user table in insertion order, and the identifiers generated. *)
Record Users := {
  rows : list User;
  generated : nat;
}.

(** What the handlers take from lib/auth/jwt, the regex engine and the
    environment. *)
Record Env := {
  (** [process.env.INIT_ADMIN_PASS] *)
  INIT_ADMIN_PASS : option string;
  (** [emailRegex.test(email)] for /^[^\s@]+@[^\s@]+\.[^\s@]+$/ *)
  emailRegex_test : string -> bool;
  (** [hashPassword]; [None] when it rejects *)
  hashPassword : string -> option string;
  (** [signToken(userId, role)]; [None] when it throws *)
  signToken : string -> string -> option string;
  (** the n-th identifier the store generates *)
  newId : nat -> string;
  (** [now()], the column default of [createdAt] *)
  now : Z;
}.

(** [select: { id, email, role, createdAt }] *)
Record Selected := {
  sel_id : string;
  sel_email : string;
  sel_role : string;
  sel_createdAt : Z;
}.

Definition select (u : User) : Selected :=
  {| sel_id := id u; sel_email := email u; sel_role := role u;
     sel_createdAt := createdAt u |}.

Inductive Body :=
| Error (error : string)
| HasUsers (hasUsers : bool)
| Created (token : string) (user_id user_email user_role : string)
| UserList (users : list Selected)
| Updated (user : Selected).

(** [NextResponse.json(body, { status })] *)
Record Response := {
  status : nat;
  body : Body;
}.

Definition json (b : Body) (s : nat) : Response := {| status := s; body := b |}.

(** [!v] on an optional string field of the request body. *)
Definition missing (v : option string) : bool :=
  match v with
  | Some s => bool_decide (s = "")
  | None => true
  end.

Definition findUnique_id (users : Users) (i : string) : option User :=
  List.find (fun u => bool_decide (id u = i)) (rows users).

Definition findUnique_email (users : Users) (e : string) : option User :=
  List.find (fun u => bool_decide (email u = e)) (rows users).

(** [prisma.user.count()] *)
Definition count (users : Users) : nat := length (rows users).

(** The body of a setup request: its three fields, strings as the setup
    page sends them, [None] being a field that is absent. *)
Record CreateAdminBody := {
  b_email : option string;
  b_password : option string;
  b_initAdminPass : option string;
}.

Section CreateAdmin.
Context (E : Env).

Definition GET_hasUsers (users : Users) : Response :=
  json (HasUsers (bool_decide (0 < count users))) 200.

(** [POST]; the request body is [None] when [req.json()] throws.  The
    whole handler sits in one [try], whose [catch] answers 500. *)
Definition POST_createAdmin (request : option CreateAdminBody) (users : Users)
  : Response * Users :=
  let internal := json (Error "Internal server error") 500 in
  match request with
  | None => (internal, users)
  | Some b =>
      if missing (b_email b) || missing (b_password b) || missing (b_initAdminPass b)
      then (json (Error "Email, password and initial admin password are required") 400,
            users)
      else if missing (INIT_ADMIN_PASS E)
      then (json (Error
              "Application is not configured correctly. Please contact an administrator.")
              500, users)
      (* Only allow admin creation when there are no users yet *)
      else if bool_decide (0 < count users)
      then (json (Error "Admin user already created.") 403, users)
      else if negb (bool_decide (b_initAdminPass b = INIT_ADMIN_PASS E))
      then (json (Error "Invalid initial admin password.") 403, users)
      else
        let email := default "" (b_email b) in
        let password := default "" (b_password b) in
        if negb (emailRegex_test E email)
        then (json (Error "Invalid email format") 400, users)
        else match findUnique_email users email with
             | Some _ => (json (Error "Email already exists") 409, users)
             | None =>
                 match hashPassword E password with
                 | None => (internal, users)
                 | Some passwordHash =>
                     let user := {| id := newId E (generated users); email := email;
                                    passwordHash := passwordHash; role := "HR_Admin";
                                    createdAt := now E |} in
                     let users' := {| rows := rows users ++ [user];
                                      generated := S (generated users) |} in
                     match signToken E (id user) (role user) with
                     | None => (internal, users')
                     | Some token =>
                         (json (Created token (id user) (Accounts.email user) (role user)) 201,
                          users')
                     end
                 end
             end
  end.

End CreateAdmin.

(** *** app/api/admin/users/route.ts *)

Definition newest_user_first (a b : User) : Prop := (createdAt b <= createdAt a)%Z.

#[global] Instance newest_user_first_dec a b : Decision (newest_user_first a b).
Proof. unfold newest_user_first. apply _. Defined.

(** The two checks both handlers open with: [None] lets the caller
    through, [Some r] is the refusal.  [authUser] is what [getAuthUser]
    resolves the credential to. *)
Definition admin_gate (authUser : option string) (users : Users) : option Response :=
  match authUser with
  | None => Some (json (Error "Unauthorized") 401)
  | Some a =>
      match findUnique_id users a with
      | Some currentUser =>
          if bool_decide (role currentUser = "HR_Admin") then None
          else Some (json (Error "Forbidden: HR_Admin role required") 403)
      | None => Some (json (Error "Forbidden: HR_Admin role required") 403)
      end
  end.

(** Get all users (HR_Admin only) *)
Definition GET_users (authUser : option string) (users : Users) : Response :=
  match admin_gate authUser users with
  | Some refusal => refusal
  | None => json (UserList (select <$> merge_sort newest_user_first (rows users))) 200
  end.

(** [user.role === 'HR_Admin' ? 'Employee' : 'HR_Admin'] *)
Definition newRole (role : string) : string :=
  if bool_decide (role = "HR_Admin") then "Employee" else "HR_Admin".

(** [data: { role }] on one row. *)
Definition with_role (u : User) (r : string) : User :=
  {| id := id u; email := email u; passwordHash := passwordHash u;
     role := r; createdAt := createdAt u |}.

(** Toggle a user's role between Employee and HR_Admin (HR_Admin only).
    [request] is [None] when [request.json()] throws, else the [userId]
    field of the body. *)
Definition PATCH_users (authUser : option string) (request : option (option string))
    (users : Users) : Response * Users :=
  match admin_gate authUser users with
  | Some refusal => (refusal, users)
  | None =>
      match request with
      | None => (json (Error "Internal server error") 500, users)
      | Some userId =>
          if missing userId then (json (Error "userId is required") 400, users)
          else
            let userId := default "" userId in
            match findUnique_id users userId with
            | None => (json (Error "User not found") 404, users)
            | Some user =>
                let set (u : User) :=
                  if bool_decide (id u = userId) then with_role u (newRole (role user))
                  else u in
                let users' := {| rows := set <$> rows users; generated := generated users |} in
                (json (Updated (select (set user))) 200, users')
            end
      end
  end.

(** The users that pass the gate of the administration routes. *)
Definition admins (users : Users) : list User :=
  List.filter (fun u => bool_decide (role u = "HR_Admin")) (rows users).

End Accounts.

(** ** lib/auth/client and lib/api/client.ts: the browser side *)

Module ClientAuth.

(** [window] is whether [typeof window !== 'undefined']; [localStorage]
    is the key-value store of the page. *)
Record Browser := {
  window : bool;
  localStorage : gmap string string;
}.

Definition setItem (k v : string) (b : Browser) : Browser :=
  {| window := window b; localStorage := <[k := v]> (localStorage b) |}.

Definition removeItem (k : string) (b : Browser) : Browser :=
  {| window := window b; localStorage := delete k (localStorage b) |}.

Definition getToken (b : Browser) : option string :=
  if negb (window b) then None else localStorage b !! "token".

Section Json.
(** [JSON.parse]; [None] when it throws. *)
Context (JSON_parse : string -> option JsValue).
(** [JSON.stringify] on a user record. *)
Context (JSON_stringify : string * string * string -> string).

Definition getUser (b : Browser) : option JsValue :=
  if negb (window b) then None
  else match localStorage b !! "user" with
       | None => None
       | Some userStr =>
           if bool_decide (userStr = "") then None
           else match JSON_parse userStr with
                | Some JNull => None
                | parsed => parsed
                end
       end.

Definition setUser (user : string * string * string) (b : Browser) : Browser :=
  if negb (window b) then b else setItem "user" (JSON_stringify user) b.

End Json.

Definition setToken (token : string) (b : Browser) : Browser :=
  if negb (window b) then b else setItem "token" token b.

Definition clearAuth (b : Browser) : Browser :=
  if negb (window b) then b else removeItem "user" (removeItem "token" b).

Definition isAuthenticated (b : Browser) : bool :=
  match getToken b with
  | Some _ => true
  | None => false
  end.

(** lib/api/client.ts: the headers object, as its own entries. *)
Definition getAuthHeaders (b : Browser) : list (string * string) :=
  if negb (window b) then []
  else match localStorage b !! "token" with
       | None => []
       | Some token =>
           if bool_decide (token = "") then []
           else [("Authorization", "Bearer " +:+ token)]
       end.

End ClientAuth.

(** ** lib/storage/files.ts *)

Module Storage.

(** The class [[a-zA-Z0-9.-]] of the sanitizing pattern. *)
Definition kept (c : Ascii.ascii) : bool :=
  let n := Ascii.nat_of_ascii c in
  ((97 <=? n) && (n <=? 122)) || ((65 <=? n) && (n <=? 90))
  || ((48 <=? n) && (n <=? 57)) || (n =? 46) || (n =? 45).

(** [filename.replace(/[^a-zA-Z0-9.-]/g, '_')], a string being its
    sequence of code units. *)
Definition underscore : Ascii.ascii := Ascii.ascii_of_nat 95.

Fixpoint sanitize (filename : string) : string :=
  match filename with
  | EmptyString => EmptyString
  | String c rest => String (if kept c then c else underscore) (sanitize rest)
  end.

Section Fs.
(** The file system and [path.join] are taken as given; a call of
    fs.promises either resolves or rejects, and leaves a file system. *)
Context {Fs : Type}.
Context (path_join : list string -> string).
Context (cwd : string).
Context (fs_access : string -> Fs -> HrTools.Outcome unit * Fs).
Context (fs_mkdir : string -> Fs -> HrTools.Outcome unit * Fs).
Context (fs_writeFile : string -> list Byte.byte -> Fs -> HrTools.Outcome unit * Fs).
Context (fs_unlink : string -> Fs -> HrTools.Outcome unit * Fs).

Definition DOCUMENTS_DIR : string := path_join [cwd; "public"; "documents"].

Definition ensureDocumentsDir (fs : Fs) : HrTools.Outcome unit * Fs :=
  match fs_access DOCUMENTS_DIR fs with
  | (HrTools.Returned _, fs') => (HrTools.Returned tt, fs')
  | (HrTools.Thrown _, fs') => fs_mkdir DOCUMENTS_DIR fs'
  end.

Definition storeDocument (file : list Byte.byte) (filename employeeId : string)
    (fs : Fs) : HrTools.Outcome string * Fs :=
  match ensureDocumentsDir fs with
  | (HrTools.Thrown e, fs1) => (HrTools.Thrown e, fs1)
  | (HrTools.Returned _, fs1) =>
      let employeeDir := path_join [DOCUMENTS_DIR; employeeId] in
      match fs_mkdir employeeDir fs1 with
      | (HrTools.Thrown e, fs2) => (HrTools.Thrown e, fs2)
      | (HrTools.Returned _, fs2) =>
          (* Sanitize filename *)
          let sanitizedFilename := sanitize filename in
          let filePath := path_join [employeeDir; sanitizedFilename] in
          match fs_writeFile filePath file fs2 with
          | (HrTools.Thrown e, fs3) => (HrTools.Thrown e, fs3)
          | (HrTools.Returned _, fs3) =>
              (* Return relative path from public directory *)
              (HrTools.Returned
                 ("/documents/" +:+ employeeId +:+ "/" +:+ sanitizedFilename), fs3)
          end
      end
  end.

Definition getDocumentPath (documentUrl : string) : HrTools.Outcome string :=
  if negb (startsWith documentUrl "/documents/")
  then HrTools.Thrown "Invalid document URL"
  else HrTools.Returned (path_join [cwd; "public"; documentUrl]).

Definition deleteDocument (documentUrl : string) (fs : Fs)
  : HrTools.Outcome unit * Fs :=
  match getDocumentPath documentUrl with
  | HrTools.Thrown e => (HrTools.Thrown e, fs)
  | HrTools.Returned filePath =>
      (* File might not exist, ignore error *)
      (HrTools.Returned tt, (fs_unlink filePath fs).2)
  end.

Definition documentExists (documentUrl : string) (fs : Fs)
  : HrTools.Outcome bool * Fs :=
  match getDocumentPath documentUrl with
  | HrTools.Thrown _ => (HrTools.Returned false, fs)
  | HrTools.Returned filePath =>
      match fs_access filePath fs with
      | (HrTools.Returned _, fs') => (HrTools.Returned true, fs')
      | (HrTools.Thrown _, fs') => (HrTools.Returned false, fs')
      end
  end.

End Fs.

End Storage.

(** ** The words of the payroll claim *)

Module PayrollSpec.







End PayrollSpec.

(** ** Sample data for the routes and helpers beside the tool layer *)

Module Samples.

(** Tool inputs and a world in which no turn has bound a context. *)
Definition about_nobody : Obj := Js.obj [("employeeId", Some (VStr "E404"))].

Definition pay_P2 : Obj := Js.obj [("payrollId", Some (VStr "P2"))].

Definition hire_Cy : Obj :=
  Js.obj [("firstName", Some (VStr "Cy")); ("lastName", Some (VStr "Dee"));
          ("salary", Some (VNum 1800))].

Definition no_filter : Obj := ∅.

Definition unbound : HrTools.World :=
  {| HrTools.currentContext := None; HrTools.prisma := Scenario.db |}.

(** A world whose audit trail holds three entries, out of time order. *)
Definition audited_db : Prisma.Db :=
  Prisma.add_audit
    {| Prisma.entityType := "Payroll"; Prisma.entityId := "P2"; Prisma.action := "Update";
       Prisma.performedBy := Some "U9"; Prisma.details := None; Prisma.timestamp := 20 |}
    (Prisma.add_audit
       {| Prisma.entityType := "Employee"; Prisma.entityId := "E2";
          Prisma.action := "Update"; Prisma.performedBy := Some "U9";
          Prisma.details := None; Prisma.timestamp := 30 |}
       (Prisma.add_audit
          {| Prisma.entityType := "Employee"; Prisma.entityId := "E1";
             Prisma.action := "Read"; Prisma.performedBy := Some "E1";
             Prisma.details := None; Prisma.timestamp := 10 |}
          Scenario.db)).

Definition audited_world : HrTools.World :=
  {| HrTools.currentContext := Some Scenario.admin_U9; HrTools.prisma := audited_db |}.

(** A query for the newest entry about an employee. *)
Definition newest_employee_entry : Obj :=
  Js.obj [("entityType", Some (VStr "Employee")); ("limit", Some (VNum 1))].



(** A platform whose store rejects every audit entry. *)
Definition audit_down : Platform := {|
  JSON_parse := JSON_parse Scenario.platform;
  StringToNumber := StringToNumber Scenario.platform;
  ObjectToString := ObjectToString Scenario.platform;
  Date_parse := Date_parse Scenario.platform;
  Date_now := Date_now Scenario.platform;
  cuid := cuid Scenario.platform;
  contains_insensitive := contains_insensitive Scenario.platform;
  auditLog_create := fun _ _ _ _ _ => false;
|}.





(** A generator that yields uuid-0, uuid-1, ..., and messages of which
    the first and the last come without an id. *)
Definition uuids (k : nat) : string := "uuid-" +:+ String (Ascii.ascii_of_nat (48 + k)) "".

Definition blank : ChatRoute.UIMessage :=
  {| ChatRoute.id := Some ""; ChatRoute.role := "assistant"; ChatRoute.parts := ["bye"] |}.

Definition three_messages : list ChatRoute.UIMessage :=
  [Scenario.unnamed; Scenario.named; blank].

(** A schedule in which the administrator's turn binds and calls, then
    the Employee's turn binds and calls. *)
Definition one_after_another : list ChatRoute.Segment :=
  [ChatRoute.Binds 1 Scenario.admin_U9;
   ChatRoute.Calls 1 HrTools.hrTools.archiveEmployee Scenario.about_E2;
   ChatRoute.Binds 2 Scenario.employee_E1].

(** A conversation store holding one conversation. *)
Definition one_chat : gmap string (list ChatRoute.UIMessage) :=
  {[ "chat-7" := [Scenario.unnamed] ]}.

(** The account routes: an environment whose e-mail test asks for an at
    sign, whose hash and token are tagged copies, and whose store numbers
    users u0, u1, ... *)
Definition env : Accounts.Env := {|
  Accounts.INIT_ADMIN_PASS := Some "open-sesame";
  Accounts.emailRegex_test := fun e => includes e "@";
  Accounts.hashPassword := fun p => Some ("hash:" +:+ p);
  Accounts.signToken := fun i r => Some (i +:+ "." +:+ r);
  Accounts.newId := fun n => "u" +:+ String (Ascii.ascii_of_nat (48 + n)) "";
  Accounts.now := 50%Z;
|}.

(** The same environment with a token signer that throws. *)
Definition env_signing_fails : Accounts.Env := {|
  Accounts.INIT_ADMIN_PASS := Accounts.INIT_ADMIN_PASS env;
  Accounts.emailRegex_test := Accounts.emailRegex_test env;
  Accounts.hashPassword := Accounts.hashPassword env;
  Accounts.signToken := fun _ _ => None;
  Accounts.newId := Accounts.newId env;
  Accounts.now := Accounts.now env;
|}.

Definition setup_request : Accounts.CreateAdminBody := {|
  Accounts.b_email := Some "root@hr.example";
  Accounts.b_password := Some "s3cret";
  Accounts.b_initAdminPass := Some "open-sesame";
|}.

Definition no_users : Accounts.Users := {| Accounts.rows := []; Accounts.generated := 0 |}.

Definition root : Accounts.User := {|
  Accounts.id := "u0"; Accounts.email := "root@hr.example";
  Accounts.passwordHash := "hash:s3cret"; Accounts.role := "HR_Admin";
  Accounts.createdAt := 50%Z |}.

Definition manager : Accounts.User := {|
  Accounts.id := "u1"; Accounts.email := "mia@hr.example";
  Accounts.passwordHash := "hash:m"; Accounts.role := "HR_Manager";
  Accounts.createdAt := 70%Z |}.

Definition clerk : Accounts.User := {|
  Accounts.id := "u2"; Accounts.email := "cal@hr.example";
  Accounts.passwordHash := "hash:c"; Accounts.role := "Employee";
  Accounts.createdAt := 60%Z |}.

Definition staff : Accounts.Users :=
  {| Accounts.rows := [root; manager; clerk]; Accounts.generated := 3 |}.

(** The browser, signed in. *)
Definition signed_in : ClientAuth.Browser :=
  {| ClientAuth.window := true;
     ClientAuth.localStorage := {[ "token" := "abc"; "user" := "{}" ]} |}.

(** A file system as the set of its paths; joining puts a slash between
    the segments. *)
Definition join (segments : list string) : string :=
  match segments with
  | [] => "."
  | s :: rest => fold_left (fun p q => p +:+ "/" +:+ q) rest s
  end.

Definition access (p : string) (fs : gset string) : HrTools.Outcome unit * gset string :=
  if decide (p ∈ fs) then (HrTools.Returned tt, fs) else (HrTools.Thrown "ENOENT", fs).

Definition mkdir (p : string) (fs : gset string) : HrTools.Outcome unit * gset string :=
  (HrTools.Returned tt, {[ p ]} ∪ fs).

Definition writeFile (p : string) (file : list Byte.byte) (fs : gset string)
  : HrTools.Outcome unit * gset string :=
  (HrTools.Returned tt, {[ p ]} ∪ fs).

Definition unlink (p : string) (fs : gset string) : HrTools.Outcome unit * gset string :=
  if decide (p ∈ fs) then (HrTools.Returned tt, fs ∖ {[ p ]})
  else (HrTools.Thrown "ENOENT", fs).

End Samples.

(** * Properties *)

(** ** Strings *)

Module StringFacts.

Lemma startsWith_app p s : startsWith (p +:+ s) p = true.
Proof.
  induction p as [|c p IH]; [done|].
  change (String c p +:+ s) with (String c (p +:+ s)).
  cbn [startsWith]. by rewrite Ascii.eqb_refl.
Qed.

Lemma includes_here s p : startsWith s p = true -> includes s p = true.
Proof. destruct s; simpl; intros ->; done. Qed.

Lemma includes_app_r pre s p : includes s p = true -> includes (pre +:+ s) p = true.
Proof.
  induction pre as [|c pre IH]; [done|]. intros H.
  change (String c pre +:+ s) with (String c (pre +:+ s)).
  cbn [includes]. rewrite (IH H). apply orb_true_r.
Qed.

End StringFacts.

(** ** The tool layer *)

Module ToolFacts.
Import HrTools Notions.

(** *** Object literals *)

Lemma obj_lookup_eq k x props : Js.obj ((k, Some x) :: props) !! k = Some x.
Proof. unfold Js.obj. simpl. apply lookup_insert_eq. Qed.

Lemma obj_lookup_ne k v props key :
  k ≠ key -> Js.obj ((k, v) :: props) !! key = Js.obj props !! key.
Proof.
  intros Hne. unfold Js.obj. simpl. destruct v; simpl; [|done].
  by rewrite lookup_insert_ne.
Qed.

Lemma obj_lookup_absent props key : key ∉ props.*1 -> Js.obj props !! key = None.
Proof.
  intros Hn. unfold Js.obj. apply not_elem_of_list_to_map_1.
  intros Hin. apply Hn. apply list_elem_of_fmap in Hin as ([k v] & -> & Hin).
  apply list_elem_of_omap in Hin as ([k' v'] & Hin & Heq). simpl in *.
  destruct v'; simplify_eq. apply list_elem_of_fmap. by exists (k, Some v).
Qed.

Lemma obj_lookup_head k v props :
  k ∉ props.*1 -> Js.obj ((k, v) :: props) !! k = v.
Proof.
  intros Hn. destruct v as [x|]; [apply obj_lookup_eq|].
  unfold Js.obj. simpl. by apply obj_lookup_absent.
Qed.

(** *** The message of the role check *)

Lemma unauthorized_names role action entity :
  includes (unauthorized role action entity) (Rbac.Action_str action) = true
  /\ includes (unauthorized role action entity) (Rbac.Entity_str entity) = true
  /\ denial (unauthorized role action entity) = true.
Proof.
  unfold unauthorized. split; [|split].
  - do 3 apply StringFacts.includes_app_r.
    apply StringFacts.includes_here, StringFacts.startsWith_app.
  - do 5 apply StringFacts.includes_app_r. by destruct entity.
  - done.
Qed.

(** *** How the three notions compose along a body *)

Section Rules.
Context {A B : Type}.
Implicit Types (c : Async A) (f : A -> Async B).

Lemma reads_only_clean c : reads_only c -> denies_cleanly c.
Proof. intros H w m w' E _. specialize (H w). by rewrite E in H. Qed.

Lemma never_denies_clean c : never_denies c -> denies_cleanly c.
Proof. intros H w m w' E D. rewrite (H _ _ _ E) in D. done. Qed.

Lemma bind_after_read c f :
  reads_only c -> (forall a, denies_cleanly (f a)) -> denies_cleanly (c ≫= f).
Proof.
  intros Hc Hf w m w'. unfold mbind, Async_bind. specialize (Hc w).
  destruct (c w) as [[a|e] w1]; simpl in *; subst.
  - apply Hf.
  - by intros [= <- <-] _.
Qed.

Lemma bind_never c f :
  never_denies c -> (forall a, never_denies (f a)) -> never_denies (c ≫= f).
Proof.
  intros Hc Hf w m w'. unfold mbind, Async_bind.
  destruct (c w) as [[a|e] w1] eqn:E.
  - apply Hf.
  - intros [= <- <-]. by eapply Hc.
Qed.

End Rules.

Lemma getToolContext_reads : reads_only getToolContext.
Proof. intros w. unfold getToolContext. by destruct (currentContext w). Qed.

Lemma requirePermission_reads r a e u : reads_only (requirePermission r a e u).
Proof. intros w. unfold requirePermission. by destruct (negb _). Qed.

Lemma db_read_reads {A} (f : Prisma.Db -> A) : reads_only (db_read f).
Proof. done. Qed.

Lemma throw_reads {A} m : reads_only (@throw A m).
Proof. done. Qed.

Lemma mret_reads {A} (a : A) : reads_only (mret a : Async A).
Proof. done. Qed.

Lemma db_read_never {A} (f : Prisma.Db -> A) : never_denies (db_read f).
Proof. by intros w msg w' [=]. Qed.

Lemma mret_never {A} (a : A) : never_denies (mret a : Async A).
Proof. by intros w m w' [=]. Qed.

Lemma db_create_never P m data : never_denies (db_create P m data).
Proof. intros w msg w'. unfold db_create. by destruct (Prisma.create _ _ _ _). Qed.

Lemma db_update_never m i data : never_denies (db_update m i data).
Proof.
  intros w msg w'. unfold db_update.
  destruct (Prisma.update _ _ _) as [[row t]|]; [done|]. by intros [= <- <-].
Qed.

Lemma logAction_never P t i a u d : never_denies (logAction P t i a u d).
Proof. intros w msg w'. unfold logAction. by destruct (auditLog_create _ _ _ _ _ _). Qed.

Lemma throw_never {A} m : denial m = false -> never_denies (@throw A m).
Proof. by intros H w msg w' [= <- <-]. Qed.

Create HintDb reads.
Create HintDb quiet.
#[local] Hint Resolve getToolContext_reads requirePermission_reads db_read_reads
  throw_reads mret_reads : reads.
#[local] Hint Resolve db_read_never mret_never db_create_never db_update_never
  logAction_never : quiet.

(** Past the checks: nothing that follows throws an authorization error. *)
Ltac quiet :=
  repeat first
    [ apply bind_never; [solve [auto with quiet] | intros ?]
    | solve [auto with quiet]
    | apply throw_never; reflexivity
    | match goal with
      | |- never_denies (match ?x with _ => _ end) => destruct x
      | |- never_denies (let _ := _ in _) => cbv zeta
      end ].

(** Up to the checks: only reads, so a denial leaves the world as it was. *)
Ltac clean :=
  repeat first
    [ apply bind_after_read; [solve [auto with reads] | intros ?]
    | apply reads_only_clean; solve [auto with reads]
    | match goal with
      | |- denies_cleanly (match ?x with _ => _ end) => destruct x
      | |- denies_cleanly (let _ := _ in _) => cbv zeta
      end
    | apply never_denies_clean; solve [quiet] ].

Lemma denial_leaves_world P tool input : denies_cleanly (hrTools.execute P tool input).
Proof.
  destruct tool; simpl;
    unfold createEmployee, updateEmployee, getEmployee, archiveEmployee,
      reactivateEmployee, createContract, updateContract, getContract,
      terminateContract, generateLetter, getLetters, recordAttendance,
      updateAttendance, getAttendance, approveLeave, requestLeave,
      calculatePayroll, getPayroll, approvePayroll, paySalary, addBenefit,
      updateBenefit, getBenefits, getAuditLogs; clean.
Qed.

(** *** The two checks every body opens with *)

Lemma gate_denied {B} (k : ToolContext -> unit -> Async B) w ctx action entity :
  currentContext w = Some ctx ->
  Rbac.checkPermission (role ctx) action entity = false ->
  (getToolContext ≫= fun c => requirePermission (role c) action entity (userId c) ≫= k c) w
  = (Thrown (unauthorized (role ctx) action entity), w).
Proof.
  intros Hc Hp. unfold mbind, Async_bind, getToolContext, requirePermission.
  rewrite Hc, Hp. done.
Qed.

Lemma gate_passed {B} (k : ToolContext -> unit -> Async B) w ctx action entity :
  currentContext w = Some ctx ->
  Rbac.checkPermission (role ctx) action entity = true ->
  (getToolContext ≫= fun c => requirePermission (role c) action entity (userId c) ≫= k c) w
  = k ctx tt w.
Proof.
  intros Hc Hp. unfold mbind, Async_bind, getToolContext, requirePermission.
  rewrite Hc, Hp. done.
Qed.

Lemma role_check_aborts P tool input w ctx action entity :
  currentContext w = Some ctx ->
  hrTools.requires tool = Some (action, entity) ->
  Rbac.checkPermission (role ctx) action entity = false ->
  hrTools.execute P tool input w = (Thrown (unauthorized (role ctx) action entity), w).
Proof.
  intros Hc Hr Hp. destruct tool; simplify_eq/=; by apply gate_denied.
Qed.

(** Whoever may update employees passes the ownership predicate, so the
    ownership branch of [updateEmployee] is never taken. *)
Lemma updaters_access_everyone r employeeId u :
  Rbac.checkPermission r Rbac.update Rbac.employee = true ->
  Rbac.canAccessEmployee r employeeId u = true.
Proof.
  unfold Rbac.checkPermission, Rbac.permissions.
  intros H. destruct (decide (r = "HR_Admin")) as [->|?]; [done|].
  destruct (decide (r = "HR_Manager")) as [->|?]; [done|].
  destruct (decide (r = "Employee")) as [->|?]; [by vm_compute in H|].
  destruct (decide (r = "Finance")) as [->|?]; [done|].
  done.
Qed.

(** A body that creates a row and logs it: the row is appended to its
    table whether or not the audit entry is accepted. *)
Lemma create_and_log {B} P m data et act u d (k : string * Obj -> B) w :
  exists w',
    (db_create P m data ≫= fun r =>
       logAction P et r.1 act u d ≫= fun _ => mret (k r)) w
    = (Returned (k (cuid P (Prisma.generated (prisma w)), data)), w')
    /\ Prisma.table m (prisma w')
       = Prisma.table m (prisma w) ++ [(cuid P (Prisma.generated (prisma w)), data)]
    /\ currentContext w' = currentContext w.
Proof.
  unfold mbind, Async_bind, db_create, logAction, mret, Async_ret. cbn.
  destruct (auditLog_create _ _ _ _ _ _); eexists; (split; [reflexivity|]);
    by destruct m.
Qed.

(** The parsed input: a field without a default reads as in the raw
    input, a field with one never reads absent. *)
Lemma with_default_lookup_ne field v (input : Obj) k :
  field ≠ k -> hrTools.with_default field v input !! k = input !! k.
Proof.
  intros Hne. unfold hrTools.with_default.
  destruct (input !! field); [done|]. by rewrite lookup_insert_ne.
Qed.

Lemma with_default_lookup field v (input : Obj) :
  hrTools.with_default field v input !! field = Some (default v (input !! field)).
Proof.
  unfold hrTools.with_default. destruct (input !! field) as [x|] eqn:E; [done|].
  by rewrite lookup_insert_eq.
Qed.

Lemma limit_or_parsed (input : Obj) :
  limit_or (hrTools.with_default "limit" (VNum 10) input) 10 = limit_or input 10.
Proof.
  unfold limit_or. rewrite with_default_lookup.
  by destruct (input !! "limit") as [[]|].
Qed.

Lemma getEmployee_ownership_denial P input w ctx employee :
  currentContext w = Some ctx ->
  Rbac.checkPermission (role ctx) Rbac.read Rbac.employee = true ->
  Js.truthy (input !! "employeeId") = true ->
  Prisma.findUnique (Prisma.employee (prisma w)) (Js.str (input !! "employeeId"))
    = Some employee ->
  Rbac.canAccessEmployee (role ctx) employee.1 (userId ctx) = false ->
  getEmployee P input w
  = (Thrown "Unauthorized: Cannot access this employee record", w).
Proof.
  intros Hc Hp Ht Hf Ha. unfold getEmployee.
  rewrite (gate_passed _ _ _ _ _ Hc Hp), Ht.
  unfold mbind at 1. unfold Async_bind at 1. unfold db_read at 1.
  rewrite Hf, Ha. done.
Qed.

End ToolFacts.

(** ** Authorization, ownership and payroll *)

Module ToolClaims.
Import HrTools Notions.

(** C1, as the code has it.  Whenever a tool aborts with an authorization
    error, the world (every table and the audit log) is exactly what it was
    before the call.  When it is the role check that fails, the tool aborts
    with the message of [requirePermission], which names the action and the
    entity.  An Employee calling [updateEmployee] is refused by that check,
    whoever owns the record.  When the ownership check of [getEmployee]
    fails, or the role test of [getAuditLogs], the tool aborts with a fixed
    message. *)
Theorem C1_denial_has_no_side_effect P tool input w :
  (forall message w',
      hrTools.execute P tool input w = (Thrown message, w') ->
      denial message = true -> w' = w)
  /\ (forall ctx action entity,
        currentContext w = Some ctx ->
        hrTools.requires tool = Some (action, entity) ->
        Rbac.checkPermission (role ctx) action entity = false ->
        hrTools.execute P tool input w
        = (Thrown (unauthorized (role ctx) action entity), w)
        /\ includes (unauthorized (role ctx) action entity) (Rbac.Action_str action) = true
        /\ includes (unauthorized (role ctx) action entity) (Rbac.Entity_str entity) = true)
  /\ (forall uid,
        currentContext w = Some {| userId := uid; role := "Employee" |} ->
        hrTools.execute P hrTools.updateEmployee input w
        = (Thrown "Unauthorized: Employee cannot update employee", w))
  /\ (forall ctx employee,
        currentContext w = Some ctx ->
        Rbac.checkPermission (role ctx) Rbac.read Rbac.employee = true ->
        Js.truthy (input !! "employeeId") = true ->
        Prisma.findUnique (Prisma.employee (prisma w)) (Js.str (input !! "employeeId"))
          = Some employee ->
        Rbac.canAccessEmployee (role ctx) employee.1 (userId ctx) = false ->
        hrTools.execute P hrTools.getEmployee input w
        = (Thrown "Unauthorized: Cannot access this employee record", w))
  /\ (forall ctx,
        currentContext w = Some ctx ->
        role ctx ≠ "HR_Admin" ->
        hrTools.execute P hrTools.getAuditLogs input w
        = (Thrown "Unauthorized: Only HR Admin can view audit logs", w)).
Proof.
  split; [|split; [|split; [|split]]].
  - intros message w'. apply ToolFacts.denial_leaves_world.
  - intros ctx action entity Hc Hr Hp. split.
    + by apply ToolFacts.role_check_aborts.
    + destruct (ToolFacts.unauthorized_names (role ctx) action entity) as (? & ? & _).
      done.
  - intros uid Hc.
    by rewrite (ToolFacts.role_check_aborts P hrTools.updateEmployee input w _
                  Rbac.update Rbac.employee Hc).
  - intros ctx employee Hc Hp Ht Hf Ha. simpl.
    apply (ToolFacts.getEmployee_ownership_denial _ _ _ ctx employee);
      rewrite ?ToolFacts.with_default_lookup_ne by done; done.
  - intros ctx Hc Hr. simpl.
    unfold getAuditLogs, mbind, Async_bind, getToolContext.
    by rewrite Hc, bool_decide_eq_false_2.
Qed.

Lemma C1_denial_has_no_side_effect_witness :
  (hrTools.execute Scenario.platform hrTools.updateEmployee Scenario.rename_E2
     (Scenario.world Scenario.employee_E1)).2
  = Scenario.world Scenario.employee_E1
  /\ hrTools.execute Scenario.platform hrTools.updateEmployee Scenario.rename_E2
       (Scenario.world Scenario.employee_E1)
     = (Thrown "Unauthorized: Employee cannot update employee",
        Scenario.world Scenario.employee_E1)
  /\ hrTools.execute Scenario.platform hrTools.getEmployee Scenario.about_E2
       (Scenario.world Scenario.employee_E1)
     = (Thrown "Unauthorized: Cannot access this employee record",
        Scenario.world Scenario.employee_E1).
Proof.
  split; [|split].
  - apply (proj1 (C1_denial_has_no_side_effect
             Scenario.platform hrTools.updateEmployee Scenario.rename_E2
             (Scenario.world Scenario.employee_E1))
             "Unauthorized: Employee cannot update employee");
      reflexivity.
  - apply (proj1 (proj2 (proj2 (C1_denial_has_no_side_effect
             Scenario.platform hrTools.updateEmployee Scenario.rename_E2
             (Scenario.world Scenario.employee_E1))))) with (uid := Some "E1").
    reflexivity.
  - apply (proj1 (proj2 (proj2 (proj2 (C1_denial_has_no_side_effect
             Scenario.platform hrTools.getEmployee Scenario.about_E2
             (Scenario.world Scenario.employee_E1))))))
      with (ctx := Scenario.employee_E1)
           (employee := ("E2", Js.obj [("firstName", Some (VStr "Ben"));
                                       ("salary", Some (VNum 2000))]));
      reflexivity.
Defined.

(** C1, as stated, fails where the ownership check is the one that fails:
    an Employee reading another employee's record is refused with a
    message that names none of the five actions. *)
Lemma C1_ownership_denial_names_no_action :
  hrTools.execute Scenario.platform hrTools.getEmployee Scenario.about_E2
    (Scenario.world Scenario.employee_E1)
  = (Thrown "Unauthorized: Cannot access this employee record",
     Scenario.world Scenario.employee_E1)
  /\ hrTools.requires hrTools.getEmployee = Some (Rbac.read, Rbac.employee)
  /\ forall a : Rbac.Action,
       includes "Unauthorized: Cannot access this employee record" (Rbac.Action_str a)
       = false.
Proof. split; [reflexivity|]. split; [reflexivity|]. by intros []. Qed.

(** C2 at its failing input: an Employee overwrites the attendance record
    of another employee.  [updateAttendance] passes the role check, never
    consults the ownership predicate, writes the row and logs the update. *)
Theorem C2_updateAttendance_writes_foreign_record :
  let w := Scenario.world Scenario.employee_E1 in
  let result := hrTools.execute Scenario.platform hrTools.updateAttendance
                  Scenario.overwrite_A2 w in
  let written :=
    ("A2", Js.obj [("employeeId", Some (VStr "E2")); ("date", Some (VDate 10));
                   ("hoursWorked", Some (VNum 99))]) in
  (owner <$> Prisma.findUnique (Prisma.attendanceRecord (prisma w)) "A2") = Some "E2"
  /\ Rbac.canAccessEmployee "Employee" "E2" (Some "E1") = false
  /\ result.1 = Returned (Stringified (JRow written))
  /\ Prisma.findUnique (Prisma.attendanceRecord (prisma result.2)) "A2" = Some written
  /\ (Prisma.entityId <$> Prisma.auditLog (prisma result.2)) = ["A2"].
Proof. repeat split; reflexivity. Qed.

(** The three tools C2 names do refuse such a caller, through the role
    check alone: no role that fails the ownership predicate may update
    employees or contracts. *)
Lemma named_update_tools_refuse P tool input w ctx target :
  tool ∈ [hrTools.archiveEmployee; hrTools.reactivateEmployee;
          hrTools.terminateContract; hrTools.updateEmployee] ->
  currentContext w = Some ctx ->
  Rbac.canAccessEmployee (role ctx) target (userId ctx) = false ->
  exists message,
    hrTools.execute P tool input w = (Thrown message, w) /\ denial message = true.
Proof.
  intros Ht Hc Ha.
  assert (Hperm : forall e, e = Rbac.employee \/ e = Rbac.contract ->
                     Rbac.checkPermission (role ctx) Rbac.update e = false).
  { intros e He. revert Ha.
    unfold Rbac.canAccessEmployee, Rbac.checkPermission, Rbac.permissions.
    destruct (decide (role ctx = "HR_Admin")) as [->|?]; [done|].
    destruct (decide (role ctx = "HR_Manager")) as [->|?]; [done|].
    destruct (decide (role ctx = "Employee")) as [->|?];
      [by destruct He as [-> | ->]|].
    destruct (decide (role ctx = "Finance")) as [->|?]; done. }
  repeat (apply elem_of_cons in Ht as [->|Ht]);
    [..|by apply elem_of_nil in Ht];
    eexists; (split; [eapply ToolFacts.role_check_aborts; [done|reflexivity|]|]);
    try apply Hperm; auto; apply ToolFacts.unauthorized_names.
Qed.

(** C3 at its failing input: an Employee asks for the contracts, letters,
    attendance, payroll and benefits of another employee and is handed
    them; no row passes the ownership predicate for this caller. *)
Theorem C3_reads_return_foreign_rows :
  let w := Scenario.world Scenario.employee_E1 in
  let returned tool input := rows_of (hrTools.execute Scenario.platform tool input w).1 in
  returned hrTools.getContract Scenario.about_E2
  = Prisma.contract Scenario.db
  /\ returned hrTools.getLetters Scenario.about_E2
     = Prisma.administrativeLetter Scenario.db
  /\ (returned hrTools.getAttendance Scenario.E2_in_january).*1 = ["A2"]
  /\ returned hrTools.getPayroll Scenario.about_E2 = Prisma.payroll Scenario.db
  /\ returned hrTools.getBenefits Scenario.about_E2 = Prisma.benefit Scenario.db
  /\ Forall (fun r => Rbac.canAccessEmployee "Employee" (owner r) (Some "E1") = false)
       (returned hrTools.getContract Scenario.about_E2
        ++ returned hrTools.getLetters Scenario.about_E2
        ++ returned hrTools.getAttendance Scenario.E2_in_january
        ++ returned hrTools.getPayroll Scenario.about_E2
        ++ returned hrTools.getBenefits Scenario.about_E2).
Proof.
  repeat split; try reflexivity.
  vm_compute. repeat constructor.
Qed.

(** The sibling path: the search mode of [getEmployee] does filter, so every
    row it returns passes the ownership predicate for the caller. *)
Lemma getEmployee_search_filters P input w ctx r :
  currentContext w = Some ctx ->
  Js.truthy (input !! "employeeId") = false ->
  r ∈ rows_of (hrTools.execute P hrTools.getEmployee input w).1 ->
  Rbac.canAccessEmployee (role ctx) r.1 (userId ctx) = true.
Proof.
  intros Hc Ht. simpl. unfold getEmployee.
  destruct (Rbac.checkPermission (role ctx) Rbac.read Rbac.employee) eqn:Hp.
  - rewrite (ToolFacts.gate_passed _ _ _ _ _ Hc Hp).
    rewrite ToolFacts.with_default_lookup_ne by done. rewrite Ht.
    destruct (limit_or _ 10) as [n|]; [|by intros ?%elem_of_nil].
    unfold mbind, Async_bind, db_read, mret, Async_ret. simpl.
    intros Hin%list_elem_of_In%filter_In. apply Hin.
  - rewrite (ToolFacts.gate_denied _ _ _ _ _ Hc Hp). by intros ?%elem_of_nil.
Qed.

(** C10.  A caller whose role may create attendance gets the row written
    by [recordAttendance] and by [requestLeave] for whatever [employeeId]
    the input carries: the ownership predicate plays no part, so a
    mismatch between caller and target never makes these tools fail. *)
Theorem C10_attendance_creation_skips_ownership P input w ctx :
  currentContext w = Some ctx ->
  Rbac.checkPermission (role ctx) Rbac.create Rbac.attendance = true ->
  (exists row w',
      hrTools.execute P hrTools.recordAttendance input w
      = (Returned (Stringified (JRow row)), w')
      /\ Prisma.attendanceRecord (prisma w')
         = Prisma.attendanceRecord (prisma w) ++ [row]
      /\ row.2 !! "employeeId" = input !! "employeeId")
  /\ (exists row w',
        hrTools.execute P hrTools.requestLeave input w
        = (Returned (Stringified (JRow row)), w')
        /\ Prisma.attendanceRecord (prisma w')
           = Prisma.attendanceRecord (prisma w) ++ [row]
        /\ row.2 !! "employeeId" = input !! "employeeId").
Proof.
  intros Hc Hp. split; simpl.
  - unfold recordAttendance. rewrite (ToolFacts.gate_passed _ _ _ _ _ Hc Hp).
    rewrite !ToolFacts.with_default_lookup_ne by done.
    epose proof (ToolFacts.create_and_log P Prisma.AttendanceRecord _ _ _ _ _
                   (fun r => Stringified (JRow r)) w) as (w' & Hrun & Ht & _).
    eexists _, w'. split; [exact Hrun|]. split; [exact Ht|].
    apply ToolFacts.obj_lookup_head. apply (bool_decide_unpack _). by compute.
  - unfold requestLeave. rewrite (ToolFacts.gate_passed _ _ _ _ _ Hc Hp).
    epose proof (ToolFacts.create_and_log P Prisma.AttendanceRecord _ _ _ _ _
                   (fun r => Stringified (JRow r)) w) as (w' & Hrun & Ht & _).
    eexists _, w'. split; [exact Hrun|]. split; [exact Ht|].
    apply ToolFacts.obj_lookup_head. apply (bool_decide_unpack _). by compute.
Qed.

Lemma C10_attendance_creation_skips_ownership_witness :
  Rbac.canAccessEmployee "Employee" "E2" (Some "E1") = false
  /\ exists row w',
       hrTools.execute Scenario.platform hrTools.requestLeave Scenario.attend_for_E2
         (Scenario.world Scenario.employee_E1)
       = (Returned (Stringified (JRow row)), w')
       /\ Prisma.attendanceRecord (prisma w')
          = Prisma.attendanceRecord Scenario.db ++ [row]
       /\ row.2 !! "employeeId" = Some (VStr "E2").
Proof.
  split; [reflexivity|].
  apply (proj2 (C10_attendance_creation_skips_ownership Scenario.platform
                  Scenario.attend_for_E2 (Scenario.world Scenario.employee_E1)
                  Scenario.employee_E1 eq_refl eq_refl)).
Defined.

(** Numeric deduction amounts are summed as they stand. *)
Lemma totalDeductions_numbers P (xs : list float) :
  Forall (fun x => Js.falsy_num x = false) xs ->
  totalDeductions P (JNumber <$> xs) = fold_left PrimFloat.add xs 0%float.
Proof.
  unfold totalDeductions. generalize 0%float.
  induction xs as [|x xs IH]; intros acc Hx; [done|].
  apply Forall_cons in Hx as [Hx Hxs]. simpl. unfold or_zero at 2. rewrite Hx.
  by apply IH.
Qed.











End ToolClaims.

(** ** Finalize: normalization and de-duplication *)

Module ChatFacts.
Import ChatRoute Notions.

(** The loop, read from the first message on: what [seen] and [deduped]
    hold when it ends. *)
Lemma dedupe_loop (ms : list Normalized) :
  fold_left dedupe_step (rev ms) (∅, []) = (list_to_set (id <$> ms), keep_last ms).
Proof.
  induction ms as [|m rest IH]; [done|].
  simpl. rewrite fold_left_app, IH. simpl. unfold dedupe_step. simpl.
  destruct (decide (id m ∈ id <$> rest)) as [Hin|Hout].
  - rewrite decide_True by (by apply elem_of_list_to_set).
    f_equal. apply set_eq. intros x.
    rewrite elem_of_union, elem_of_singleton, !elem_of_list_to_set.
    split; [by right|]. by intros [->|?].
  - by rewrite decide_False by (by rewrite elem_of_list_to_set).
Qed.

Lemma dedupe_keep_last ms : dedupe ms = keep_last ms.
Proof. unfold dedupe. by rewrite dedupe_loop. Qed.

Lemma keep_last_ids ms i : i ∈ id <$> keep_last ms <-> i ∈ id <$> ms.
Proof.
  induction ms as [|m rest IH]; [done|]. simpl.
  destruct (decide (id m ∈ id <$> rest)) as [Hin|Hout]; simpl.
  - rewrite IH, elem_of_cons. split; [by right|]. by intros [->|?].
  - by rewrite !elem_of_cons, IH.
Qed.

Lemma keep_last_NoDup ms : NoDup (id <$> keep_last ms).
Proof.
  induction ms as [|m rest IH]; simpl; [constructor|].
  destruct (decide (id m ∈ id <$> rest)) as [Hin|Hout]; [done|].
  simpl. constructor; [by rewrite keep_last_ids | done].
Qed.

Lemma keep_last_sublist ms : keep_last ms `sublist_of` ms.
Proof.
  induction ms as [|m rest IH]; simpl; [constructor|].
  destruct (decide (id m ∈ id <$> rest)); by constructor.
Qed.

(** A message is kept exactly when no later message carries its id. *)
Lemma keep_last_elem ms m :
  m ∈ keep_last ms <-> exists pre post, ms = pre ++ m :: post /\ id m ∉ id <$> post.
Proof.
  induction ms as [|m0 rest IH]; simpl.
  - split; [by intros ?%elem_of_nil|]. intros (pre & post & H & _).
    by destruct pre.
  - destruct (decide (id m0 ∈ id <$> rest)) as [Hin|Hout].
    + rewrite IH. split.
      * intros (pre & post & -> & Hn). by exists (m0 :: pre), post.
      * intros (pre & post & Heq & Hn). destruct pre as [|p pre]; simplify_eq/=.
        -- done.
        -- by exists pre, post.
    + rewrite elem_of_cons, IH. split.
      * intros [->|(pre & post & -> & Hn)].
        -- by exists [], rest.
        -- by exists (m0 :: pre), post.
      * intros (pre & post & Heq & Hn). destruct pre as [|p pre]; simplify_eq/=.
        -- by left.
        -- right. by exists pre, post.
Qed.

(** Messages whose ids all come again later leave no trace. *)
Lemma keep_last_absorb (l1 l2 : list Normalized) :
  (forall m, m ∈ l1 -> id m ∈ id <$> l2) -> keep_last (l1 ++ l2) = keep_last l2.
Proof.
  induction l1 as [|m l1 IH]; intros H; [done|]. simpl.
  rewrite decide_True.
  - apply IH. intros m' Hm'. apply H. by right.
  - rewrite fmap_app, elem_of_app. right. apply H. by left.
Qed.

Lemma keep_last_fixed ms : NoDup (id <$> ms) -> keep_last ms = ms.
Proof.
  induction ms as [|m rest IH]; [done|]. simpl. intros [Hn Hnd]%NoDup_cons.
  rewrite decide_False by done. by rewrite IH.
Qed.

(** What the messages before a suffix contribute. *)
Lemma keep_last_app (l r : list Normalized) :
  keep_last (l ++ r) = filter (fresh_in r) (keep_last l) ++ keep_last r.
Proof.
  induction l as [|m l IH]; [done|]. simpl.
  rewrite fmap_app. destruct (decide (id m ∈ id <$> l)) as [Hin|Hout].
  - rewrite decide_True by (apply elem_of_app; by left). done.
  - destruct (decide (id m ∈ id <$> r)) as [Hr|Hr].
    + rewrite decide_True by (apply elem_of_app; by right).
      rewrite filter_cons_False by (unfold fresh_in; tauto). done.
    + rewrite decide_False by (rewrite elem_of_app; tauto).
      rewrite filter_cons_True by done. simpl. by rewrite IH.
Qed.

Lemma overwrite_ids (acc : list Normalized) (m : Normalized) :
  id m ∈ id <$> acc ->
  id <$> ((fun x => if decide (id x = id m) then m else x) <$> acc) = id <$> acc.
Proof.
  intros _. induction acc as [|a acc IH]; [done|].
  rewrite !fmap_cons, IH. f_equal. by destruct (decide (id a = id m)).
Qed.

Lemma overwrite_NoDup (acc : list Normalized) (m : Normalized) :
  NoDup (id <$> acc) -> NoDup (id <$> overwrite_in_place acc m).
Proof.
  intros Hnd. unfold overwrite_in_place.
  destruct (decide (id m ∈ id <$> acc)) as [Hin|Hout].
  - by rewrite overwrite_ids.
  - rewrite fmap_app. apply NoDup_app. split; [done|]. split.
    + intros x Hx [->|[]%elem_of_nil]%elem_of_cons. done.
    + apply NoDup_singleton.
Qed.

Lemma fresh_in_cons (m a : Normalized) rest :
  fresh_in (m :: rest) a <-> id a ≠ id m /\ fresh_in rest a.
Proof. unfold fresh_in. by rewrite fmap_cons, not_elem_of_cons. Qed.

(** Replaced in place, then filtered by the ids still to come. *)
Lemma overwrite_filter_later (acc : list Normalized) (m : Normalized) rest :
  id m ∈ id <$> rest ->
  filter (fresh_in rest) ((fun x => if decide (id x = id m) then m else x) <$> acc)
  = filter (fresh_in (m :: rest)) acc.
Proof.
  intros Hr. induction acc as [|a acc IH]; [done|].
  rewrite fmap_cons. destruct (decide (id a = id m)) as [E|E].
  - rewrite filter_cons_False by (unfold fresh_in; tauto).
    rewrite (filter_cons_False _ a) by (rewrite fresh_in_cons; tauto).
    done.
  - destruct (decide (fresh_in rest a)) as [F|F].
    + rewrite !filter_cons_True; [by rewrite IH| |done].
      by rewrite fresh_in_cons.
    + rewrite !filter_cons_False; [done| |done].
      rewrite fresh_in_cons. tauto.
Qed.

Lemma overwrite_filter_absent (acc : list Normalized) (m : Normalized) rest :
  id m ∉ id <$> acc ->
  filter (fresh_in rest) ((fun x => if decide (id x = id m) then m else x) <$> acc)
  = filter (fresh_in (m :: rest)) acc.
Proof.
  induction acc as [|b acc IH]; [done|]. rewrite !fmap_cons.
  intros [Hb Ha]%not_elem_of_cons.
  rewrite decide_False by done.
  destruct (decide (fresh_in rest b)) as [F|F].
  + rewrite !filter_cons_True; [by rewrite IH| |done].
    by rewrite fresh_in_cons.
  + rewrite !filter_cons_False; [by apply IH| |done].
    rewrite fresh_in_cons. tauto.
Qed.

Lemma overwrite_filter_last (acc : list Normalized) (m : Normalized) rest :
  NoDup (id <$> acc) -> id m ∈ id <$> acc -> id m ∉ id <$> rest ->
  filter (fresh_in rest) ((fun x => if decide (id x = id m) then m else x) <$> acc)
  ≡ₚ m :: filter (fresh_in (m :: rest)) acc.
Proof.
  intros Hnd Hin Hr. induction acc as [|a acc IH]; [by apply elem_of_nil in Hin|].
  rewrite !fmap_cons in *. apply NoDup_cons in Hnd as [Ha Hnd].
  destruct (decide (id a = id m)) as [E|E].
  - rewrite filter_cons_True by done.
    rewrite (filter_cons_False _ a) by (rewrite fresh_in_cons; tauto).
    constructor. rewrite E in Ha. by rewrite overwrite_filter_absent.
  - apply elem_of_cons in Hin as [Hin|Hin]; [done|].
    destruct (decide (fresh_in rest a)) as [F|F].
    + rewrite !filter_cons_True; [| |done].
      * rewrite (IH Hnd Hin). apply Permutation_swap.
      * by rewrite fresh_in_cons.
    + rewrite !filter_cons_False; [by apply IH| |done].
      rewrite fresh_in_cons. tauto.
Qed.

(** Overwriting in place, message by message, from a store without
    duplicate ids: the same messages as the last occurrences. *)
Lemma reconcile_from (acc ms : list Normalized) :
  NoDup (id <$> acc) ->
  fold_left overwrite_in_place ms acc ≡ₚ keep_last (acc ++ ms).
Proof.
  revert acc. induction ms as [|m rest IH]; intros acc Hnd.
  - simpl. by rewrite app_nil_r, keep_last_fixed.
  - simpl. rewrite (IH _ (overwrite_NoDup _ m Hnd)).
    destruct (decide (id m ∈ id <$> acc)) as [Hin|Hout].
    + rewrite !keep_last_app, (keep_last_fixed acc Hnd),
        (keep_last_fixed _ (overwrite_NoDup _ m Hnd)).
      unfold overwrite_in_place. rewrite decide_True by done.
      simpl. destruct (decide (id m ∈ id <$> rest)) as [Hr|Hr].
      * by rewrite overwrite_filter_later.
      * rewrite (overwrite_filter_last _ _ _ Hnd Hin Hr).
        apply Permutation_middle.
    + unfold overwrite_in_place. rewrite decide_False by done.
      by rewrite <- app_assoc.
Qed.

Lemma reconcile_same_content (ms : list Normalized) :
  reconcile_in_place ms ≡ₚ keep_last ms.
Proof.
  unfold reconcile_in_place. rewrite reconcile_from; [done|constructor].
Qed.

(** Messages that all carry an id are normalized without the generator. *)
Lemma normalize_named randomUUID drawn (messages : list UIMessage) :
  Forall (fun m => exists i, id m = Some i /\ i ≠ "") messages ->
  normalize randomUUID drawn messages
  = ((fun m => with_id m (default "" (id m))) <$> messages, drawn).
Proof.
  induction 1 as [|m rest (i & Hi & Hne) _ IH]; [done|].
  simpl. rewrite Hi, IH. simpl. by rewrite bool_decide_eq_false_2.
Qed.

(** A finalize retried with the same named messages stores what the first
    one stored. *)
Lemma onFinish_twice_named randomUUID drawn (messages : list UIMessage) :
  Forall (fun m => exists i, id m = Some i /\ i ≠ "") messages ->
  onFinish randomUUID drawn (messages ++ messages) = onFinish randomUUID drawn messages.
Proof.
  intros H. unfold onFinish.
  rewrite !normalize_named by (try apply Forall_app; done).
  rewrite fmap_app, !dedupe_keep_last. f_equal.
  apply keep_last_absorb. intros m Hm. by apply list_elem_of_fmap_2.
Qed.

(** [normalize] message by message. *)
Lemma normalize_assigned randomUUID drawn messages :
  Forall2 (assigned randomUUID drawn) messages (normalize randomUUID drawn messages).1
  /\ drawn <= (normalize randomUUID drawn messages).2.
Proof.
  revert drawn. induction messages as [|m rest IH]; intros drawn; simpl.
  - split; [constructor | lia].
  - assert (Hweak : forall d out, drawn <= d ->
              Forall2 (assigned randomUUID d) rest out ->
              Forall2 (assigned randomUUID drawn) rest out).
    { intros d out Hd Hall. eapply Forall2_impl; [exact Hall|].
      intros m0 m' (Hr & Hp & Hi).
      split; [done|]. split; [done|]. revert Hi.
      destruct (id m0) as [i|]; [destruct (bool_decide (i = ""))|].
      - intros (k & Hk & ?). exists k. split; [lia|done].
      - done.
      - intros (k & Hk & ?). exists k. split; [lia|done]. }
    destruct (id m) as [i|] eqn:Hid; [destruct (bool_decide (i = "")) eqn:Hi|].
    + destruct (IH (S drawn)) as [Hf Hle].
      destruct (normalize randomUUID (S drawn) rest) as [out d]. simpl in *.
      split; [|lia]. constructor; [|by apply (Hweak (S drawn)); [lia|]].
      unfold assigned. rewrite Hid, Hi. simpl. repeat split. by exists drawn.
    + destruct (IH drawn) as [Hf Hle].
      destruct (normalize randomUUID drawn rest) as [out d]. simpl in *.
      split; [|done]. constructor; [|done].
      unfold assigned. rewrite Hid, Hi. done.
    + destruct (IH (S drawn)) as [Hf Hle].
      destruct (normalize randomUUID (S drawn) rest) as [out d]. simpl in *.
      split; [|lia]. constructor; [|by apply (Hweak (S drawn)); [lia|]].
      unfold assigned. rewrite Hid. simpl. repeat split. by exists drawn.
Qed.

Lemma assigned_nonempty randomUUID drawn m0 m :
  (forall k, randomUUID k ≠ "") -> assigned randomUUID drawn m0 m -> id m ≠ "".
Proof.
  intros Hu (_ & _ & Hi). revert Hi.
  destruct (id m0) as [i|]; [destruct (bool_decide (i = "")) eqn:E|].
  - intros (k & _ & ->). apply Hu.
  - intros ->. by apply bool_decide_eq_false in E.
  - intros (k & _ & ->). apply Hu.
Qed.

(** [normalize], one message at a time: a message that lacks an id takes
    the next value of the generator, any other keeps its id and leaves
    the generator where it is. *)
Lemma normalize_cons g d (m : UIMessage) rest :
  normalize g d (m :: rest)
  = (with_id m (if ChatResume.lacks_id m then g d else default "" (id m))
       :: (normalize g (if ChatResume.lacks_id m then S d else d) rest).1,
     (normalize g (if ChatResume.lacks_id m then S d else d) rest).2).
Proof.
  unfold ChatResume.lacks_id. simpl.
  destruct (id m) as [i|]; [destruct (bool_decide (i = ""))|]; simpl;
    by destruct (normalize g _ rest).
Qed.

Lemma unnamed_in_cons (m : UIMessage) rest :
  ChatResume.unnamed_in (m :: rest)
  = (if ChatResume.lacks_id m then 1 else 0) + ChatResume.unnamed_in rest.
Proof. unfold ChatResume.unnamed_in. simpl. by destruct (ChatResume.lacks_id m). Qed.

Lemma normalize_fst_length g d ms : length (normalize g d ms).1 = length ms.
Proof.
  revert d. induction ms as [|m ms IH]; intros d; [done|].
  rewrite normalize_cons. simpl. by rewrite IH.
Qed.

Lemma normalize_draws g d ms : (normalize g d ms).2 = d + ChatResume.unnamed_in ms.
Proof.
  revert d. induction ms as [|m ms IH]; intros d.
  - unfold ChatResume.unnamed_in. simpl. lia.
  - rewrite normalize_cons, unnamed_in_cons. cbn [snd]. rewrite IH.
    destruct (ChatResume.lacks_id m); lia.
Qed.

(** The message at position [p]: the generator value it takes is the one
    after those taken by the unnamed messages before it. *)
Lemma normalize_at g d (ms : list UIMessage) p m0 :
  ms !! p = Some m0 ->
  (normalize g d ms).1 !! p
  = Some (with_id m0 (if ChatResume.lacks_id m0
                      then g (d + ChatResume.unnamed_in (take p ms))
                      else default "" (id m0))).
Proof.
  revert d p. induction ms as [|m ms IH]; intros d p Hp; [done|].
  rewrite normalize_cons. destruct p as [|p]; simpl in Hp.
  - injection Hp as ->. simpl. unfold ChatResume.unnamed_in. simpl.
    by rewrite Nat.add_0_r.
  - cbn [fst lookup list_lookup]. rewrite (IH _ p Hp).
    change (take (S p) (m :: ms)) with (m :: take p ms). rewrite unnamed_in_cons.
    destruct (ChatResume.lacks_id m0); [|done]. do 3 f_equal.
    destruct (ChatResume.lacks_id m); lia.
Qed.

Lemma unnamed_in_take_lt (ms : list UIMessage) p q m0 :
  p < q -> ms !! p = Some m0 -> ChatResume.lacks_id m0 = true ->
  ChatResume.unnamed_in (take p ms) < ChatResume.unnamed_in (take q ms).
Proof.
  revert p q. induction ms as [|m ms IH]; intros p q Hpq Hp Hl; [done|].
  destruct q as [|q]; [lia|]. change (take (S q) (m :: ms)) with (m :: take q ms).
  rewrite unnamed_in_cons. destruct p as [|p]; simpl in Hp.
  - injection Hp as ->. rewrite Hl. unfold ChatResume.unnamed_in at 1. simpl. lia.
  - change (take (S p) (m :: ms)) with (m :: take p ms). rewrite unnamed_in_cons.
    apply Nat.add_lt_mono_l, (IH p q); [lia|done..].
Qed.

(** Two runs name the messages alike exactly when their generators agree
    on the values the runs take. *)
Lemma normalize_agree g d g' d' (ms : list UIMessage) :
  (normalize g d ms).1 = (normalize g' d' ms).1
  <-> forall j, j < ChatResume.unnamed_in ms -> g (d + j) = g' (d' + j).
Proof.
  revert d d'. induction ms as [|m ms IH]; intros d d'.
  - split; [|done]. intros _ j Hj. unfold ChatResume.unnamed_in in Hj. simpl in Hj. lia.
  - rewrite !normalize_cons, unnamed_in_cons. cbn [fst].
    destruct (ChatResume.lacks_id m).
    + split.
      * intros [= Hid Hrest] j Hj. destruct j as [|j].
        -- by rewrite !Nat.add_0_r.
        -- rewrite !Nat.add_succ_r. apply (proj1 (IH (S d) (S d')) Hrest). lia.
      * intros H. f_equal.
        -- f_equal. specialize (H 0). rewrite !Nat.add_0_r in H. apply H. lia.
        -- apply IH. intros j Hj. specialize (H (S j)).
           rewrite !Nat.add_succ_r in H. apply H. lia.
    + split.
      * intros [= Hrest]. by apply IH.
      * intros H. f_equal. by apply IH.
Qed.

End ChatFacts.

Module ChatClaims.
Import ChatRoute Notions.

(** C5.  De-duplicating a message sequence followed by itself gives what
    de-duplicating it once gives, in length and in content; running the
    de-duplication on its own result changes nothing; and [onFinish] on
    messages that all carry an id, sent twice over, hands [saveChat] what
    it hands it for the messages sent once. *)
Theorem C5_finalize_idempotent (ms : list Normalized) :
  dedupe (ms ++ ms) = dedupe ms
  /\ length (dedupe (ms ++ ms)) = length (dedupe ms)
  /\ dedupe (dedupe ms) = dedupe ms
  /\ forall randomUUID drawn (messages : list UIMessage),
       Forall (fun m => exists i, id m = Some i /\ i ≠ "") messages ->
       onFinish randomUUID drawn (messages ++ messages)
       = onFinish randomUUID drawn messages.
Proof.
  assert (H : dedupe (ms ++ ms) = dedupe ms).
  { rewrite !ChatFacts.dedupe_keep_last. apply ChatFacts.keep_last_absorb.
    intros m Hm. by apply list_elem_of_fmap_2. }
  split; [done|]. split; [by rewrite H|]. split.
  - rewrite !ChatFacts.dedupe_keep_last.
    apply ChatFacts.keep_last_fixed, ChatFacts.keep_last_NoDup.
  - apply ChatFacts.onFinish_twice_named.
Qed.

Lemma C5_finalize_idempotent_witness :
  dedupe ([Scenario.draft; Scenario.other] ++ [Scenario.draft; Scenario.other])
  = [Scenario.draft; Scenario.other]
  /\ onFinish Scenario.uuids_first_run 0 ([Scenario.named] ++ [Scenario.named])
     = ([with_id Scenario.named "m1"], 0).
Proof.
  split.
  - rewrite (proj1 (C5_finalize_idempotent [Scenario.draft; Scenario.other])).
    reflexivity.
  - rewrite (proj2 (proj2 (proj2 (C5_finalize_idempotent [])))
               Scenario.uuids_first_run 0 [Scenario.named]).
    + reflexivity.
    + constructor; [|constructor]. exists "m1". split; [reflexivity|discriminate].
Defined.

(** C6, as stated, fails: a re-sent message does not take the place of the
    earlier entry.  With a draft, another message, and the draft re-sent,
    overwriting in place keeps the re-sent message first; [dedupe] drops
    the first entry and leaves the re-sent message last. *)
Lemma C6_resent_message_moves_to_last_position :
  let arrived := [Scenario.draft; Scenario.other; Scenario.resent] in
  reconcile_in_place arrived = [Scenario.resent; Scenario.other]
  /\ dedupe arrived = [Scenario.other; Scenario.resent]
  /\ dedupe arrived ≠ reconcile_in_place arrived.
Proof. split; [reflexivity|]. split; [reflexivity|]. by vm_compute. Qed.

(** C6, as the code has it.  [dedupe] keeps one entry per id, namely every
    message that no later message repeats (the last occurrence, standing
    where it arrived); every id that arrived is kept; the result is a
    subsequence of the input, so the kept messages are never reordered; and
    it holds the same messages as overwriting in place would, in another
    order. *)
Theorem C6_dedupe_keeps_last_in_order (ms : list Normalized) :
  NoDup (id <$> dedupe ms)
  /\ (forall m, m ∈ dedupe ms <->
                exists pre post, ms = pre ++ m :: post /\ id m ∉ id <$> post)
  /\ (forall i, i ∈ id <$> dedupe ms <-> i ∈ id <$> ms)
  /\ dedupe ms `sublist_of` ms
  /\ dedupe ms ≡ₚ reconcile_in_place ms.
Proof.
  rewrite ChatFacts.dedupe_keep_last.
  split; [apply ChatFacts.keep_last_NoDup|].
  split; [apply ChatFacts.keep_last_elem|].
  split; [apply ChatFacts.keep_last_ids|].
  split; [apply ChatFacts.keep_last_sublist|].
  symmetry. apply ChatFacts.reconcile_same_content.
Qed.

(** C7, as stated, fails: the identifier given to a message without one is
    whatever the generator yields, so two runs of finalize on the same
    input assign different identifiers. *)
Lemma C7_assigned_ids_differ_between_runs :
  (onFinish Scenario.uuids_first_run 0 [Scenario.unnamed]).1
  = [with_id Scenario.unnamed "1b4e28ba-2fa1-41d2-883f-0016d3cca427"]
  /\ (onFinish Scenario.uuids_second_run 0 [Scenario.unnamed]).1
     = [with_id Scenario.unnamed "6fa459ea-ee8a-4ca4-894e-db77e160355e"]
  /\ (onFinish Scenario.uuids_first_run 0 [Scenario.unnamed]).1
     ≠ (onFinish Scenario.uuids_second_run 0 [Scenario.unnamed]).1.
Proof. split; [reflexivity|]. split; [reflexivity|]. by vm_compute. Qed.

(** C7, as the code has it.  Normalization keeps every message in its
    place with its role and parts; a message with a non-empty id keeps
    it; and a message whose id is missing or empty takes a value freshly
    drawn from the generator: the value that comes after those taken by
    the unnamed messages before it, so that one value is drawn for each
    such message.  Provided the generator never yields the empty string,
    every message handed to [saveChat] has a non-empty id.  Provided the
    generator never yields a value twice, no two unnamed messages are
    given the same id.  And two runs on the same messages name them alike
    exactly when their generators agree on the values the runs draw. *)
Theorem C7_ids_assigned_from_generator randomUUID drawn messages :
  (forall k, randomUUID k ≠ "") ->
  let normalized := (normalize randomUUID drawn messages).1 in
  (forall p m0,
      messages !! p = Some m0 ->
      normalized !! p
      = Some (with_id m0
                (if ChatResume.lacks_id m0
                 then randomUUID (drawn + ChatResume.unnamed_in (take p messages))
                 else default "" (id m0))))
  /\ length normalized = length messages
  /\ (normalize randomUUID drawn messages).2 = drawn + ChatResume.unnamed_in messages
  /\ (forall m, m ∈ (onFinish randomUUID drawn messages).1 -> id m ≠ "")
  /\ ((forall j k, randomUUID j = randomUUID k -> j = k) ->
      forall p q m0 m1 m m',
        p ≠ q ->
        messages !! p = Some m0 -> ChatResume.lacks_id m0 = true ->
        messages !! q = Some m1 -> ChatResume.lacks_id m1 = true ->
        normalized !! p = Some m -> normalized !! q = Some m' ->
        id m ≠ id m')
  /\ (forall randomUUID' drawn',
        normalized = (normalize randomUUID' drawn' messages).1
        <-> forall j, j < ChatResume.unnamed_in messages ->
                      randomUUID (drawn + j) = randomUUID' (drawn' + j)).
Proof.
  intros Hu normalized. subst normalized.
  split; [intros p m0; apply ChatFacts.normalize_at|].
  split; [apply ChatFacts.normalize_fst_length|].
  split; [apply ChatFacts.normalize_draws|].
  split; [|split].
  - destruct (ChatFacts.normalize_assigned randomUUID drawn messages) as [Hf _].
    intros m. unfold onFinish.
    destruct (normalize randomUUID drawn messages) as [normalized d]. simpl in *.
    rewrite ChatFacts.dedupe_keep_last.
    intros Hm. apply elem_of_sublist with (l2 := normalized) in Hm;
      [|apply ChatFacts.keep_last_sublist].
    apply list_elem_of_lookup in Hm as [i Hi].
    destruct (Forall2_lookup_r _ _ _ _ _ Hf Hi) as (m0 & _ & Ha).
    by eapply ChatFacts.assigned_nonempty.
  - intros Hinj p q m0 m1 m m' Hpq Hp Hlp Hq Hlq Hm Hm'.
    rewrite (ChatFacts.normalize_at _ _ _ _ _ Hp), Hlp in Hm.
    rewrite (ChatFacts.normalize_at _ _ _ _ _ Hq), Hlq in Hm'.
    injection Hm as <-. injection Hm' as <-. simpl. intros Heq%Hinj.
    destruct (Nat.lt_total p q) as [Hlt|[?|Hlt]]; [|done|].
    + pose proof (ChatFacts.unnamed_in_take_lt messages p q m0 Hlt Hp Hlp). lia.
    + pose proof (ChatFacts.unnamed_in_take_lt messages q p m1 Hlt Hq Hlq). lia.
  - intros g' d'. apply ChatFacts.normalize_agree.
Qed.

Lemma C7_ids_assigned_from_generator_witness :
  (normalize Samples.uuids 0 Samples.three_messages).1
  = [with_id Scenario.unnamed "uuid-0"; with_id Scenario.named "m1";
     with_id Samples.blank "uuid-1"]
  /\ (normalize Samples.uuids 0 Samples.three_messages).1 !! 2
     = Some (with_id Samples.blank
               (if ChatResume.lacks_id Samples.blank
                then Samples.uuids (0 + ChatResume.unnamed_in (take 2 Samples.three_messages))
                else default "" (id Samples.blank)))
  /\ forall m, m ∈ (onFinish Samples.uuids 0 Samples.three_messages).1 -> id m ≠ "".
Proof.
  assert (H : forall k, Samples.uuids k ≠ "") by (intros k; discriminate).
  split; [reflexivity|]. split.
  - exact (proj1 (C7_ids_assigned_from_generator Samples.uuids 0 Samples.three_messages H)
             2 Samples.blank eq_refl).
  - exact (proj1 (proj2 (proj2 (proj2
             (C7_ids_assigned_from_generator Samples.uuids 0 Samples.three_messages H))))).
Defined.

(** C4 at its failing input.  Two turns share the one context slot: the
    Employee's turn binds its context, the administrator's turn binds its
    own before the Employee's tool call runs, and that call is handed the
    administrator's binding.  The update the Employee may not make goes
    through and is logged under the administrator's id; under the
    Employee's own binding the same call is refused. *)
Theorem C4_tool_call_sees_other_turns_binding :
  let w0 := {| HrTools.currentContext := None; HrTools.prisma := Scenario.db |} in
  let result := run Scenario.platform Scenario.interleaved w0 in
  bound_by 1 Scenario.interleaved = Some Scenario.employee_E1
  /\ (turn_of <$> result.1) = [1]
  /\ (context_seen <$> result.1) = [Some Scenario.admin_U9]
  /\ (exists row,
        (outcome <$> result.1) = [HrTools.Returned (HrTools.Stringified (HrTools.JRow row))]
        /\ row.1 = "E2" /\ row.2 !! "firstName" = Some (VStr "Eve"))
  /\ (Prisma.performedBy <$> Prisma.auditLog (HrTools.prisma result.2)) = [Some "U9"]
  /\ HrTools.hrTools.execute Scenario.platform HrTools.hrTools.updateEmployee
       Scenario.rename_E2 (Scenario.world Scenario.employee_E1)
     = (HrTools.Thrown "Unauthorized: Employee cannot update employee",
        Scenario.world Scenario.employee_E1).
Proof.
  split; [reflexivity|]. split; [reflexivity|]. split; [reflexivity|].
  split; [|split; reflexivity].
  eexists. split; [reflexivity|]. split; reflexivity.
Qed.




End ChatClaims.

(** * Properties beyond the claims *)

Module RbacFacts.
Import Effects.

Ltac by_role r :=
  destruct (decide (r = "HR_Admin")) as [->|?];
  [|destruct (decide (r = "HR_Manager")) as [->|?];
    [|destruct (decide (r = "Employee")) as [->|?];
      [|destruct (decide (r = "Finance")) as [->|?]]]].

Lemma permissions_unknown r : ¬ known r -> Rbac.permissions r = None.
Proof.
  intros H. unfold Rbac.permissions.
  repeat (rewrite decide_False; [|intros ->; apply H; unfold known; tauto]). done.
Qed.

Lemma canAccessEmployee_true r employeeId u :
  Rbac.canAccessEmployee r employeeId u = true
  <-> privileged r \/ (r = "Employee" /\ u = Some employeeId).
Proof.
  unfold Rbac.canAccessEmployee, privileged.
  by_role r; simpl.
  1-4: try (split; [intros _; tauto | done]).
  - split.
    + intros H%bool_decide_eq_true. right. by split.
    + intros [[?|[?|?]]|[_ ->]]; try done. by apply bool_decide_eq_true.
  - rewrite !bool_decide_eq_false_2 by done. simpl. split; [done|].
    intros [[?|[?|?]]|[? _]]; done.
Qed.

(** Only HR_Admin may create employee records. *)
Lemma create_employee_admin_only r :
  Rbac.checkPermission r Rbac.create Rbac.employee = true -> r = "HR_Admin".
Proof.
  unfold Rbac.checkPermission, Rbac.permissions.
  by_role r; [done| | | |done]; vm_compute; intros H; discriminate H.
Qed.

End RbacFacts.

Module RbacExtras.
Import Effects.

(** X1.  A role that is none of HR_Admin, HR_Manager, Employee and Finance
    (a misspelt or differently cased role among them) holds no permission
    on any entity and passes the ownership check for no record, not even
    its holder's own. *)
Theorem unknown_role_is_denied r :
  ¬ known r ->
  (forall a e, Rbac.checkPermission r a e = false)
  /\ (forall employeeId u, Rbac.canAccessEmployee r employeeId u = false).
Proof.
  intros H. split.
  - intros a e. unfold Rbac.checkPermission. by rewrite RbacFacts.permissions_unknown.
  - intros employeeId u. unfold Rbac.canAccessEmployee.
    rewrite !bool_decide_eq_false_2; [done|..];
      intros ->; apply H; unfold known; tauto.
Qed.

Lemma unknown_role_is_denied_witness :
  Rbac.checkPermission "hr_admin" Rbac.read Rbac.employee = false
  /\ Rbac.canAccessEmployee "hr_admin" "E1" (Some "E1") = false.
Proof.
  assert (H : ¬ known "hr_admin").
  { unfold known. intros [H|[H|[H|H]]]; discriminate H. }
  split.
  - exact (proj1 (unknown_role_is_denied "hr_admin" H) Rbac.read Rbac.employee).
  - exact (proj2 (unknown_role_is_denied "hr_admin" H) "E1" (Some "E1")).
Defined.

(** X2.  The ownership check passes exactly for HR_Admin, HR_Manager and
    Finance on every record, and for an Employee on the record whose id
    is the caller's own.  So among the callers that hold a permission,
    it stops only an Employee asking for a record of someone else, and
    the permissions such a caller can hold are the read ones and creating
    or updating attendance. *)
Theorem ownership_binds_employees_only r employeeId u :
  (Rbac.canAccessEmployee r employeeId u = true
   <-> privileged r \/ (r = "Employee" /\ u = Some employeeId))
  /\ forall a e,
       Rbac.checkPermission r a e = true ->
       Rbac.canAccessEmployee r employeeId u = false ->
       r = "Employee" /\ u ≠ Some employeeId
       /\ (a = Rbac.read \/ (e = Rbac.attendance /\ (a = Rbac.create \/ a = Rbac.update))).
Proof.
  split; [apply RbacFacts.canAccessEmployee_true|]. intros a e Hp Ha.
  assert (Hn : ¬ (privileged r \/ (r = "Employee" /\ u = Some employeeId))).
  { rewrite <- RbacFacts.canAccessEmployee_true. by rewrite Ha. }
  revert Hp. unfold Rbac.checkPermission, Rbac.permissions.
  RbacFacts.by_role r; try (exfalso; apply Hn; unfold privileged; tauto); [|done].
  intros Hp. split; [done|]. split; [intros ->; apply Hn; by right|].
  destruct a, e; vm_compute in Hp; try discriminate Hp; auto.
Qed.

(** X3.  Whatever a role may do, HR_Admin may do.  Deleting is HR_Admin's
    alone; creating is HR_Admin's, but for attendance, which an Employee
    may create too; and approval exists for attendance and payroll only. *)
Theorem admin_dominates r a e :
  Rbac.checkPermission r a e = true ->
  Rbac.checkPermission "HR_Admin" a e = true
  /\ (a = Rbac.delete -> r = "HR_Admin")
  /\ (a = Rbac.create -> r = "HR_Admin" \/ (r = "Employee" /\ e = Rbac.attendance))
  /\ (a = Rbac.approve -> e = Rbac.attendance \/ e = Rbac.payroll).
Proof.
  unfold Rbac.checkPermission at 1. unfold Rbac.permissions.
  RbacFacts.by_role r; [| | | |done]; destruct a, e; vm_compute; intros H;
    try discriminate H; repeat split; intros; try done; try discriminate; auto.
Qed.

Lemma admin_dominates_witness :
  Rbac.checkPermission "Finance" Rbac.approve Rbac.payroll = true
  /\ Rbac.checkPermission "HR_Admin" Rbac.approve Rbac.payroll = true.
Proof.
  split; [reflexivity|].
  exact (proj1 (admin_dominates "Finance" Rbac.approve Rbac.payroll eq_refl)).
Defined.

End RbacExtras.

Module EffectFacts.
Import HrTools Notions Effects.

Section Rules.
Context {A B : Type}.
Implicit Types (c : Async A) (f : A -> Async B).

Lemma bind_reads c f :
  reads_only c -> (forall a, reads_only (f a)) -> reads_only (c ≫= f).
Proof.
  intros Hc Hf w. unfold mbind, Async_bind. specialize (Hc w).
  destruct (c w) as [[a|e] w1]; simpl in *; subst; [apply Hf | done].
Qed.

Lemma reads_fail_cleanly c : reads_only c -> fails_cleanly c.
Proof. intros H w m w' E. specialize (H w). by rewrite E in H. Qed.

Lemma never_throws_fails_cleanly c : never_throws c -> fails_cleanly c.
Proof. intros H w m w' E. destruct (H w) as (a & w1 & E1). congruence. Qed.

Lemma bind_never_throws c f :
  never_throws c -> (forall a, never_throws (f a)) -> never_throws (c ≫= f).
Proof.
  intros Hc Hf w. unfold mbind, Async_bind.
  destruct (Hc w) as (a & w1 & ->). apply Hf.
Qed.

Lemma bind_fails_after_read c f :
  reads_only c -> (forall a, fails_cleanly (f a)) -> fails_cleanly (c ≫= f).
Proof.
  intros Hc Hf w m w'. unfold mbind, Async_bind. specialize (Hc w).
  destruct (c w) as [[a|e] w1]; simpl in *; subst.
  - apply Hf.
  - by intros [= <- <-].
Qed.

Lemma bind_fails_before_writes c f :
  fails_cleanly c -> (forall a, never_throws (f a)) -> fails_cleanly (c ≫= f).
Proof.
  intros Hc Hf w m w'. unfold mbind, Async_bind.
  destruct (c w) as [[a|e] w1] eqn:E.
  - destruct (Hf a w1) as (b & w2 & ->). done.
  - intros [= <- <-]. by eapply Hc.
Qed.

Lemma bind_keeps_context c f :
  keeps_context c -> (forall a, keeps_context (f a)) -> keeps_context (c ≫= f).
Proof.
  intros Hc Hf w. unfold mbind, Async_bind. specialize (Hc w).
  destruct (c w) as [[a|e] w1]; simpl in *; [|done].
  by rewrite Hf.
Qed.

Lemma bind_keeps_tables c f :
  keeps_tables c -> (forall a, keeps_tables (f a)) -> keeps_tables (c ≫= f).
Proof.
  intros Hc Hf w. unfold mbind, Async_bind. specialize (Hc w).
  destruct (c w) as [[a|e] w1]; simpl in *; [|done].
  by rewrite Hf.
Qed.

Lemma reads_keep_context c : reads_only c -> keeps_context c.
Proof. intros H w. by rewrite H. Qed.

Lemma reads_keep_tables c : reads_only c -> keeps_tables c.
Proof. intros H w. by rewrite H. Qed.

End Rules.

Lemma mret_never_throws {A} (a : A) : never_throws (mret a : Async A).
Proof. intros w. by eexists _, _. Qed.

Lemma db_read_never_throws {A} (f : Prisma.Db -> A) : never_throws (db_read f).
Proof. intros w. by eexists _, _. Qed.

Lemma db_create_never_throws P m data : never_throws (db_create P m data).
Proof. intros w. unfold db_create. destruct (Prisma.create _ _ _ _). by eexists _, _. Qed.

Lemma logAction_never_throws P t i a u d : never_throws (logAction P t i a u d).
Proof.
  intros w. unfold logAction. destruct (auditLog_create _ _ _ _ _ _); by eexists _, _.
Qed.

Lemma db_update_fails_cleanly m i data : fails_cleanly (db_update m i data).
Proof.
  intros w msg w'. unfold db_update.
  destruct (Prisma.update _ _ _) as [[row t]|]; [done|]. by intros [= <- <-].
Qed.

Lemma db_create_keeps_context P m data : keeps_context (db_create P m data).
Proof. intros w. unfold db_create. by destruct (Prisma.create _ _ _ _). Qed.

Lemma db_update_keeps_context m i data : keeps_context (db_update m i data).
Proof. intros w. unfold db_update. by destruct (Prisma.update _ _ _) as [[row t]|]. Qed.

Lemma logAction_keeps_context P t i a u d : keeps_context (logAction P t i a u d).
Proof. intros w. unfold logAction. by destruct (auditLog_create _ _ _ _ _ _). Qed.

Lemma logAction_keeps_tables P t i a u d : keeps_tables (logAction P t i a u d).
Proof. intros w. unfold logAction. by destruct (auditLog_create _ _ _ _ _ _). Qed.

Create HintDb readers.
Create HintDb sure.
Create HintDb ctx.
Create HintDb tbl.
#[export] Hint Resolve ToolFacts.getToolContext_reads ToolFacts.requirePermission_reads
  ToolFacts.db_read_reads ToolFacts.throw_reads ToolFacts.mret_reads : readers.
#[export] Hint Resolve mret_never_throws db_read_never_throws db_create_never_throws
  logAction_never_throws : sure.
#[export] Hint Resolve db_create_keeps_context db_update_keeps_context
  logAction_keeps_context : ctx.
#[export] Hint Resolve logAction_keeps_tables : tbl.

Ltac unfold_tools :=
  unfold createEmployee, updateEmployee, getEmployee, archiveEmployee,
    reactivateEmployee, createContract, updateContract, getContract,
    terminateContract, generateLetter, getLetters, recordAttendance,
    updateAttendance, getAttendance, approveLeave, requestLeave,
    calculatePayroll, getPayroll, approvePayroll, paySalary, addBenefit,
    updateBenefit, getBenefits, getAuditLogs.

Ltac sure :=
  repeat first
    [ apply bind_never_throws; [solve [auto with sure] | intros ?]
    | solve [auto with sure]
    | match goal with
      | |- never_throws (match ?x with _ => _ end) => destruct x
      | |- never_throws (let _ := _ in _) => cbv zeta
      end ].

Ltac failing :=
  repeat first
    [ apply bind_fails_after_read; [solve [auto with readers] | intros ?]
    | apply reads_fail_cleanly; solve [auto with readers]
    | match goal with
      | |- fails_cleanly (match ?x with _ => _ end) => destruct x
      | |- fails_cleanly (let _ := _ in _) => cbv zeta
      end
    | apply never_throws_fails_cleanly; solve [sure]
    | apply bind_fails_before_writes; [apply db_update_fails_cleanly | intros ?; solve [sure]] ].

Ltac keeping :=
  repeat first
    [ apply bind_keeps_context; [ | intros ?]
    | apply reads_keep_context; solve [auto with readers]
    | solve [auto with ctx]
    | match goal with
      | |- keeps_context (match ?x with _ => _ end) => destruct x
      | |- keeps_context (let _ := _ in _) => cbv zeta
      end ].

Lemma tools_keep_context P tool input : keeps_context (hrTools.execute P tool input).
Proof. destruct tool; simpl; unfold_tools; keeping. Qed.

Ltac reading :=
  repeat first
    [ apply bind_reads; [solve [auto with readers] | intros ?]
    | solve [auto with readers]
    | match goal with
      | |- reads_only (match ?x with _ => _ end) => destruct x
      | |- reads_only (let _ := _ in _) => cbv zeta
      end ].

Ltac tabling :=
  repeat first
    [ apply bind_keeps_tables; [ | intros ?]
    | apply reads_keep_tables; solve [auto with readers]
    | solve [auto with tbl]
    | match goal with
      | |- keeps_tables (match ?x with _ => _ end) => destruct x
      | |- keeps_tables (let _ := _ in _) => cbv zeta
      end ].

Lemma read_tools_read_only P tool input :
  tool ∈ [hrTools.getContract; hrTools.getLetters; hrTools.getAttendance;
          hrTools.getPayroll; hrTools.getBenefits; hrTools.getAuditLogs] ->
  reads_only (hrTools.execute P tool input).
Proof.
  intros Ht. repeat (apply elem_of_cons in Ht as [->|Ht]);
    [..|by apply elem_of_nil in Ht]; simpl; unfold_tools; reading.
Qed.

Lemma getEmployee_keeps_tables P input : keeps_tables (getEmployee P input).
Proof. unfold getEmployee. tabling. Qed.

End EffectFacts.

Module StoreFacts.

Lemma findUnique_Some (t : Prisma.Table) i r :
  Prisma.findUnique t i = Some r -> r.1 = i /\ r ∈ t.
Proof.
  unfold Prisma.findUnique. intros [Hin Hb]%find_some.
  split; [by apply bool_decide_eq_true in Hb | by apply list_elem_of_In].
Qed.

Lemma findUnique_app (t : Prisma.Table) row i :
  Prisma.findUnique (t ++ [row]) i
  = match Prisma.findUnique t i with
    | Some r => Some r
    | None => if bool_decide (row.1 = i) then Some row else None
    end.
Proof.
  unfold Prisma.findUnique. induction t as [|r t IH]; simpl; [done|].
  by destruct (bool_decide (r.1 = i)).
Qed.

Lemma update_spec (t : Prisma.Table) i data row t' :
  Prisma.update t i data = Some (row, t') ->
  exists old,
    Prisma.findUnique t i = Some (i, old)
    /\ row = (i, data ∪ old)
    /\ t'.*1 = t.*1
    /\ Prisma.findUnique t' i = Some row
    /\ forall i', i' ≠ i -> Prisma.findUnique t' i' = Prisma.findUnique t i'.
Proof.
  unfold Prisma.update. destruct (Prisma.findUnique t i) as [[j old]|] eqn:E; [|done].
  intros [= <- <-]. exists old.
  destruct (findUnique_Some _ _ _ E) as [Hj _]. simpl in Hj. subst j.
  split; [done|]. split; [done|].
  split; [|split].
  - clear E. induction t as [|r t IH]; [done|]. simpl. f_equal; [|exact IH].
    by case_bool_decide.
  - revert E. unfold Prisma.findUnique. induction t as [|r t IH]; [done|]. simpl.
    destruct (bool_decide (r.1 = i)) eqn:Hr; simpl.
    + by rewrite bool_decide_eq_true_2.
    + rewrite Hr. apply IH.
  - intros i' Hne. clear E. unfold Prisma.findUnique.
    induction t as [|r t IH]; [done|]. simpl.
    destruct (bool_decide (r.1 = i)) eqn:Hr; simpl.
    + apply bool_decide_eq_true in Hr.
      rewrite !bool_decide_eq_false_2 by congruence. apply IH.
    + destruct (bool_decide (r.1 = i')); [done|]. apply IH.
Qed.

Lemma update_None (t : Prisma.Table) i data :
  Prisma.update t i data = None <-> Prisma.findUnique t i = None.
Proof. unfold Prisma.update. by destruct (Prisma.findUnique t i) as [[j old]|]. Qed.

Lemma obj_cons_None k props : Js.obj ((k, None) :: props) = Js.obj props.
Proof. done. Qed.

Lemma obj_of_keys (input : Obj) keys k :
  Js.obj ((fun k => (k, input !! k)) <$> keys) !! k
  = if decide (k ∈ keys) then input !! k else None.
Proof.
  induction keys as [|k0 keys IH]; [done|]. rewrite fmap_cons.
  destruct (decide (k0 = k)) as [->|Hne].
  - rewrite decide_True by (by left).
    destruct (input !! k) as [x|] eqn:E; [apply ToolFacts.obj_lookup_eq|].
    rewrite obj_cons_None, IH. by destruct (decide _).
  - rewrite ToolFacts.obj_lookup_ne by done. rewrite IH.
    destruct (decide (k ∈ keys)) as [Hin|Hout].
    + rewrite decide_True; [done|by right].
    + rewrite decide_False; [done|]. by intros [?|?]%elem_of_cons.
Qed.

Lemma patch_lookup (data old : Obj) k :
  (data ∪ old) !! k = match data !! k with Some v => Some v | None => old !! k end.
Proof. rewrite lookup_union. by destruct (data !! k), (old !! k). Qed.

End StoreFacts.

Module ToolRuns.
Import HrTools Notions Effects.

Lemma or_null_idem u : Js.or_null (Js.or_null u) = Js.or_null u.
Proof. destruct u as [s|]; [|done]. simpl. by destruct (bool_decide (s = "")) eqn:E; simpl; rewrite ?E. Qed.

(** a successful call of a writing body, step by step *)
Lemma create_then_log {B} P m data et act u d (k : string * Obj -> B) w r w' :
  (db_create P m data ≫= fun row =>
     logAction P et row.1 act u d ≫= fun _ => mret (k row)) w = (Returned r, w') ->
  exists row, r = k row /\ row = (cuid P (Prisma.generated (prisma w)), data)
    /\ Prisma.auditLog (prisma w')
       = if auditLog_create P et row.1 act (Js.or_null u) d
         then Prisma.auditLog (prisma w)
              ++ [{| Prisma.entityType := et; Prisma.entityId := row.1;
                     Prisma.action := act; Prisma.performedBy := Js.or_null u;
                     Prisma.details := d; Prisma.timestamp := Date_now P |}]
         else Prisma.auditLog (prisma w).
Proof.
  unfold mbind, Async_bind, db_create, logAction, mret, Async_ret. simpl.
  destruct (auditLog_create _ _ _ _ _ _) eqn:E; intros [= <- <-];
    (eexists; split; [done|]; split; [done|]); simpl; rewrite E; by destruct m.
Qed.

Lemma update_then_log {B} P m i data et act u d (k : string * Obj -> B) w r w' :
  (db_update m i data ≫= fun row =>
     logAction P et row.1 act u d ≫= fun _ => mret (k row)) w = (Returned r, w') ->
  exists row t', r = k row
    /\ Prisma.update (Prisma.table m (prisma w)) i data = Some (row, t')
    /\ Prisma.auditLog (prisma w')
       = if auditLog_create P et row.1 act (Js.or_null u) d
         then Prisma.auditLog (prisma w)
              ++ [{| Prisma.entityType := et; Prisma.entityId := row.1;
                     Prisma.action := act; Prisma.performedBy := Js.or_null u;
                     Prisma.details := d; Prisma.timestamp := Date_now P |}]
         else Prisma.auditLog (prisma w).
Proof.
  unfold mbind, Async_bind, db_update, logAction, mret, Async_ret.
  destruct (Prisma.update _ _ _) as [[row t']|]; [|done]. simpl.
  destruct (auditLog_create _ _ _ _ _ _) eqn:E; intros [= <- <-];
    (eexists _, _; split; [done|]; split; [done|]); simpl; rewrite E; by destruct m.
Qed.

Lemma returned_passes_gate {B} (k : ToolContext -> unit -> Async B) w ctx action entity r w' :
  currentContext w = Some ctx ->
  (getToolContext ≫= fun c => requirePermission (role c) action entity (userId c) ≫= k c) w
  = (Returned r, w') ->
  Rbac.checkPermission (role ctx) action entity = true /\ k ctx tt w = (Returned r, w').
Proof.
  intros Hc. destruct (Rbac.checkPermission (role ctx) action entity) eqn:Hp.
  - by rewrite (ToolFacts.gate_passed _ _ _ _ _ Hc Hp).
  - by rewrite (ToolFacts.gate_denied _ _ _ _ _ Hc Hp).
Qed.

Lemma table_set_table m t db : Prisma.table m (Prisma.set_table m t db) = t.
Proof. by destruct m. Qed.

(** A body that updates a row that exists and logs it. *)
Lemma run_update {B} P m i data et act u d (k : string * Obj -> B) w old :
  Prisma.findUnique (Prisma.table m (prisma w)) i = Some (i, old) ->
  exists w',
    (db_update m i data ≫= fun row =>
       logAction P et row.1 act u d ≫= fun _ => mret (k row)) w
    = (Returned (k (i, data ∪ old)), w')
    /\ Prisma.findUnique (Prisma.table m (prisma w')) i = Some (i, data ∪ old)
    /\ currentContext w' = currentContext w
    /\ length (Prisma.auditLog (prisma w'))
       = (if auditLog_create P et i act (Js.or_null u) d then 1 else 0)
         + length (Prisma.auditLog (prisma w)).
Proof.
  intros Hf. unfold mbind, Async_bind, db_update, logAction, mret, Async_ret.
  destruct (Prisma.update _ _ _) as [[row t']|] eqn:E.
  - apply StoreFacts.update_spec in E as (old' & Hf' & -> & _ & Hnew & _).
    rewrite Hf in Hf'. simplify_eq. simpl.
    destruct (auditLog_create _ _ _ _ _ _); (eexists; split; [done|]); simpl;
      (split; [by destruct m|split; [done|]]).
    + destruct m; simpl; rewrite length_app; simpl; lia.
    + by destruct m.
  - apply StoreFacts.update_None in E. congruence.
Qed.

Lemma id_input_str i : Js.str (Js.obj [("employeeId", Some (VStr i))] !! "employeeId") = i.
Proof. by rewrite ToolFacts.obj_lookup_eq. Qed.

Lemma obj_singleton_patch k v (old : Obj) : Js.obj [(k, Some v)] ∪ old = <[k := v]> old.
Proof. unfold Js.obj. simpl. by rewrite insert_empty, <- insert_union_singleton_l. Qed.

Lemma take_length n (t : Prisma.Table) : length (Prisma.take_ n t) <= Z.abs_nat n.
Proof.
  unfold Prisma.take_. destruct (0 <=? n)%Z eqn:E.
  - rewrite length_take. lia.
  - rewrite length_rev, length_take. lia.
Qed.

Lemma filter_length {A} (f : A -> bool) l : length (List.filter f l) <= length l.
Proof. induction l as [|a l IH]; simpl; [done|]. destruct (f a); simpl; lia. Qed.

Lemma take_from_either_end_sublist {A} (n : Z) (l : list A) :
  (if (0 <=? n)%Z then take (Z.to_nat n) l
   else rev (take (Z.to_nat (- n)) (rev l))) `sublist_of` l.
Proof.
  destruct (0 <=? n)%Z; [apply sublist_take|].
  rewrite firstn_rev, rev_involutive. apply sublist_drop.
Qed.

Lemma take_from_either_end_length {A} (n : Z) (l : list A) :
  length (if (0 <=? n)%Z then take (Z.to_nat n) l
          else rev (take (Z.to_nat (- n)) (rev l))) <= Z.abs_nat n.
Proof.
  destruct (0 <=? n)%Z eqn:E.
  - rewrite length_take. lia.
  - rewrite length_rev, length_take. lia.
Qed.

Lemma StronglySorted_sublist {A} (R : relation A) l k :
  StronglySorted R l -> k `sublist_of` l -> StronglySorted R k.
Proof.
  intros Hl Hk. induction Hk as [|x k l Hk IH|x k l Hk IH].
  - constructor.
  - apply StronglySorted_inv in Hl as [Hl Hx]. constructor; [by apply IH|].
    rewrite Forall_forall in *. intros y Hy. apply Hx.
    by eapply elem_of_sublist.
  - apply StronglySorted_inv in Hl as [Hl _]. by apply IH.
Qed.

#[export] Instance newest_first_total : Total Prisma.newest_first.
Proof. intros a b. unfold Prisma.newest_first. lia. Qed.

#[export] Instance newest_first_trans : Transitive Prisma.newest_first.
Proof. intros a b c. unfold Prisma.newest_first. lia. Qed.

Lemma getEmployee_by_id P input w ctx e :
  currentContext w = Some ctx ->
  Rbac.checkPermission (role ctx) Rbac.read Rbac.employee = true ->
  Js.truthy (input !! "employeeId") = true ->
  Prisma.findUnique (Prisma.employee (prisma w)) (Js.str (input !! "employeeId")) = Some e ->
  Rbac.canAccessEmployee (role ctx) e.1 (userId ctx) = true ->
  exists included,
    getEmployee P input w
    = (Returned (Stringified (JRowWith e included)),
       if auditLog_create P "Employee" e.1 "Read" (Js.or_null (userId ctx)) None
       then {| currentContext := currentContext w;
               prisma := Prisma.add_audit
                           {| Prisma.entityType := "Employee"; Prisma.entityId := e.1;
                              Prisma.action := "Read";
                              Prisma.performedBy := Js.or_null (userId ctx);
                              Prisma.details := None; Prisma.timestamp := Date_now P |}
                           (prisma w) |}
       else w).
Proof.
  intros Hc Hp Ht Hf Ha. unfold getEmployee.
  rewrite (ToolFacts.gate_passed _ _ _ _ _ Hc Hp), Ht.
  unfold mbind at 1. unfold Async_bind at 1. unfold db_read at 1.
  rewrite Hf, Ha. simpl.
  unfold mbind, Async_bind, db_read, logAction, mret, Async_ret. simpl.
  rewrite or_null_idem. destruct (auditLog_create _ _ _ _ _ _); by eexists.
Qed.

End ToolRuns.

Module ToolExtras.
Import HrTools Notions Effects EffectFacts ToolRuns.

(** X4.  Whatever the tool and for whatever reason it throws (no context
    bound, a refused permission or ownership check, a row that is not
    found, a payload that does not parse), a call that throws has changed
    nothing: no table, no audit entry, and not the bound context.  Every
    tool does its checks and reads before its first write, and the audit
    write comes last and does not throw. *)
Theorem failed_call_changes_nothing P tool input w message w' :
  hrTools.execute P tool input w = (Thrown message, w') -> w' = w.
Proof.
  revert w message w'. change (fails_cleanly (hrTools.execute P tool input)).
  destruct tool; simpl; EffectFacts.unfold_tools; EffectFacts.failing.
Qed.

Lemma failed_call_changes_nothing_witness :
  (hrTools.execute Scenario.platform hrTools.archiveEmployee Samples.about_nobody
     (Scenario.world Scenario.admin_U9)).2
  = Scenario.world Scenario.admin_U9.
Proof.
  apply (failed_call_changes_nothing Scenario.platform hrTools.archiveEmployee
           Samples.about_nobody (Scenario.world Scenario.admin_U9)
           "Record to update not found.").
  reflexivity.
Defined.

(** X5.  While no turn has bound a context, every one of the 24 tools throws
    "Tool context not set" before it reads its input, and leaves the
    world as it was. *)
Theorem unbound_context_stops_every_tool P tool input w :
  currentContext w = None ->
  hrTools.execute P tool input w = (Thrown "Tool context not set", w).
Proof.
  intros H. destruct tool; simpl; EffectFacts.unfold_tools;
    unfold mbind, Async_bind, getToolContext; by rewrite H.
Qed.

Lemma unbound_context_stops_every_tool_witness :
  hrTools.execute Scenario.platform hrTools.getAuditLogs Samples.no_filter Samples.unbound
  = (Thrown "Tool context not set", Samples.unbound).
Proof.
  exact (unbound_context_stops_every_tool Scenario.platform hrTools.getAuditLogs
           Samples.no_filter Samples.unbound eq_refl).
Defined.

(** X6.  Each of the seventeen tools that create or update a row makes,
    when it returns, one audit insert: its entity type and action are
    the tool's own, its entity id is the id of the row the tool returns,
    it is attributed to the bound caller (to nobody when the caller id is
    missing or empty), and its time is the time of the call.  When the
    store accepts the insert, the audit trail gains exactly that entry,
    appended after those already there.  When the store rejects it, the
    failure is swallowed: the tool returns its row all the same and the
    audit trail is as it was. *)
Theorem every_write_is_audited_at_most_once P tool input w ctx et act r w' :
  currentContext w = Some ctx ->
  audited tool = Some (et, act) ->
  hrTools.execute P tool input w = (Returned r, w') ->
  exists row d,
    row_of r = Some row
    /\ Prisma.auditLog (prisma w')
       = if auditLog_create P et row.1 act (Js.or_null (userId ctx)) d
         then Prisma.auditLog (prisma w)
              ++ [{| Prisma.entityType := et; Prisma.entityId := row.1;
                     Prisma.action := act;
                     Prisma.performedBy := Js.or_null (userId ctx);
                     Prisma.details := d; Prisma.timestamp := Date_now P |}]
         else Prisma.auditLog (prisma w).
Proof.
  intros Hc Ha. destruct tool; simplify_eq/=; EffectFacts.unfold_tools;
    intros [Hp H]%(returned_passes_gate _ _ _ _ _ _ _ Hc).
  all: try (apply create_then_log in H as (row & -> & _ & H); eexists row, _;
            split; [done|]; rewrite H; by rewrite or_null_idem).
  all: try (apply update_then_log in H as (row & t' & -> & _ & H); eexists row, _;
            split; [done|]; rewrite H; by rewrite or_null_idem).
  - destruct (negb _); [done|].
    apply update_then_log in H as (row & t' & -> & _ & H). eexists row, _.
    split; [done|]. rewrite H. by rewrite or_null_idem.
  - revert H. unfold mbind, Async_bind, db_create, db_read, logAction, mret, Async_ret.
    simpl. rewrite or_null_idem.
    destruct (auditLog_create _ _ _ _ _ _) eqn:E; intros [= <- <-];
      (eexists _, (Some input); split; [done|]); simpl; by rewrite E.
  - revert H. unfold mbind at 1. unfold Async_bind at 1. unfold db_read at 1.
    destruct (Prisma.findUnique _ _) as [employee|]; [|done].
    unfold mbind at 1. unfold Async_bind at 1. unfold db_read at 1. cbv zeta.
    destruct (Object_values _) as [values|]; [|done]. intros H.
    apply create_then_log in H as (row & -> & _ & H). eexists row, _.
    split; [done|]. rewrite H. by rewrite or_null_idem.
Qed.

Lemma every_write_is_audited_at_most_once_witness :
  (exists (row : string * Obj) d,
     Prisma.auditLog
       (prisma (hrTools.execute Scenario.platform hrTools.archiveEmployee Scenario.about_E2
                  (Scenario.world Scenario.admin_U9)).2)
     = Prisma.auditLog (prisma (Scenario.world Scenario.admin_U9))
       ++ [{| Prisma.entityType := "Employee"; Prisma.entityId := row.1;
              Prisma.action := "Update";
              Prisma.performedBy := Js.or_null (userId Scenario.admin_U9);
              Prisma.details := d; Prisma.timestamp := Date_now Scenario.platform |}])
  /\ (exists r,
        (hrTools.execute Samples.audit_down hrTools.archiveEmployee Scenario.about_E2
           (Scenario.world Scenario.admin_U9)).1 = Returned r)
  /\ Prisma.auditLog
       (prisma (hrTools.execute Samples.audit_down hrTools.archiveEmployee Scenario.about_E2
                  (Scenario.world Scenario.admin_U9)).2)
     = Prisma.auditLog (prisma (Scenario.world Scenario.admin_U9)).
Proof.
  pose (run := hrTools.execute Scenario.platform hrTools.archiveEmployee Scenario.about_E2
                 (Scenario.world Scenario.admin_U9)).
  assert (E : exists r, run = (Returned r, run.2))
    by (vm_compute; eexists; reflexivity).
  pose (run' := hrTools.execute Samples.audit_down hrTools.archiveEmployee Scenario.about_E2
                  (Scenario.world Scenario.admin_U9)).
  assert (E' : exists r, run' = (Returned r, run'.2))
    by (vm_compute; eexists; reflexivity).
  destruct E as [r E]. destruct E' as [r' E'].
  split; [|split].
  - destruct (every_write_is_audited_at_most_once Scenario.platform
                hrTools.archiveEmployee Scenario.about_E2
                (Scenario.world Scenario.admin_U9) Scenario.admin_U9
                "Employee" "Update" r run.2 eq_refl eq_refl E) as (row & d & _ & H).
    exists row, d. exact H.
  - exists r'. fold run'. by rewrite E'.
  - destruct (every_write_is_audited_at_most_once Samples.audit_down
                hrTools.archiveEmployee Scenario.about_E2
                (Scenario.world Scenario.admin_U9) Scenario.admin_U9
                "Employee" "Update" r' run'.2 eq_refl eq_refl E') as (row & d & _ & H).
    exact H.
Defined.

(** X7.  A successful [updateEmployee] rewrites one row and nothing else in
    the tables.  In that row each of the eleven fields the body copies
    takes the value the input gives it and keeps its old value when the
    input has none; every other field of the row (the national id and
    the gender among them) stays, whatever the input holds; the other
    employees, the order of the table and the five other tables are as
    before. *)
Theorem updateEmployee_patches_one_row P input w ctx r w' :
  currentContext w = Some ctx ->
  hrTools.execute P hrTools.updateEmployee input w = (Returned r, w') ->
  let i := Js.str (input !! "employeeId") in
  exists old new,
    Prisma.findUnique (Prisma.employee (prisma w)) i = Some (i, old)
    /\ r = Stringified (JRow (i, new))
    /\ (forall k, new !! k
                  = if decide (k ∈ employee_fields)
                    then match input !! k with Some v => Some v | None => old !! k end
                    else old !! k)
    /\ Prisma.findUnique (Prisma.employee (prisma w')) i = Some (i, new)
    /\ (forall i', i' ≠ i ->
          Prisma.findUnique (Prisma.employee (prisma w')) i'
          = Prisma.findUnique (Prisma.employee (prisma w)) i')
    /\ (Prisma.employee (prisma w')).*1 = (Prisma.employee (prisma w)).*1
    /\ Prisma.contract (prisma w') = Prisma.contract (prisma w)
    /\ Prisma.administrativeLetter (prisma w') = Prisma.administrativeLetter (prisma w)
    /\ Prisma.attendanceRecord (prisma w') = Prisma.attendanceRecord (prisma w)
    /\ Prisma.payroll (prisma w') = Prisma.payroll (prisma w)
    /\ Prisma.benefit (prisma w') = Prisma.benefit (prisma w).
Proof.
  intros Hc. simpl. unfold updateEmployee.
  intros [Hp H]%(returned_passes_gate _ _ _ _ _ _ _ Hc).
  destruct (negb _); [done|]. revert H.
  unfold mbind, Async_bind, db_update, logAction, mret, Async_ret.
  destruct (Prisma.update _ _ _) as [[row t']|] eqn:E; [|done]. simpl.
  apply StoreFacts.update_spec in E as (old & Hf & -> & Hk & Hf' & Ho).
  assert (Hfields : forall k,
             (Js.obj ((fun k => (k, input !! k)) <$> employee_fields) ∪ old) !! k
             = if decide (k ∈ employee_fields)
               then match input !! k with Some v => Some v | None => old !! k end
               else old !! k).
  { intros k. rewrite StoreFacts.patch_lookup, StoreFacts.obj_of_keys.
    destruct (decide (k ∈ employee_fields)); [|done]. by destruct (input !! k). }
  destruct (auditLog_create _ _ _ _ _ _); intros [= <- <-]; simpl;
    by exists old, (Js.obj ((fun k => (k, input !! k)) <$> employee_fields) ∪ old).
Qed.

Lemma updateEmployee_patches_one_row_witness :
  exists old new : Obj,
    Prisma.findUnique (Prisma.employee Scenario.db) "E2" = Some ("E2", old)
    /\ new !! "firstName" = Some (VStr "Eve")
    /\ new !! "nationalId" = old !! "nationalId"
    /\ Prisma.findUnique
         (Prisma.employee
            (prisma (hrTools.execute Scenario.platform hrTools.updateEmployee
                       Scenario.rename_E2 (Scenario.world Scenario.admin_U9)).2)) "E2"
       = Some ("E2", new).
Proof.
  pose (run := hrTools.execute Scenario.platform hrTools.updateEmployee Scenario.rename_E2
                 (Scenario.world Scenario.admin_U9)).
  assert (E : exists r, run = (Returned r, run.2))
    by (vm_compute; eexists; reflexivity).
  destruct E as [r E].
  destruct (updateEmployee_patches_one_row Scenario.platform Scenario.rename_E2
              (Scenario.world Scenario.admin_U9) Scenario.admin_U9 r run.2 eq_refl E)
    as (old & new & Ho & _ & Hk & Hn & _).
  exists old, new. split; [exact Ho|]. split; [exact (Hk "firstName")|].
  split; [exact (Hk "nationalId")|exact Hn].
Defined.

(** X8.  Archiving and reactivating check no status.  For a caller who may
    update employees and a record that exists, whatever its status:
    [archiveEmployee] returns the record with status Archived, a
    following [reactivateEmployee] returns it with status Active, every
    other field is as it was before the two calls, and each of the two
    calls leaves one audit entry when the store accepts its audit insert
    and none when the store rejects it: two entries when both inserts
    land.  So reactivating makes a record Active that was Terminated or
    still Onboarding before it was archived. *)
Theorem archive_then_reactivate P w ctx i old :
  currentContext w = Some ctx ->
  Rbac.checkPermission (role ctx) Rbac.update Rbac.employee = true ->
  Prisma.findUnique (Prisma.employee (prisma w)) i = Some (i, old) ->
  let input := Js.obj [("employeeId", Some (VStr i))] in
  exists w1 w2,
    hrTools.execute P hrTools.archiveEmployee input w
    = (Returned (Stringified (JRow (i, <["employmentStatus" := VStr "Archived"]> old))), w1)
    /\ hrTools.execute P hrTools.reactivateEmployee input w1
       = (Returned (Stringified (JRow (i, <["employmentStatus" := VStr "Active"]> old))), w2)
    /\ Prisma.findUnique (Prisma.employee (prisma w2)) i
       = Some (i, <["employmentStatus" := VStr "Active"]> old)
    /\ length (Prisma.auditLog (prisma w2))
       = (if auditLog_create P "Employee" i "Update" (Js.or_null (userId ctx))
               (Some (Js.obj [("action", Some (VStr "archived"))]))
          then 1 else 0)
         + (if auditLog_create P "Employee" i "Update" (Js.or_null (userId ctx))
                 (Some (Js.obj [("action", Some (VStr "reactivated"))]))
            then 1 else 0)
         + length (Prisma.auditLog (prisma w)).
Proof.
  intros Hc Hp Hf. cbv zeta.
  unfold hrTools.execute, hrTools.inputSchema, archiveEmployee, reactivateEmployee.
  rewrite (ToolFacts.gate_passed _ _ _ _ _ Hc Hp), (id_input_str i).
  destruct (run_update P Prisma.Employee i
              (Js.obj [("employmentStatus", Some (VStr "Archived"))])
              "Employee" "Update" (Js.or_null (userId ctx))
              (Some (Js.obj [("action", Some (VStr "archived"))]))
              (fun e => Stringified (JRow e)) w old Hf)
    as (w1 & Hrun1 & Hf1 & Hc1 & Hlen1).
  rewrite Hc in Hc1. rewrite obj_singleton_patch in Hrun1, Hf1.
  exists w1. rewrite Hrun1.
  rewrite (ToolFacts.gate_passed _ _ _ _ _ Hc1 Hp).
  destruct (run_update P Prisma.Employee i
              (Js.obj [("employmentStatus", Some (VStr "Active"))])
              "Employee" "Update" (Js.or_null (userId ctx))
              (Some (Js.obj [("action", Some (VStr "reactivated"))]))
              (fun e => Stringified (JRow e)) w1 _ Hf1)
    as (w2 & Hrun2 & Hf2 & Hc2 & Hlen2).
  rewrite obj_singleton_patch, insert_insert_eq in Hrun2, Hf2.
  exists w2. rewrite Hrun2. split; [done|]. split; [done|]. split; [done|].
  rewrite or_null_idem in Hlen1, Hlen2. lia.
Qed.

Lemma archive_then_reactivate_witness :
  exists w2,
    Prisma.findUnique (Prisma.employee (prisma w2)) "E2"
    = Some ("E2", <["employmentStatus" := VStr "Active"]>
                    (Js.obj [("firstName", Some (VStr "Ben"));
                             ("salary", Some (VNum 2000))]))
    /\ length (Prisma.auditLog (prisma w2))
       = 2 + length (Prisma.auditLog (prisma (Scenario.world Scenario.admin_U9))).
Proof.
  destruct (archive_then_reactivate Scenario.platform (Scenario.world Scenario.admin_U9)
              Scenario.admin_U9 "E2"
              (Js.obj [("firstName", Some (VStr "Ben")); ("salary", Some (VNum 2000))])
              eq_refl eq_refl eq_refl) as (w1 & w2 & _ & _ & Hf & Hl).
  exists w2. split; [exact Hf|exact Hl].
Defined.

(** X9.  The payroll tools check no status either.  For a caller who may
    update and approve payroll and a payroll row that exists, whatever
    its status (a draft that nobody approved among them): [paySalary]
    marks it Paid and stamps the payment date, leaving every other field;
    and [approvePayroll] on the row just paid turns its status back to
    Approved or Verified (Verified unless the input asks for Approved),
    leaving the payment date in place. *)
Theorem payroll_status_has_no_precondition P input w ctx i old :
  currentContext w = Some ctx ->
  Rbac.checkPermission (role ctx) Rbac.update Rbac.payroll = true ->
  Rbac.checkPermission (role ctx) Rbac.approve Rbac.payroll = true ->
  Js.str (input !! "payrollId") = i ->
  Prisma.findUnique (Prisma.payroll (prisma w)) i = Some (i, old) ->
  exists paid w1 reopened w2,
    hrTools.execute P hrTools.paySalary input w
    = (Returned (Stringified (JRow (i, paid))), w1)
    /\ paid !! "status" = Some (VStr "Paid")
    /\ paid !! "paymentDate" = Some (newDate P (input !! "paymentDate"))
    /\ (forall k, k ≠ "status" -> k ≠ "paymentDate" -> paid !! k = old !! k)
    /\ hrTools.execute P hrTools.approvePayroll input w1
       = (Returned (Stringified (JRow (i, reopened))), w2)
    /\ reopened !! "status"
       = Some (VStr (if bool_decide (Js.str (input !! "status") = "Approved")
                     then "Approved" else "Verified"))
    /\ (forall k, k ≠ "status" -> reopened !! k = paid !! k).
Proof.
  intros Hc Hu Ha Hi Hf.
  unfold hrTools.execute, hrTools.inputSchema, paySalary, approvePayroll.
  rewrite (ToolFacts.gate_passed _ _ _ _ _ Hc Hu), Hi.
  destruct (run_update P Prisma.Payroll i
              (Js.obj [("status", Some (VStr "Paid"));
                       ("paymentDate", Some (newDate P (input !! "paymentDate")))])
              "Payroll" "Update" (Js.or_null (userId ctx))
              (Some (Js.obj [("action", Some (VStr "paid"));
                             ("paymentDate", input !! "paymentDate")]))
              (fun e => Stringified (JRow e)) w old Hf)
    as (w1 & Hrun1 & Hf1 & Hc1 & _).
  rewrite Hc in Hc1. eexists _, w1. rewrite Hrun1.
  rewrite (ToolFacts.gate_passed _ _ _ _ _ Hc1 Ha).
  destruct (run_update P Prisma.Payroll i
              (Js.obj [("status",
                        Some (VStr (if bool_decide (Js.str (input !! "status") = "Approved")
                                    then "Approved" else "Verified")))])
              "Payroll" "Update" (Js.or_null (userId ctx))
              (Some (Js.obj [("action", Some (VStr "approved"));
                             ("status", input !! "status")]))
              (fun e => Stringified (JRow e)) w1 _ Hf1)
    as (w2 & Hrun2 & _ & _ & _).
  eexists _, w2. rewrite Hrun2.
  split; [done|]. split.
  { by rewrite StoreFacts.patch_lookup, ToolFacts.obj_lookup_eq. }
  split.
  { rewrite StoreFacts.patch_lookup, ToolFacts.obj_lookup_ne by done.
    by rewrite ToolFacts.obj_lookup_eq. }
  split.
  { intros k H1 H2. rewrite StoreFacts.patch_lookup.
    by rewrite !ToolFacts.obj_lookup_ne by done. }
  split; [done|]. split.
  { by rewrite StoreFacts.patch_lookup, ToolFacts.obj_lookup_eq. }
  intros k H1. rewrite StoreFacts.patch_lookup.
  by rewrite !ToolFacts.obj_lookup_ne by done.
Qed.

Lemma payroll_status_has_no_precondition_witness :
  exists paid reopened : Obj,
    paid !! "status" = Some (VStr "Paid")
    /\ reopened !! "status"
       = Some (VStr (if bool_decide (Js.str (Samples.pay_P2 !! "status") = "Approved")
                     then "Approved" else "Verified")).
Proof.
  destruct (payroll_status_has_no_precondition Scenario.platform Samples.pay_P2
              (Scenario.world Scenario.admin_U9) Scenario.admin_U9 "P2"
              (Js.obj [("employeeId", Some (VStr "E2")); ("netSalary", Some (VNum 2000))])
              eq_refl eq_refl eq_refl eq_refl eq_refl)
    as (paid & w1 & reopened & w2 & _ & Hp & _ & _ & _ & Hr & _).
  exists paid, reopened. split; [exact Hp|exact Hr].
Defined.

(** X10.  A successful [createEmployee] stores the record under the id the
    store generates, with status Onboarding, with the leave balance of
    the input or 0 when the input has none (or has 0), and with the
    other eleven fields as the input gives them; and, provided the
    generated id is not empty and not taken, [getEmployee] by that id,
    run next under the same binding, returns exactly that record. *)
Theorem createEmployee_then_getEmployee P input w ctx r w1 :
  currentContext w = Some ctx ->
  hrTools.execute P hrTools.createEmployee input w = (Returned r, w1) ->
  let i := cuid P (Prisma.generated (prisma w)) in
  i ≠ "" ->
  Prisma.findUnique (Prisma.employee (prisma w)) i = None ->
  exists data included w2,
    r = Stringified (JRow (i, data))
    /\ data !! "employmentStatus" = Some (VStr "Onboarding")
    /\ data !! "leaveBalance" = Some (Js.or_else (input !! "leaveBalance") (VNum 0))
    /\ (forall k, k ∈ ["firstName"; "lastName"; "nationalId"; "gender"; "phoneNumber";
                        "email"; "address"; "jobTitle"; "department"; "salary";
                        "benefits"] -> data !! k = input !! k)
    /\ hrTools.execute P hrTools.getEmployee (Js.obj [("employeeId", Some (VStr i))]) w1
       = (Returned (Stringified (JRowWith (i, data) included)), w2).
Proof.
  intros Hc. unfold hrTools.execute at 1. unfold createEmployee.
  intros [Hp H]%(returned_passes_gate _ _ _ _ _ _ _ Hc).
  cbv zeta. set (i := cuid P (Prisma.generated (prisma w))). intros Hi Hfresh.
  assert (Hrole : role ctx = "HR_Admin").
  { by apply RbacFacts.create_employee_admin_only. }
  epose proof (ToolFacts.create_and_log P Prisma.Employee _ _ _ _ _
                 (fun e => Stringified (JRow e)) w) as (w' & Hrun & Ht & Hc').
  rewrite Hrun in H. injection H as <- <-. fold i in Ht.
  set (about := hrTools.inputSchema hrTools.getEmployee
                  (Js.obj [("employeeId", Some (VStr i))])).
  assert (Hid : about !! "employeeId" = Some (VStr i)).
  { unfold about. simpl. rewrite ToolFacts.with_default_lookup_ne by done.
    apply ToolFacts.obj_lookup_eq. }
  match type of Ht with _ = _ ++ [(_, ?data)] => set (created := data) in * end.
  destruct (getEmployee_by_id P about w' ctx (i, created)) as [included Hget].
  { by rewrite Hc'. }
  { by rewrite Hrole. }
  { rewrite Hid. simpl. by rewrite bool_decide_eq_false_2. }
  { rewrite Hid. simpl.
    change (Prisma.employee (prisma w')) with (Prisma.table Prisma.Employee (prisma w')).
    rewrite Ht, StoreFacts.findUnique_app. simpl. rewrite Hfresh.
    by rewrite bool_decide_eq_true_2. }
  { by rewrite Hrole. }
  exists created, included. eexists. split; [done|]. unfold created.
  cbn [hrTools.inputSchema].
  split. { rewrite !ToolFacts.obj_lookup_ne by done. apply ToolFacts.obj_lookup_eq. }
  split.
  { rewrite !ToolFacts.obj_lookup_ne by done. rewrite ToolFacts.obj_lookup_eq.
    rewrite ToolFacts.with_default_lookup. by destruct (input !! "leaveBalance"). }
  split.
  { intros k Hk.
    repeat (apply elem_of_cons in Hk as [->|Hk];
            [rewrite ?ToolFacts.obj_lookup_ne by done;
             rewrite <- (ToolFacts.with_default_lookup_ne "leaveBalance" (VNum 0) input)
               by done;
             apply ToolFacts.obj_lookup_head, (bool_decide_unpack _); by compute|]).
    by apply elem_of_nil in Hk. }
  exact Hget.
Qed.

Lemma createEmployee_then_getEmployee_witness :
  exists (data : Obj) included w2,
    data !! "employmentStatus" = Some (VStr "Onboarding")
    /\ hrTools.execute Scenario.platform hrTools.getEmployee
         (Js.obj [("employeeId", Some (VStr "ck0"))])
         (hrTools.execute Scenario.platform hrTools.createEmployee Samples.hire_Cy
            (Scenario.world Scenario.admin_U9)).2
       = (Returned (Stringified (JRowWith ("ck0", data) included)), w2).
Proof.
  pose (run := hrTools.execute Scenario.platform hrTools.createEmployee Samples.hire_Cy
                 (Scenario.world Scenario.admin_U9)).
  assert (E : exists r, run = (Returned r, run.2))
    by (vm_compute; eexists; reflexivity).
  destruct E as [r E].
  assert (Hne : cuid Scenario.platform
                   (Prisma.generated (prisma (Scenario.world Scenario.admin_U9))) ≠ "")
    by (vm_compute; discriminate).
  destruct (createEmployee_then_getEmployee Scenario.platform Samples.hire_Cy
              (Scenario.world Scenario.admin_U9) Scenario.admin_U9 r run.2 eq_refl E
              Hne eq_refl)
    as (data & included & w2 & _ & Hs & _ & _ & Hg).
  exists data, included, w2. split; [exact Hs|exact Hg].
Defined.

End ToolExtras.

Module ReadExtras.
Import HrTools Notions Effects EffectFacts ToolRuns.

(** X11.  The two listing reads that take a limit never return more rows than
    the limit's magnitude, whoever calls and whatever the store holds;
    and a limit that is absent or 0 counts as 10. *)
Theorem limited_reads_are_bounded P tool input w n :
  tool = hrTools.getEmployee \/ tool = hrTools.getPayroll ->
  limit_or input 10 = Some n ->
  length (rows_of (hrTools.execute P tool input w).1) <= Z.abs_nat n
  /\ (input !! "limit" = None \/ input !! "limit" = Some (VNum 0) -> n = 10%Z).
Proof.
  intros Ht Hn. split.
  - rewrite <- ToolFacts.limit_or_parsed in Hn.
    destruct Ht as [-> | ->]; unfold hrTools.execute; cbn [hrTools.inputSchema];
      revert Hn; generalize (hrTools.with_default "limit" (VNum 10) input);
      clear input; intros input Hn;
      (destruct (currentContext w) as [ctx|] eqn:Hc;
       [|unfold getEmployee, getPayroll, mbind, Async_bind, getToolContext;
         rewrite Hc; simpl; lia]).
    + unfold getEmployee.
      destruct (Rbac.checkPermission (role ctx) Rbac.read Rbac.employee) eqn:Hp;
        [|rewrite (ToolFacts.gate_denied _ _ _ _ _ Hc Hp); simpl; lia].
      rewrite (ToolFacts.gate_passed _ _ _ _ _ Hc Hp).
      destruct (Js.truthy (input !! "employeeId")).
      * unfold mbind at 1. unfold Async_bind at 1. unfold db_read at 1.
        destruct (Prisma.findUnique _ _) as [e|]; [|simpl; lia].
        destruct (negb _); [simpl; lia|].
        unfold mbind, Async_bind, db_read, logAction, mret, Async_ret. simpl.
        destruct (auditLog_create _ _ _ _ _ _); simpl; lia.
      * rewrite Hn. unfold mbind, Async_bind, db_read, mret, Async_ret. simpl.
        etrans; [apply filter_length|apply take_length].
    + unfold getPayroll.
      destruct (Rbac.checkPermission (role ctx) Rbac.read Rbac.payroll) eqn:Hp;
        [|rewrite (ToolFacts.gate_denied _ _ _ _ _ Hc Hp); simpl; lia].
      rewrite (ToolFacts.gate_passed _ _ _ _ _ Hc Hp).
      destruct (Js.truthy (input !! "payrollId")).
      * unfold mbind, Async_bind, db_read, mret, Async_ret.
        destruct (Prisma.findUnique _ _); simpl; lia.
      * destruct (Js.truthy (input !! "employeeId")); [|simpl; lia].
        rewrite Hn. unfold mbind, Async_bind, db_read, mret, Async_ret. simpl.
        apply take_length.
  - revert Hn. unfold limit_or. intros Hn [H|H]; rewrite H in Hn; vm_compute in Hn; by simplify_eq.
Qed.

Lemma limited_reads_are_bounded_witness :
  length (rows_of (hrTools.execute Scenario.platform hrTools.getEmployee Samples.no_filter
                     (Scenario.world Scenario.admin_U9)).1) <= Z.abs_nat 10.
Proof.
  exact (proj1 (limited_reads_are_bounded Scenario.platform hrTools.getEmployee
                  Samples.no_filter (Scenario.world Scenario.admin_U9) 10%Z
                  (or_introl eq_refl) eq_refl)).
Defined.

(** X12.  For an HR_Admin, [getAuditLogs] changes nothing, not even the audit
    trail it reads, and answers with at most as many entries as the
    limit's magnitude, newest first.  An input without a limit gets the
    limit 50 from the tool's schema; a limit of 0 counts as 100, the
    fallback of the logger.  Every entry the tool returns is an entry of
    the trail and meets each filter the input sets: entity type, entity
    id, the user it is attributed to, and the two bounds on its time. *)
Theorem audit_query_answers P input w ctx n :
  currentContext w = Some ctx ->
  role ctx = "HR_Admin" ->
  limit_or (hrTools.inputSchema hrTools.getAuditLogs input) 100 = Some n ->
  exists logs,
    hrTools.execute P hrTools.getAuditLogs input w = (Returned (Stringified (JLogs logs)), w)
    /\ length logs <= Z.abs_nat n
    /\ (input !! "limit" = None -> n = 50%Z)
    /\ (input !! "limit" = Some (VNum 0) -> n = 100%Z)
    /\ StronglySorted Prisma.newest_first logs
    /\ forall l, l ∈ logs ->
         l ∈ Prisma.auditLog (prisma w)
         /\ (Js.truthy (input !! "entityType") = true ->
             Prisma.entityType l = Js.str (input !! "entityType"))
         /\ (Js.truthy (input !! "entityId") = true ->
             Prisma.entityId l = Js.str (input !! "entityId"))
         /\ (Js.truthy (input !! "userId") = true ->
             Prisma.performedBy l = Some (Js.str (input !! "userId")))
         /\ (Js.truthy (input !! "startDate") = true ->
             (Date_parse P (Js.str (input !! "startDate")) <= Prisma.timestamp l)%Z)
         /\ (Js.truthy (input !! "endDate") = true ->
             (Prisma.timestamp l <= Date_parse P (Js.str (input !! "endDate")))%Z).
Proof.
  intros Hc Hr Hn. unfold hrTools.execute, getAuditLogs.
  unfold mbind at 1. unfold Async_bind at 1. unfold getToolContext. rewrite Hc, Hr.
  cbn [hrTools.inputSchema] in *. simpl. rewrite Hn.
  unfold mbind, Async_bind, db_read, mret, Async_ret.
  eexists. split; [done|]. unfold logger_getAuditLogs.
  split; [apply take_from_either_end_length|].
  split.
  { intros H. revert Hn. unfold limit_or.
    rewrite ToolFacts.with_default_lookup, H. vm_compute. by intros [= <-]. }
  split.
  { intros H. revert Hn. unfold limit_or.
    rewrite ToolFacts.with_default_lookup, H. vm_compute. by intros [= <-]. }
  split.
  { eapply StronglySorted_sublist; [|apply take_from_either_end_sublist].
    apply StronglySorted_merge_sort; apply _. }
  intros l Hl.
  eapply elem_of_sublist in Hl; [|apply take_from_either_end_sublist].
  rewrite merge_sort_Permutation in Hl.
  apply list_elem_of_In, filter_In in Hl as [Hin Hw].
  rewrite !ToolFacts.with_default_lookup_ne in Hw by done.
  split; [by apply list_elem_of_In|].
  apply andb_prop in Hw as [Hw Hend]. apply andb_prop in Hw as [Hw Hstart].
  apply andb_prop in Hw as [Hw Huser]. apply andb_prop in Hw as [Htype Hid].
  repeat split; intros Ht; rewrite Ht in *.
  - by apply bool_decide_eq_true in Htype.
  - by apply bool_decide_eq_true in Hid.
  - by apply bool_decide_eq_true in Huser.
  - lia.
  - lia.
Qed.

Lemma audit_query_answers_witness :
  hrTools.execute Scenario.platform hrTools.getAuditLogs Samples.newest_employee_entry
    Samples.audited_world
  = (Returned (Stringified (JLogs
       [{| Prisma.entityType := "Employee"; Prisma.entityId := "E2";
           Prisma.action := "Update"; Prisma.performedBy := Some "U9";
           Prisma.details := None; Prisma.timestamp := 30 |}])),
     Samples.audited_world)
  /\ (exists logs,
        hrTools.execute Scenario.platform hrTools.getAuditLogs
          Samples.newest_employee_entry Samples.audited_world
        = (Returned (Stringified (JLogs logs)), Samples.audited_world)
        /\ length logs <= Z.abs_nat 1
        /\ forall l, l ∈ logs -> Prisma.entityType l = "Employee")
  /\ (exists logs,
        hrTools.execute Scenario.platform hrTools.getAuditLogs Samples.no_filter
          Samples.audited_world
        = (Returned (Stringified (JLogs logs)), Samples.audited_world)
        /\ length logs <= Z.abs_nat 50
        /\ StronglySorted Prisma.newest_first logs).
Proof.
  split; [vm_compute; reflexivity|]. split.
  - destruct (audit_query_answers Scenario.platform Samples.newest_employee_entry
                Samples.audited_world Scenario.admin_U9 1%Z eq_refl eq_refl eq_refl)
      as (logs & He & Hl & _ & _ & _ & Hf).
    exists logs. split; [exact He|]. split; [exact Hl|].
    intros l Hin. exact (proj1 (proj2 (Hf l Hin)) eq_refl).
  - destruct (audit_query_answers Scenario.platform Samples.no_filter
                Samples.audited_world Scenario.admin_U9 50%Z eq_refl eq_refl eq_refl)
      as (logs & He & Hl & _ & _ & Hs & _).
    exists logs. split; [exact He|]. split; [exact Hl|exact Hs].
Defined.

(** X13.  The seven reading tools write no table and never rebind the
    context.  Six of them leave the whole world as it was; [getEmployee]
    alone may append to the audit trail, and then it appends a single
    entry, a Read of entity type Employee for the id that was asked for. *)
Theorem reads_write_no_table P tool input w :
  audited tool = None ->
  tables (prisma (hrTools.execute P tool input w).2) = tables (prisma w)
  /\ currentContext (hrTools.execute P tool input w).2 = currentContext w
  /\ (tool ≠ hrTools.getEmployee -> (hrTools.execute P tool input w).2 = w)
  /\ (Prisma.auditLog (prisma (hrTools.execute P tool input w).2)
      = Prisma.auditLog (prisma w)
      \/ exists entry,
           Prisma.auditLog (prisma (hrTools.execute P tool input w).2)
           = Prisma.auditLog (prisma w) ++ [entry]
           /\ tool = hrTools.getEmployee
           /\ Prisma.action entry = "Read" /\ Prisma.entityType entry = "Employee"
           /\ Prisma.entityId entry = Js.str (input !! "employeeId")).
Proof.
  intros Ha. destruct tool; try discriminate Ha.
  1:{ split; [apply EffectFacts.getEmployee_keeps_tables|].
    split; [apply EffectFacts.tools_keep_context|]. split; [done|].
    unfold hrTools.execute. cbn [hrTools.inputSchema].
    rewrite <- (ToolFacts.with_default_lookup_ne "limit" (VNum 10) input "employeeId")
      by done.
    generalize (hrTools.with_default "limit" (VNum 10) input). clear input. intros input.
    destruct (currentContext w) as [ctx|] eqn:Hc.
    2:{ left. unfold getEmployee, mbind, Async_bind, getToolContext. by rewrite Hc. }
    destruct (Rbac.checkPermission (role ctx) Rbac.read Rbac.employee) eqn:Hp.
    2:{ left. unfold getEmployee. by rewrite (ToolFacts.gate_denied _ _ _ _ _ Hc Hp). }
    destruct (Js.truthy (input !! "employeeId")) eqn:Ht.
    2:{ left. unfold getEmployee.
        rewrite (ToolFacts.gate_passed _ _ _ _ _ Hc Hp), Ht.
        by destruct (limit_or input 10). }
    destruct (Prisma.findUnique (Prisma.employee (prisma w))
                (Js.str (input !! "employeeId"))) as [e|] eqn:Hf.
    2:{ left. unfold getEmployee.
        rewrite (ToolFacts.gate_passed _ _ _ _ _ Hc Hp), Ht.
        unfold mbind, Async_bind, db_read. by rewrite Hf. }
    destruct (Rbac.canAccessEmployee (role ctx) e.1 (userId ctx)) eqn:Hacc.
    - destruct (getEmployee_by_id P input w ctx e Hc Hp Ht Hf Hacc) as [inc ->].
      destruct (auditLog_create _ _ _ _ _ _); [|by left].
      right. eexists. split; [done|]. repeat split.
      simpl. by destruct (StoreFacts.findUnique_Some _ _ _ Hf).
    - rewrite (ToolFacts.getEmployee_ownership_denial P input w ctx e Hc Hp Ht Hf Hacc).
      by left. }
  all: match goal with
       | |- context [hrTools.execute ?p ?t ?i ?w0] =>
           assert (Hw : (hrTools.execute p t i w0).2 = w0)
             by (apply EffectFacts.read_tools_read_only;
                 repeat first [apply list_elem_of_here | apply list_elem_of_further])
       end; rewrite Hw; repeat split; try done; by left.
Qed.

Lemma reads_write_no_table_witness :
  tables (prisma (hrTools.execute Scenario.platform hrTools.getEmployee Scenario.about_E2
                    (Scenario.world Scenario.admin_U9)).2)
  = tables (prisma (Scenario.world Scenario.admin_U9)).
Proof.
  exact (proj1 (reads_write_no_table Scenario.platform hrTools.getEmployee
                  Scenario.about_E2 (Scenario.world Scenario.admin_U9) eq_refl)).
Defined.

End ReadExtras.

Module ScheduleFacts.
Import HrTools ChatRoute ChatResume Effects.

Lemma run_app P s1 s2 w :
  run P (s1 ++ s2) w
  = ((run P s1 w).1 ++ (run P s2 (run P s1 w).2).1, (run P s2 (run P s1 w).2).2).
Proof.
  revert w. induction s1 as [|[t c|t tool input] s1 IH]; intros w; simpl.
  - by destruct (run P s2 w).
  - apply IH.
  - destruct (hrTools.execute P tool input w) as [out w1].
    rewrite IH. by destruct (run P s1 w1) as [o1 w2].
Qed.

Lemma run_length P s w : length (run P s w).1 = calls_in s.
Proof.
  revert w. induction s as [|[t c|t tool input] s IH]; intros w; simpl; [done|apply IH|].
  destruct (hrTools.execute P tool input w) as [out w1].
  specialize (IH w1). destruct (run P s w1) as [o1 w2]. simpl in *.
  unfold calls_in in *. simpl. by rewrite IH.
Qed.

Lemma bound_after_app s1 s2 b :
  bound_after (s1 ++ s2) b = bound_after s2 (bound_after s1 b).
Proof. unfold bound_after. by rewrite fold_left_app. Qed.

Lemma run_context P s w :
  currentContext (run P s w).2 = bound_after s (currentContext w).
Proof.
  revert w. induction s as [|[t c|t tool input] s IH]; intros w; simpl; [done|apply IH|].
  pose proof (EffectFacts.tools_keep_context P tool input w) as Hk.
  destruct (hrTools.execute P tool input w) as [out w1].
  specialize (IH w1). destruct (run P s w1) as [o1 w2]. simpl in *.
  by rewrite IH, Hk.
Qed.

End ScheduleFacts.

Module ChatExtras.
Import HrTools ChatRoute ChatResume Effects.

(** X14.  Whatever the turns and however they interleave: the k-th tool call of
    a schedule is handed the context of the last [setToolContext] before
    it (of any turn, its own or another's), or none when none was bound;
    its outcome is that of the tool run on the world the prefix left; and
    after the whole schedule the slot holds the last binding.  Tool calls
    never rebind the slot. *)
Theorem call_sees_latest_binding P pre t tool input post w :
  let result := run P (pre ++ Calls t tool input :: post) w in
  (exists obs, result.1 !! calls_in pre = Some obs
     /\ turn_of obs = t
     /\ context_seen obs = bound_after pre (currentContext w)
     /\ outcome obs = (hrTools.execute P tool input (run P pre w).2).1)
  /\ currentContext result.2
     = bound_after (pre ++ Calls t tool input :: post) (currentContext w).
Proof.
  cbv zeta. split; [|apply ScheduleFacts.run_context].
  rewrite ScheduleFacts.run_app. cbn [fst].
  rewrite lookup_app_r by (by rewrite ScheduleFacts.run_length).
  rewrite ScheduleFacts.run_length, Nat.sub_diag.
  pose proof (ScheduleFacts.run_context P pre w) as Hc.
  destruct (run P pre w) as [o1 w1]. cbn [snd fst] in *. cbn [run].
  destruct (hrTools.execute P tool input w1) as [out w2].
  destruct (run P post w2) as [o2 w3]. simpl.
  eexists. split; [done|]. simpl. by rewrite Hc.
Qed.

Section Handler.
Context {ChatStore : Type}.
Context (loadChat : string -> ChatStore -> option (list UIMessage)).
Context (createChat : ChatStore -> option (string * ChatStore)).
Context (validateUIMessages : list UIMessage -> Validation).

(** X15.  [POST] answers 401 exactly when the credential resolves to no stored
    user, and then neither binds a context nor touches the conversation
    store.  In every other case, whatever becomes of the turn (a stream, a
    500, a thrown error), the context slot is left bound to the caller's
    id and stored role; the relational store is never written. *)
Theorem POST_binds_caller_or_refuses req w st :
  let result := POST loadChat createChat validateUIMessages req w st in
  prisma result.1.2 = prisma w
  /\ match caller_of req w with
     | None =>
         (exists r, result = (Returned r, w, st)
            /\ (r = JsonError 401 "Unauthorized: Missing or invalid JWT token"
                \/ r = Plain 401 "Unauthorized: User not found"))
     | Some caller =>
         currentContext result.1.2 = Some caller
         /\ result.1.1 ≠ Returned (JsonError 401 "Unauthorized: Missing or invalid JWT token")
         /\ result.1.1 ≠ Returned (Plain 401 "Unauthorized: User not found")
     end.
Proof.
  cbv zeta. unfold caller_of, POST.
  destruct (authUser req) as [a|]; [|split; [done|]; eexists; split; [done|by left]].
  destruct (Prisma.user (prisma w) !! a) as [r|]; simpl;
    [|split; [done|]; eexists; split; [done|by right]].
  destruct (resolveChat _ _ _ _) as [[[c n] st']|]; [|done].
  by destruct (validateUIMessages _).
Qed.

(** X16.  What a streamed answer tells: the X-Chat-Id header is absent exactly
    when the submitted id is non-empty and resolves in the store, and
    then the conversation keeps that id, the store is as it was, and the
    stored history comes before the new messages; the header is present
    exactly when the handler created the conversation, and then it
    carries the created id and the history is empty.  A
    TypeValidationError drops the history and keeps the new messages. *)
Theorem POST_stream_header_iff_created req w st h c v w' st' :
  POST loadChat createChat validateUIMessages req w st = (Returned (Streamed h c v), w', st') ->
  let checked all :=
    validateUIMessages all = Valid v
    \/ (validateUIMessages all = TypeValidationError /\ v = messages req) in
  (h = None /\ st' = st /\ chatId req = Some c /\ c ≠ ""
   /\ exists history, loadChat c st = Some history /\ checked (history ++ messages req))
  \/ (h = Some c /\ createChat st = Some (c, st') /\ checked (messages req)
      /\ forall c0, chatId req = Some c0 -> c0 ≠ "" -> loadChat c0 st = None).
Proof.
  unfold POST. destruct (authUser req) as [a|]; [|done].
  destruct (Prisma.user (prisma w) !! a) as [r|]; [|done].
  unfold resolveChat.
  destruct (chatId req) as [c0|] eqn:Ec; [destruct (bool_decide (c0 = "")) eqn:Ee|];
    [| destruct (loadChat c0 st) as [history|] eqn:El |].
  all: try (destruct (createChat st) as [[c1 st1]|] eqn:Ecr; [|done]).
  all: cbv zeta; simpl; try rewrite El; simpl.
  all: destruct (validateUIMessages _) eqn:Ev; try done.
  all: intros [= <- <- <- <- <-] || intros [= <- <- <- <-].
  all: try (right; split; [done|]; split; [done|]; split;
            [first [by left | by right]|]; intros c2 [= <-] Hne; try done;
            by apply bool_decide_eq_true in Ee).
  all: left; apply bool_decide_eq_false in Ee; split; [done|]; split; [done|];
    split; [done|]; split; [done|]; eexists; split; [done|];
    first [by left | by right].
Qed.

(** X17.  The resumption endpoint and [POST] read the store alike: when [GET]
    hands back the messages of a conversation, a [POST] on that id by a
    known caller validates those messages followed by the new ones, sends
    no X-Chat-Id header and leaves the store alone; when [GET] answers
    404, the same [POST] does not fail with 404 but creates a
    conversation, or answers 500 when it cannot. *)
Theorem GET_and_POST_agree req w st c caller :
  chatId req = Some c ->
  caller_of req w = Some caller ->
  match GET loadChat (Some c) st with
  | Messages history =>
      POST loadChat createChat validateUIMessages req w st
      = (match validateUIMessages (history ++ messages req) with
         | Valid validated => Returned (Streamed None c validated)
         | TypeValidationError => Returned (Streamed None c (messages req))
         | OtherError e => Thrown e
         end, (setToolContext caller w).2, st)
  | Refused status _ =>
      (status = 400 /\ c = "" \/ status = 404 /\ c ≠ "")
      /\ match createChat st with
         | Some (created, st') =>
             POST loadChat createChat validateUIMessages req w st
             = (match validateUIMessages (messages req) with
                | Valid validated => Returned (Streamed (Some created) created validated)
                | TypeValidationError =>
                    Returned (Streamed (Some created) created (messages req))
                | OtherError e => Thrown e
                end, (setToolContext caller w).2, st')
         | None =>
             POST loadChat createChat validateUIMessages req w st
             = (Returned (Plain 500 "Failed to create chat"),
                (setToolContext caller w).2, st)
         end
  end.
Proof.
  intros Hc. unfold caller_of, GET, POST, resolveChat.
  destruct (authUser req) as [a|]; [|done].
  destruct (Prisma.user (prisma w) !! a) as [r|]; [|done].
  intros [= <-]. rewrite Hc.
  destruct (bool_decide (c = "")) eqn:Ee.
  - apply bool_decide_eq_true in Ee. split; [by left|].
    destruct (createChat st) as [[c1 st1]|]; [|done]. simpl.
    by destruct (validateUIMessages _).
  - apply bool_decide_eq_false in Ee.
    destruct (loadChat c st) as [history|] eqn:El.
    + simpl. rewrite El. simpl. by destruct (validateUIMessages _).
    + split; [by right|]. destruct (createChat st) as [[c1 st1]|]; [|done]. simpl.
      by destruct (validateUIMessages _).
Qed.

End Handler.

Lemma POST_stream_header_iff_created_witness :
  exists history,
    Scenario.map_loadChat "chat-7" Samples.one_chat = Some history
    /\ Scenario.accept (history ++ [Scenario.named])
       = Valid [Scenario.unnamed; Scenario.named].
Proof.
  destruct (POST_stream_header_iff_created Scenario.map_loadChat Scenario.map_createChat
              Scenario.accept (Scenario.turn (Some "chat-7")) Samples.unbound
              Samples.one_chat None "chat-7" [Scenario.unnamed; Scenario.named]
              (Scenario.world Scenario.employee_E1) Samples.one_chat eq_refl)
    as [(_ & _ & _ & _ & history & Hl & Hv)|(Hh & _)].
  - exists history. split; [exact Hl|]. destruct Hv as [Hv|[Hv _]]; [exact Hv|].
    discriminate Hv.
  - discriminate Hh.
Defined.

Lemma GET_and_POST_agree_witness :
  POST Scenario.map_loadChat Scenario.map_createChat Scenario.accept
    (Scenario.turn (Some "chat-7")) Samples.unbound Samples.one_chat
  = (Returned (Streamed None "chat-7" [Scenario.unnamed; Scenario.named]),
     Scenario.world Scenario.employee_E1, Samples.one_chat).
Proof.
  exact (GET_and_POST_agree Scenario.map_loadChat Scenario.map_createChat Scenario.accept
           (Scenario.turn (Some "chat-7")) Samples.unbound Samples.one_chat "chat-7"
           Scenario.employee_E1 eq_refl eq_refl).
Defined.

(** X18.  [onFinish] draws one value from the generator for every message whose
    id is missing or empty, and none for the others; it never hands
    [saveChat] more messages than it was given; and messages that come
    with distinct non-empty ids are handed over as they are, in their
    order, without a draw. *)
Theorem onFinish_draws_one_id_per_unnamed g d (ms : list UIMessage) :
  (onFinish g d ms).2 = d + unnamed_in ms
  /\ length (onFinish g d ms).1 <= length ms
  /\ (Forall (fun m => exists i, id m = Some i /\ i ≠ "") ms ->
      NoDup (id <$> ms) ->
      onFinish g d ms = ((fun m => with_id m (default "" (id m))) <$> ms, d)).
Proof.
  unfold onFinish. split; [|split].
  - rewrite <- (ChatFacts.normalize_draws g d ms). by destruct (normalize g d ms).
  - rewrite <- (ChatFacts.normalize_fst_length g d ms). destruct (normalize g d ms) as [n d']. simpl.
    rewrite ChatFacts.dedupe_keep_last. apply sublist_length, ChatFacts.keep_last_sublist.
  - intros Hn Hd. rewrite ChatFacts.normalize_named by done.
    rewrite ChatFacts.dedupe_keep_last, ChatFacts.keep_last_fixed; [done|].
    rewrite <- list_fmap_compose.
    assert (E : id <$> ms = Some <$> ((id ∘ (fun m => with_id m (default "" (id m)))) <$> ms)).
    { rewrite <- list_fmap_compose. apply Forall_fmap_ext_1.
      eapply Forall_impl; [exact Hn|]. intros m (i & Hi & _). simpl. by rewrite Hi. }
    rewrite E in Hd. by apply NoDup_fmap in Hd; [|apply _].
Qed.

End ChatExtras.

Module AccountFacts.
Import Accounts.

Lemma missing_false v : missing v = false -> exists s, v = Some s /\ s ≠ "".
Proof.
  destruct v as [s|]; [|done]. simpl. intros H%bool_decide_eq_false. by exists s.
Qed.

Lemma count_positive users : bool_decide (0 < count users) = true <-> rows users ≠ [].
Proof.
  unfold count. rewrite bool_decide_eq_true. destruct (rows users); simpl; [|split; [done|lia]].
  split; [lia|done].
Qed.

(** Once a user exists, the setup handler refuses and writes nothing. *)
Lemma createAdmin_after_setup E request users :
  rows users ≠ [] ->
  exists error s, POST_createAdmin E request users = (json (Error error) s, users)
                  /\ (s = 400 \/ s = 403 \/ s = 500).
Proof.
  intros Hne. unfold POST_createAdmin. cbv zeta. destruct request as [b|]; [|by eauto 12].
  destruct (_ || _); [by eauto 12|].
  destruct (missing (INIT_ADMIN_PASS E)); [by eauto 12|].
  rewrite (proj2 (count_positive users) Hne). by eauto 12.
Qed.

(** The row the setup handler inserts. *)
Ltac refused :=
  split; [done|]; do 2 eexists; split; [reflexivity|]; lia.

Lemma createAdmin_cases E request users resp users' :
  POST_createAdmin E request users = (resp, users') ->
  (users' = users /\ exists error s, resp = json (Error error) s /\ (s = 400 \/ s = 403 \/ s = 500))
  \/ (rows users = []
      /\ exists b e p h,
           request = Some b /\ b_email b = Some e /\ e ≠ "" /\ b_password b = Some p
           /\ b_initAdminPass b = INIT_ADMIN_PASS E
           /\ emailRegex_test E e = true /\ hashPassword E p = Some h
           /\ let user := {| id := newId E (generated users); email := e; passwordHash := h;
                             role := "HR_Admin"; createdAt := now E |} in
              users' = {| rows := [user]; generated := S (generated users) |}
              /\ match signToken E (id user) "HR_Admin" with
                 | Some token => resp = json (Created token (id user) e "HR_Admin") 201
                 | None => resp = json (Error "Internal server error") 500
                 end).
Proof.
  unfold POST_createAdmin. cbv zeta.
  destruct request as [b|]; [|intros H; simplify_eq; left; refused].
  destruct (missing (b_email b)) eqn:Ee; cbn [orb];
    [intros H; simplify_eq; left; refused|].
  destruct (missing (b_password b)) eqn:Ep; cbn [orb];
    [intros H; simplify_eq; left; refused|].
  destruct (missing (b_initAdminPass b)) eqn:Ei; cbn [orb];
    [intros H; simplify_eq; left; refused|].
  destruct (missing (INIT_ADMIN_PASS E)); [intros H; simplify_eq; left; refused|].
  destruct (bool_decide (0 < count users)) eqn:Ec; [intros H; simplify_eq; left; refused|].
  destruct (bool_decide (b_initAdminPass b = _)) eqn:Epass; cbn [negb];
    [|intros H; simplify_eq; left; refused].
  apply missing_false in Ee as (e & He & Hne). apply missing_false in Ep as (p & Hp & _).
  rewrite He, Hp. change (default "" (Some e)) with e. change (default "" (Some p)) with p.
  destruct (emailRegex_test E e) eqn:Er; cbn [negb];
    [|intros H; simplify_eq; left; refused].
  assert (Hrows : rows users = []).
  { destruct (rows users) eqn:E0; [done|]. apply bool_decide_eq_false in Ec.
    unfold count in Ec. rewrite E0 in Ec. simpl in Ec. lia. }
  unfold findUnique_email. rewrite Hrows. cbn [find].
  destruct (hashPassword E p) as [h|] eqn:Eh; [|intros H; simplify_eq; left; refused].
  cbv zeta. cbn [id role Accounts.email app].
  apply bool_decide_eq_true in Epass.
  intros H. right. split; [done|]. exists b, e, p, h.
  repeat (split; [done|]). cbn [id].
  destruct (signToken E _ _); injection H as <- <-; by split.
Qed.

Lemma find_with_role (f : User -> User) t (l : list User) :
  (forall u, id (f u) = id u) ->
  List.find (fun u => bool_decide (id u = t)) (f <$> l)
  = f <$> List.find (fun u => bool_decide (id u = t)) l.
Proof.
  intros Hf. induction l as [|u l IH]; [done|]. rewrite fmap_cons. cbn [find].
  rewrite Hf. by destruct (bool_decide (id u = t)).
Qed.

Lemma find_id (t : string) (l : list User) u :
  List.find (fun u => bool_decide (id u = t)) l = Some u -> id u = t /\ u ∈ l.
Proof.
  intros [Hin H]%find_some. apply bool_decide_eq_true in H.
  split; [done|]. by apply list_elem_of_In.
Qed.

(** What a [PATCH] that passes the gate does. *)
Lemma PATCH_cases a request users resp users' :
  PATCH_users a request users = (resp, users') ->
  (users' = users /\ exists error s, resp = json (Error error) s
                     /\ (s = 400 \/ s = 401 \/ s = 403 \/ s = 404 \/ s = 500))
  \/ (admin_gate a users = None
      /\ exists t user,
           request = Some (Some t) /\ t ≠ ""
           /\ findUnique_id users t = Some user
           /\ resp = json (Updated (select (with_role user (newRole (role user))))) 200
           /\ users' = {| rows := (fun u => if bool_decide (id u = t)
                                            then with_role u (newRole (role user)) else u)
                                  <$> rows users;
                          generated := generated users |}).
Proof.
  unfold PATCH_users. destruct (admin_gate a users) as [refusal|] eqn:Eg.
  { intros [= <- <-]. left. split; [done|]. unfold admin_gate in Eg.
    destruct a as [a|]; [|injection Eg as <-; do 2 eexists; split; [reflexivity|]; lia].
    destruct (findUnique_id users a) as [cu|]; [|injection Eg as <-; do 2 eexists; split; [reflexivity|]; lia].
    destruct (bool_decide _); [done|]. injection Eg as <-; do 2 eexists; split; [reflexivity|]; lia. }
  destruct request as [userId|]; [|intros H; simplify_eq; left; refused].
  destruct (missing userId) eqn:Em; [intros H; simplify_eq; left; refused|].
  apply missing_false in Em as (t & -> & Hne). change (default "" (Some t)) with t.
  destruct (findUnique_id users t) as [user|] eqn:Ef; [|intros H; simplify_eq; left; refused].
  cbv zeta. intros [= <- <-]. right. split; [done|]. exists t, user.
  repeat (split; [done|]). split; [|done].
  apply find_id in Ef as [Hid _]. by rewrite bool_decide_eq_true_2.
Qed.

Lemma admin_gate_None a users :
  admin_gate a users = None <->
  exists i cu, a = Some i /\ findUnique_id users i = Some cu /\ role cu = "HR_Admin".
Proof.
  unfold admin_gate. split.
  - destruct a as [i|]; [|done]. destruct (findUnique_id users i) as [cu|] eqn:Ef; [|done].
    destruct (bool_decide (role cu = "HR_Admin")) eqn:E; [|done].
    apply bool_decide_eq_true in E. intros _. by exists i, cu.
  - intros (i & cu & -> & -> & H). by rewrite bool_decide_eq_true_2.
Qed.

Lemma admin_gate_Some a users refusal :
  admin_gate a users = Some refusal ->
  refusal = json (Error "Unauthorized") 401
  \/ refusal = json (Error "Forbidden: HR_Admin role required") 403.
Proof.
  unfold admin_gate. destruct a as [i|]; [|intros [= <-]; by left].
  destruct (findUnique_id users i) as [cu|]; [|intros [= <-]; by right].
  destruct (bool_decide _); [done|]. intros [= <-]; by right.
Qed.

Lemma PATCH_accepted a t user users :
  admin_gate a users = None -> t ≠ "" -> findUnique_id users t = Some user ->
  PATCH_users a (Some (Some t)) users
  = (json (Updated (select (with_role user (newRole (role user))))) 200,
     {| rows := (fun u => if bool_decide (id u = t)
                          then with_role u (newRole (role user)) else u) <$> rows users;
        generated := generated users |}).
Proof.
  intros Hg Hne Hf. unfold PATCH_users. rewrite Hg. cbn [missing].
  rewrite (bool_decide_eq_false_2 (t = "")) by done.
  change (default "" (Some t)) with t. rewrite Hf. cbv zeta.
  apply find_id in Hf as [Hid _]. by rewrite bool_decide_eq_true_2.
Qed.

Lemma patched_lookup users t r i :
  findUnique_id
    {| rows := (fun u => if bool_decide (id u = t) then with_role u r else u) <$> rows users;
       generated := generated users |} i
  = (fun u => if bool_decide (id u = t) then with_role u r else u) <$> findUnique_id users i.
Proof.
  unfold findUnique_id. cbn [rows]. apply find_with_role.
  intros u. by destruct (bool_decide (id u = t)).
Qed.

#[local] Instance newest_user_first_total : Total newest_user_first.
Proof. intros a b. unfold newest_user_first. lia. Qed.

#[local] Instance newest_user_first_trans : Transitive newest_user_first.
Proof. intros a b c. unfold newest_user_first. lia. Qed.

Lemma users_sorted (l : list User) :
  StronglySorted newest_user_first (merge_sort newest_user_first l).
Proof. apply (StronglySorted_merge_sort _). Qed.

End AccountFacts.

Module AccountExtras.
Import Accounts.



(** X20.  Setup is one-shot: once the setup handler has written a user, the
    availability check reports that users exist and every further setup
    request, whatever it carries, is refused with 400, 403 or 500 and
    leaves the table as it is. *)
Theorem createAdmin_is_one_shot E request users resp users' again :
  POST_createAdmin E request users = (resp, users') ->
  users' ≠ users ->
  GET_hasUsers users' = json (HasUsers true) 200
  /\ exists error s,
       POST_createAdmin E again users' = (json (Error error) s, users')
       /\ (s = 400 \/ s = 403 \/ s = 500).
Proof.
  intros [[-> _]|(_ & b & e & p & h & _ & _ & _ & _ & _ & _ & _ & H)]
    %AccountFacts.createAdmin_cases Hne; [done|].
  cbv zeta in H. destruct H as [-> _]. split; [done|].
  by apply AccountFacts.createAdmin_after_setup.
Qed.

Lemma createAdmin_is_one_shot_witness :
  GET_hasUsers {| rows := [Samples.root]; generated := 1 |} = json (HasUsers true) 200
  /\ exists error s,
       POST_createAdmin Samples.env (Some Samples.setup_request)
         {| rows := [Samples.root]; generated := 1 |}
       = (json (Error error) s, {| rows := [Samples.root]; generated := 1 |})
       /\ (s = 400 \/ s = 403 \/ s = 500).
Proof.
  apply (createAdmin_is_one_shot Samples.env (Some Samples.setup_request) Samples.no_users
           (json (Created "u0.HR_Admin" "u0" "root@hr.example" "HR_Admin") 201)
           {| rows := [Samples.root]; generated := 1 |} (Some Samples.setup_request)
           eq_refl).
  intros H. discriminate H.
Defined.

(** X21.  When signing the token throws, a setup request that is otherwise in
    order is answered 500, yet the administrator has been created: the
    same request sent again is refused with 403, and no token was ever
    handed out. *)
Theorem createAdmin_token_failure_keeps_admin E b e p h users :
  rows users = [] ->
  b_email b = Some e -> e ≠ "" -> b_password b = Some p -> p ≠ "" ->
  b_initAdminPass b = INIT_ADMIN_PASS E -> missing (INIT_ADMIN_PASS E) = false ->
  emailRegex_test E e = true -> hashPassword E p = Some h ->
  signToken E (newId E (generated users)) "HR_Admin" = None ->
  let user := {| id := newId E (generated users); email := e; passwordHash := h;
                 role := "HR_Admin"; createdAt := now E |} in
  let users' := {| rows := [user]; generated := S (generated users) |} in
  POST_createAdmin E (Some b) users = (json (Error "Internal server error") 500, users')
  /\ POST_createAdmin E (Some b) users'
     = (json (Error "Admin user already created.") 403, users').
Proof.
  intros Hrows He Hne Hp Hpne Hi Hm Hr Hh Hs. cbv zeta. unfold POST_createAdmin. cbv zeta.
  rewrite He, Hp, Hi, Hm. cbn [missing].
  rewrite !(bool_decide_eq_false_2 (_ = "")) by done. cbn [orb].
  rewrite (bool_decide_eq_true_2 (_ = _)) by done. cbn [negb].
  change (default "" (Some e)) with e. change (default "" (Some p)) with p.
  rewrite Hr, Hh. cbn [negb]. unfold findUnique_email, count. rewrite Hrows. cbn [length find].
  rewrite bool_decide_eq_false_2 by lia. cbv zeta. cbn [id role app]. rewrite Hs.
  split; [done|]. cbn [rows length]. by rewrite bool_decide_eq_true_2 by lia.
Qed.

Lemma createAdmin_token_failure_keeps_admin_witness :
  POST_createAdmin Samples.env_signing_fails (Some Samples.setup_request) Samples.no_users
  = (json (Error "Internal server error") 500,
     {| rows := [Samples.root]; generated := 1 |})
  /\ POST_createAdmin Samples.env_signing_fails (Some Samples.setup_request)
       {| rows := [Samples.root]; generated := 1 |}
     = (json (Error "Admin user already created.") 403,
        {| rows := [Samples.root]; generated := 1 |}).
Proof.
  assert (He : "root@hr.example" ≠ "") by discriminate.
  assert (Hp : "s3cret" ≠ "") by discriminate.
  exact (createAdmin_token_failure_keeps_admin Samples.env_signing_fails
           Samples.setup_request "root@hr.example" "s3cret" "hash:s3cret" Samples.no_users
           eq_refl eq_refl He eq_refl Hp eq_refl eq_refl eq_refl eq_refl eq_refl).
Defined.

(** X22.  The administration routes are closed to everyone but a stored
    HR_Admin: a caller without a credential is answered 401, a caller
    whose id is not stored or whose stored role is not HR_Admin is
    answered 403, and in both cases nothing is listed and no role is
    changed. *)
Theorem user_admin_routes_need_admin a request users :
  (forall i cu, a = Some i -> findUnique_id users i = Some cu -> role cu ≠ "HR_Admin") ->
  let refusal := match a with
                 | Some _ => json (Error "Forbidden: HR_Admin role required") 403
                 | None => json (Error "Unauthorized") 401
                 end in
  GET_users a users = refusal /\ PATCH_users a request users = (refusal, users).
Proof.
  intros H. cbv zeta. unfold GET_users, PATCH_users, admin_gate.
  destruct a as [i|]; [|done].
  destruct (findUnique_id users i) as [cu|] eqn:Ef; [|done].
  by rewrite bool_decide_eq_false_2 by (by eapply H).
Qed.

Lemma user_admin_routes_need_admin_witness :
  GET_users (Some "u2") Samples.staff = json (Error "Forbidden: HR_Admin role required") 403
  /\ PATCH_users (Some "u2") (Some (Some "u2")) Samples.staff
     = (json (Error "Forbidden: HR_Admin role required") 403, Samples.staff).
Proof.
  apply (user_admin_routes_need_admin (Some "u2") (Some (Some "u2")) Samples.staff).
  intros i cu Hi Hf. injection Hi as <-. vm_compute in Hf. injection Hf as <-.
  discriminate.
Defined.

(** X23.  For an HR_Admin, the listing holds every stored user exactly once,
    newest first, in the selected columns. *)
Theorem GET_users_lists_all_newest_first a users :
  admin_gate (Some a) users = None ->
  exists listed,
    GET_users (Some a) users = json (UserList listed) 200
    /\ listed ≡ₚ select <$> rows users
    /\ StronglySorted (fun x y => (sel_createdAt y <= sel_createdAt x)%Z) listed.
Proof.
  intros Hg. unfold GET_users. rewrite Hg. eexists. split; [done|]. split.
  - by rewrite merge_sort_Permutation.
  - pose proof (AccountFacts.users_sorted (rows users)) as Hs.
    induction Hs as [|u l Hs IH Hall]; [constructor|].
    rewrite fmap_cons. constructor; [done|].
    apply Forall_fmap. eapply Forall_impl; [exact Hall|]. by intros v.
Qed.

Lemma GET_users_lists_all_newest_first_witness :
  exists listed,
    GET_users (Some "u0") Samples.staff = json (UserList listed) 200
    /\ listed ≡ₚ select <$> rows Samples.staff
    /\ StronglySorted (fun x y => (sel_createdAt y <= sel_createdAt x)%Z) listed.
Proof. exact (GET_users_lists_all_newest_first "u0" Samples.staff eq_refl). Defined.

(** X24.  A [PATCH] that answers 200 was sent by an HR_Admin and named a stored
    user; it changes that user's role and nothing else: the table keeps
    its rows in place, with their ids, e-mails, password hashes and
    creation times, the role of every other user, and the id generator;
    the named user's role becomes Employee when it was HR_Admin and
    HR_Admin otherwise. *)
Theorem PATCH_changes_one_role a request users resp users' :
  PATCH_users a request users = (resp, users') ->
  status resp = 200 ->
  admin_gate a users = None
  /\ exists t user,
       request = Some (Some t) /\ findUnique_id users t = Some user
       /\ resp = json (Updated (select (with_role user (newRole (role user))))) 200
       /\ generated users' = generated users
       /\ Forall2 (fun u u' =>
                     id u' = id u /\ email u' = email u
                     /\ passwordHash u' = passwordHash u /\ createdAt u' = createdAt u
                     /\ role u' = if bool_decide (id u = t) then newRole (role user)
                                  else role u)
            (rows users) (rows users').
Proof.
  intros [[-> (error & s & -> & Hs)]|(Hg & t & user & -> & Hne & Hf & -> & ->)]
    %AccountFacts.PATCH_cases Hst.
  { simpl in Hst. lia. }
  split; [done|]. exists t, user. repeat (split; [done|]). cbn [rows].
  apply Forall2_fmap_r, Forall_Forall2_diag, Forall_forall. intros u _.
  unfold compose. by destruct (bool_decide (id u = t)).
Qed.

Lemma PATCH_changes_one_role_witness :
  admin_gate (Some "u0") Samples.staff = None
  /\ (role <$> rows (PATCH_users (Some "u0") (Some (Some "u1")) Samples.staff).2)
     = ["HR_Admin"; "HR_Admin"; "Employee"].
Proof.
  split; [|reflexivity].
  exact (proj1 (PATCH_changes_one_role (Some "u0") (Some (Some "u1")) Samples.staff
                  (PATCH_users (Some "u0") (Some (Some "u1")) Samples.staff).1
                  (PATCH_users (Some "u0") (Some (Some "u1")) Samples.staff).2
                  eq_refl eq_refl)).
Defined.

(** X25.  Toggling is not an involution.  Two successive toggles of a user by
    another HR_Admin both answer 200; they bring an HR_Admin or an
    Employee back to the role held before, but leave a user of any other
    role (HR_Manager, Finance) an Employee: the first toggle makes them
    HR_Admin and the role they held is lost. *)
Theorem PATCH_twice_restores_only_two_roles a t user users :
  admin_gate (Some a) users = None -> a ≠ t -> t ≠ "" ->
  findUnique_id users t = Some user ->
  let once := PATCH_users (Some a) (Some (Some t)) users in
  let twice := PATCH_users (Some a) (Some (Some t)) once.2 in
  status once.1 = 200 /\ status twice.1 = 200
  /\ (role <$> findUnique_id once.2 t) = Some (newRole (role user))
  /\ (role <$> findUnique_id twice.2 t)
     = Some (if bool_decide (role user = "HR_Admin") then "HR_Admin" else "Employee")
  /\ ((role <$> findUnique_id twice.2 t) = Some (role user)
      <-> role user = "HR_Admin" \/ role user = "Employee").
Proof.
  intros Hg Hat Hne Hf. cbv zeta.
  pose proof (AccountFacts.patched_lookup users t (newRole (role user))) as Hl.
  rewrite (AccountFacts.PATCH_accepted _ _ _ _ Hg Hne Hf). cbn [fst snd].
  set (users1 := {| rows := _; generated := _ |}) in *.
  assert (Hg1 : admin_gate (Some a) users1 = None).
  { apply AccountFacts.admin_gate_None in Hg as (i & cu & [= <-] & Hcu & Hr).
    apply AccountFacts.admin_gate_None. exists a, cu. split; [done|]. split; [|done].
    rewrite Hl, Hcu. simpl. apply AccountFacts.find_id in Hcu as [Hid _].
    by rewrite bool_decide_eq_false_2 by congruence. }
  assert (Hf1 : findUnique_id users1 t = Some (with_role user (newRole (role user)))).
  { rewrite Hl, Hf. simpl. apply AccountFacts.find_id in Hf as [Hid _].
    by rewrite bool_decide_eq_true_2. }
  rewrite (AccountFacts.PATCH_accepted _ _ _ _ Hg1 Hne Hf1). cbn [fst snd status json].
  split; [done|]. split; [done|]. split; [by rewrite Hf1|].
  rewrite AccountFacts.patched_lookup, Hf1. cbn [fmap option_fmap option_map with_role id role].
  apply AccountFacts.find_id in Hf as [Hid _]. rewrite bool_decide_eq_true_2 by done.
  cbn [with_role role]. unfold newRole.
  destruct (bool_decide (role user = "HR_Admin")) eqn:E.
  - apply bool_decide_eq_true in E. split; [done|]. rewrite E. split; [by left|done].
  - apply bool_decide_eq_false in E. split; [done|]. simpl. split.
    + intros [= <-]. by right.
    + intros [H|H]; [done|by rewrite H].
Qed.

Lemma PATCH_twice_restores_only_two_roles_witness :
  role Samples.manager = "HR_Manager"
  /\ (role <$> findUnique_id
                 (PATCH_users (Some "u0") (Some (Some "u1"))
                    (PATCH_users (Some "u0") (Some (Some "u1")) Samples.staff).2).2 "u1")
     = Some "Employee".
Proof.
  assert (Hat : "u0" ≠ "u1") by discriminate.
  assert (Hne : "u1" ≠ "") by discriminate.
  split; [reflexivity|].
  exact (proj1 (proj2 (proj2 (proj2
           (PATCH_twice_restores_only_two_roles "u0" "u1" Samples.manager Samples.staff
              eq_refl Hat Hne eq_refl))))).
Defined.

(** X26.  An HR_Admin may toggle their own role: the request answers 200 and
    makes them an Employee, after which the administration routes refuse
    them with 403.  When they were the only HR_Admin, no stored user is
    an HR_Admin any more, the administration routes refuse every caller,
    and setup refuses too, because the user table is not empty: no
    request can restore an administrator. *)
Theorem PATCH_self_demotion_locks_out a users :
  admin_gate (Some a) users = None -> a ≠ "" ->
  let after := PATCH_users (Some a) (Some (Some a)) users in
  status after.1 = 200
  /\ (role <$> findUnique_id after.2 a) = Some "Employee"
  /\ (forall request,
        GET_users (Some a) after.2 = json (Error "Forbidden: HR_Admin role required") 403
        /\ PATCH_users (Some a) request after.2
           = (json (Error "Forbidden: HR_Admin role required") 403, after.2))
  /\ ((forall u, u ∈ rows users -> role u = "HR_Admin" -> id u = a) ->
      admins after.2 = []
      /\ (forall caller request,
            exists refusal,
              GET_users caller after.2 = refusal
              /\ PATCH_users caller request after.2 = (refusal, after.2)
              /\ (status refusal = 401 \/ status refusal = 403))
      /\ (forall E request,
            exists error s,
              POST_createAdmin E request after.2 = (json (Error error) s, after.2)
              /\ (s = 400 \/ s = 403 \/ s = 500))).
Proof.
  intros Hg Hne. cbv zeta.
  pose proof Hg as (i & cu & [= <-] & Hcu & Hr)%AccountFacts.admin_gate_None.
  pose proof (AccountFacts.patched_lookup users a "Employee") as Hl.
  rewrite (AccountFacts.PATCH_accepted _ _ _ _ Hg Hne Hcu), Hr.
  change (newRole "HR_Admin") with "Employee". cbn [fst snd status json].
  set (users1 := {| rows := _; generated := _ |}) in *.
  pose proof Hcu as [Hid Hin]%AccountFacts.find_id.
  assert (Hf1 : findUnique_id users1 a = Some (with_role cu "Employee")).
  { rewrite Hl, Hcu. simpl. by rewrite bool_decide_eq_true_2. }
  assert (Hg1 : admin_gate (Some a) users1
                = Some (json (Error "Forbidden: HR_Admin role required") 403)).
  { unfold admin_gate. by rewrite Hf1. }
  split; [done|]. split; [by rewrite Hf1|]. split.
  { intros request. unfold GET_users, PATCH_users. by rewrite Hg1. }
  intros Honly.
  assert (Hnone : forall u, u ∈ rows users1 -> role u ≠ "HR_Admin").
  { intros u' (u & -> & Hu)%list_elem_of_fmap.
    destruct (bool_decide (id u = a)) eqn:E; [done|].
    apply bool_decide_eq_false in E. intros H. by apply E, Honly. }
  split; [|split].
  - unfold admins. destruct (List.filter _ _) as [|u l] eqn:Ef; [done|].
    assert (Hu : In u (List.filter (fun u => bool_decide (role u = "HR_Admin"))
                         (rows users1))) by (rewrite Ef; by left).
    apply filter_In in Hu as [Hu H]. apply bool_decide_eq_true in H.
    by apply list_elem_of_In, Hnone in Hu.
  - intros caller request. unfold GET_users, PATCH_users.
    destruct (admin_gate caller users1) as [refusal|] eqn:Eg.
    + eexists. split; [done|]. split; [done|].
      apply AccountFacts.admin_gate_Some in Eg as [->| ->]; [by left|by right].
    + apply AccountFacts.admin_gate_None in Eg as (j & cj & _ & [_ Hj]%AccountFacts.find_id & Hrj).
      by apply Hnone in Hj.
  - intros E request. apply AccountFacts.createAdmin_after_setup.
    intros Hnil. apply list_elem_of_fmap_2 with (f := fun u =>
      if bool_decide (id u = a) then with_role u "Employee" else u) in Hin.
    change (_ <$> rows users) with (rows users1) in Hin.
    rewrite Hnil in Hin. by apply elem_of_nil in Hin.
Qed.

Lemma PATCH_self_demotion_locks_out_witness :
  status (PATCH_users (Some "u0") (Some (Some "u0")) Samples.staff).1 = 200
  /\ admins (PATCH_users (Some "u0") (Some (Some "u0")) Samples.staff).2 = [].
Proof.
  assert (Hne : "u0" ≠ "") by discriminate.
  pose proof (PATCH_self_demotion_locks_out "u0" Samples.staff eq_refl Hne)
    as (Hs & _ & _ & Honly).
  split; [exact Hs|]. apply Honly.
  intros u Hu Hr. vm_compute in Hu.
  repeat (apply elem_of_cons in Hu as [->|Hu]); [reflexivity|discriminate Hr|discriminate Hr|].
  by apply elem_of_nil in Hu.
Defined.

End AccountExtras.

Module ClientExtras.
Import ClientAuth.

(** X27.  In the browser a stored token is read back as it was stored, and
    storing a token leaves the stored user alone; [clearAuth] removes
    both, after which nothing is read back, the client counts as signed
    out and no header is sent.  On the server, where there is no window,
    the setters do nothing and nothing is read. *)
Theorem token_round_trip JSON_parse token (b : Browser) :
  (window b = true ->
   getToken (setToken token b) = Some token
   /\ isAuthenticated (setToken token b) = true
   /\ getUser JSON_parse (setToken token b) = getUser JSON_parse b
   /\ getToken (clearAuth b) = None
   /\ getUser JSON_parse (clearAuth b) = None
   /\ isAuthenticated (clearAuth b) = false
   /\ getAuthHeaders (clearAuth b) = [])
  /\ (window b = false ->
      setToken token b = b /\ clearAuth b = b
      /\ getToken b = None /\ getUser JSON_parse b = None
      /\ isAuthenticated b = false /\ getAuthHeaders b = []).
Proof.
  split; intros Hw.
  - unfold isAuthenticated, getToken, getUser, getAuthHeaders, setToken, clearAuth,
      setItem, removeItem.
    rewrite Hw. cbn [negb window localStorage]. rewrite ?Hw. cbn [negb].
    rewrite lookup_insert_eq, lookup_insert_ne by done.
    rewrite lookup_delete_ne by done. rewrite !lookup_delete_eq.
    by repeat split.
  - unfold isAuthenticated, getToken, getUser, getAuthHeaders, setToken, clearAuth.
    by rewrite Hw.
Qed.

(** X28.  The Authorization header is sent exactly for a non-empty stored
    token, and carries it after the word Bearer; [isAuthenticated]
    counts every stored token.  The two disagree in one case only: with
    the empty string stored as token the client counts as signed in and
    its requests carry no credential. *)
Theorem header_needs_nonempty_token (b : Browser) :
  (forall h, h ∈ getAuthHeaders b ->
     exists token, token ≠ "" /\ getToken b = Some token
                   /\ h = ("Authorization", "Bearer " +:+ token)
                   /\ getAuthHeaders b = [h])
  /\ (getAuthHeaders b ≠ [] -> isAuthenticated b = true)
  /\ (isAuthenticated b = true /\ getAuthHeaders b = []
      <-> window b = true /\ localStorage b !! "token" = Some "").
Proof.
  unfold isAuthenticated, getToken, getAuthHeaders.
  destruct (window b); cbn [negb].
  2:{ split; [by intros h ?%elem_of_nil|]. split; [done|]. split; by intros [? ?]. }
  destruct (localStorage b !! "token") as [t|].
  2:{ split; [by intros h ?%elem_of_nil|]. split; [done|]. split; by intros [? ?]. }
  destruct (bool_decide (t = "")) eqn:E.
  - apply bool_decide_eq_true in E as ->.
    split; [by intros h ?%elem_of_nil|]. split; [done|]. by split.
  - apply bool_decide_eq_false in E. split.
    + intros h ->%list_elem_of_singleton. by exists t.
    + split; [done|]. split; [by intros [_ ?]|]. intros [_ [= ->]]. done.
Qed.

End ClientExtras.

Module StorageFacts.
Import Storage.

Lemma kept_underscore : kept underscore = false.
Proof. reflexivity. Qed.

Lemma sanitize_length name : String.length (sanitize name) = String.length name.
Proof. induction name as [|c name IH]; [done|]. simpl. by rewrite IH. Qed.

Lemma sanitize_chars name :
  Forall (fun c => kept c = true \/ c = underscore) (String.list_ascii_of_string (sanitize name)).
Proof.
  induction name as [|c name IH]; [constructor|]. simpl. constructor; [|done].
  destruct (kept c) eqn:E; [by left|by right].
Qed.

Lemma sanitize_idem name : sanitize (sanitize name) = sanitize name.
Proof.
  induction name as [|c name IH]; [done|]. simpl. rewrite IH. f_equal.
  destruct (kept c) eqn:E; [by rewrite E|by rewrite kept_underscore].
Qed.

Lemma sanitize_fixed name :
  sanitize name = name <-> Forall (fun c => kept c = true \/ c = underscore)
                             (String.list_ascii_of_string name).
Proof.
  induction name as [|c name IH]; [by split; [constructor|]|]. simpl. split.
  - intros [= Hc Hn]. constructor; [|by apply IH].
    destruct (kept c); [by left|by right].
  - intros [Hc Hn]%Forall_cons. rewrite (proj2 IH Hn). f_equal.
    destruct Hc as [-> | ->]; [done|by rewrite kept_underscore].
Qed.

End StorageFacts.

Module StorageExtras.
Import Storage.

(** X29.  Sanitizing keeps the length of a file name and every letter, digit,
    dot and hyphen where it stands, and puts an underscore for every
    other character; so the result never holds a path separator, a
    second pass changes nothing, and exactly the names made of letters,
    digits, dots, hyphens and underscores are left as they are (names
    made of dots alone among them). *)
Theorem sanitize_keeps_safe_characters name :
  String.length (sanitize name) = String.length name
  /\ Forall2 (fun c c' => c' = if kept c then c else underscore)
       (String.list_ascii_of_string name) (String.list_ascii_of_string (sanitize name))
  /\ Forall (fun c => c ≠ Ascii.ascii_of_nat 47 /\ c ≠ Ascii.ascii_of_nat 92)
       (String.list_ascii_of_string (sanitize name))
  /\ sanitize (sanitize name) = sanitize name
  /\ (sanitize name = name
      <-> Forall (fun c => kept c = true \/ c = underscore) (String.list_ascii_of_string name)).
Proof.
  split; [apply StorageFacts.sanitize_length|]. split; [|split; [|split]].
  - induction name as [|c name IH]; simpl; by constructor.
  - eapply Forall_impl; [apply StorageFacts.sanitize_chars|].
    intros c [H| ->]; [|by split]. split; by intros ->.
  - apply StorageFacts.sanitize_idem.
  - apply StorageFacts.sanitize_fixed.
Qed.

Section Fs.
Context {Fs : Type}.
Context (path_join : list string -> string).
Context (cwd : string).
Context (fs_access : string -> Fs -> HrTools.Outcome unit * Fs).
Context (fs_mkdir : string -> Fs -> HrTools.Outcome unit * Fs).
Context (fs_writeFile : string -> list Byte.byte -> Fs -> HrTools.Outcome unit * Fs).
Context (fs_unlink : string -> Fs -> HrTools.Outcome unit * Fs).

(** X30.  Which document URLs the helpers accept.  A URL handed out by
    [storeDocument] is the employee id, as given, and the sanitized file
    name under /documents/, returned once the file is written at the
    joined path of documents directory, employee id and sanitized name;
    it opens with /documents/, so the other helpers resolve it.  On such
    a URL [deleteDocument] never throws, a failing unlink being
    swallowed, and [documentExists] answers whether the joined path can
    be accessed.  On any other URL [deleteDocument] throws Invalid
    document URL and [documentExists] answers false, both without
    touching the file system. *)
Theorem document_url_guard url fs :
  (forall file filename employeeId fs0 fs',
     storeDocument path_join cwd fs_access fs_mkdir fs_writeFile file filename employeeId fs0
     = (HrTools.Returned url, fs') ->
     url = "/documents/" +:+ employeeId +:+ "/" +:+ sanitize filename
     /\ startsWith url "/documents/" = true
     /\ exists fs1,
          fs_writeFile
            (path_join [path_join [DOCUMENTS_DIR path_join cwd; employeeId];
                        sanitize filename])
            file fs1 = (HrTools.Returned tt, fs'))
  /\ if startsWith url "/documents/"
     then getDocumentPath path_join cwd url
          = HrTools.Returned (path_join [cwd; "public"; url])
          /\ deleteDocument path_join cwd fs_unlink url fs
             = (HrTools.Returned tt, (fs_unlink (path_join [cwd; "public"; url]) fs).2)
          /\ exists found,
               (documentExists path_join cwd fs_access url fs).1 = HrTools.Returned found
               /\ (found = true
                   <-> exists u, (fs_access (path_join [cwd; "public"; url]) fs).1
                                 = HrTools.Returned u)
     else getDocumentPath path_join cwd url = HrTools.Thrown "Invalid document URL"
          /\ deleteDocument path_join cwd fs_unlink url fs
             = (HrTools.Thrown "Invalid document URL", fs)
          /\ documentExists path_join cwd fs_access url fs = (HrTools.Returned false, fs).
Proof.
  split.
  - intros file filename employeeId fs0 fs'. unfold storeDocument.
    destruct (ensureDocumentsDir _ _ _ _ _) as [[[]|e] fs1]; [|done].
    destruct (fs_mkdir _ fs1) as [[[]|e] fs2]; [|done]. cbv zeta.
    destruct (fs_writeFile _ file fs2) as [[[]|e] fs3] eqn:Ew; [|done].
    intros [= <- <-]. split; [done|].
    split; [apply StringFacts.startsWith_app|by exists fs2].
  - unfold deleteDocument, documentExists, getDocumentPath.
    destruct (startsWith url "/documents/"); cbn [negb]; [|done].
    split; [done|]. split; [done|]. destruct (fs_access _ fs) as [[u|e] fs1]; simpl.
    + exists true. split; [done|]. split; [by exists u|done].
    + exists false. split; [done|]. split; [done|]. by intros [u ?].
Qed.

End Fs.

Lemma document_url_guard_witness :
  (storeDocument Samples.join "/srv" Samples.access Samples.mkdir Samples.writeFile
     [] "pay slip.pdf" "E2" ∅).1
  = HrTools.Returned "/documents/E2/pay_slip.pdf"
  /\ startsWith "/documents/E2/pay_slip.pdf" "/documents/" = true.
Proof.
  split; [reflexivity|].
  exact (proj1 (proj2
           (proj1 (document_url_guard Samples.join "/srv" Samples.access Samples.mkdir
                     Samples.writeFile Samples.unlink "/documents/E2/pay_slip.pdf" ∅)
              [] "pay slip.pdf" "E2" ∅
              (storeDocument Samples.join "/srv" Samples.access Samples.mkdir
                 Samples.writeFile [] "pay slip.pdf" "E2" ∅).2 eq_refl))).
Defined.

End StorageExtras.
